(** * node_api: the gateway in front of the Go data engine

    A shallow embedding of the request path of the gateway:

    - [app.js], the body parsers ahead of the routes and the error
      handler behind them;
    - the key check, [validateApiKey];
    - [routes/api/index.js], the router;
    - [controllers/api/goDataEngine.controller.js], in its two copies: the
      one with inline checks and the one written with [handleError] and
      [validateFields];
    - [services/goDataEngine.service.js], in its copies: rows forwarded as
      objects under [data] (with two [requestToGo]) and rows forwarded as
      column lists under [rows];
    - [callGoEngine], the helper of the application that consumes the
      gateway, and [cleanPayload] beside it;
    - [services/goProjects.service.js], the projects and instances of the
      administration;
    - [config/goClient.js], the generic client;
    - [controllers/admin/dashboard.controller.js], the login in front of
      the dashboard.

    JavaScript values are a first-order datatype, the outbound HTTP client
    is an oracle, and every handler runs in a small monad that records the
    calls made to the oracle and carries thrown values. Definitions come
    first, statements and proofs after them. *)

From Stdlib Require Import String Ascii List ZArith Bool Lia.
From Stdlib Require Import DecimalString.
From Stdlib Require DecimalNat.
Import ListNotations.
Local Open Scope list_scope.
Local Open Scope string_scope.

Set Warnings "-register-all".

(* ================================================================== *)
(** ** JavaScript values *)
(* ================================================================== *)

Module Js.

(** The values a JSON body, a payload or a thrown message can hold.
    Numbers are the integers (identifiers, counts, limits); an object is
    the list of its own enumerable properties in enumeration order, which
    is also the order in which the serializer writes them. Text is kept
    as the source spells it; where a string is enumerated character by
    character, one character of a [JStr] stands for one code unit. *)
Inductive JsVal : Type :=
| JUndef
| JNull
| JBool (b : bool)
| JNum (z : Z)
| JStr (s : string)
| JArr (l : list JsVal)
| JObj (o : list (string * JsVal)).

Definition Props := list (string * JsVal).

(** Property tables. *)
Fixpoint lookup (k : string) (o : Props) : option JsVal :=
  match o with
  | [] => None
  | (k', v) :: o' => if String.eqb k k' then Some v else lookup k o'
  end.

(** Writing a property of an object literal that is being built: an
    existing key keeps its place and takes the new value, a new key goes
    last (exact for keys that are not array indices, as are all the keys
    this program writes). *)
Fixpoint put (k : string) (v : JsVal) (o : Props) : Props :=
  match o with
  | [] => [(k, v)]
  | (k', v') :: o' =>
      if String.eqb k k' then (k', v) :: o' else (k', v') :: put k v o'
  end.

(** [Object.keys] of a property table. *)
Definition keys (o : Props) : list string := map fst o.

(** Decimal text of an array index and of a number. *)
Definition index_key (i : nat) : string :=
  NilEmpty.string_of_uint (Nat.to_uint i).

Definition number_text (z : Z) : string :=
  NilEmpty.string_of_int (Z.to_int z).

(** The index properties of an array or of a string, from index [i] on. *)
Fixpoint indexed {A : Type} (f : A -> JsVal) (i : nat) (l : list A) : Props :=
  match l with
  | [] => []
  | x :: l' => (index_key i, f x) :: indexed f (S i) l'
  end.

Definition chars (s : string) : list ascii := list_ascii_of_string s.

Definition char_val (c : ascii) : JsVal := JStr (String c EmptyString).

(** Own enumerable properties: what [{...v}], [Object.keys(v)] and
    [Object.entries(v)] enumerate. Spreading [null] or [undefined] adds
    nothing. *)
Definition own_props (v : JsVal) : Props :=
  match v with
  | JObj o => o
  | JArr l => indexed (fun x => x) 0 l
  | JStr s => indexed char_val 0 (chars s)
  | _ => []
  end.

(** [v == null]: [null] or [undefined]. *)
Definition is_nullish (v : JsVal) : bool :=
  match v with JUndef | JNull => true | _ => false end.

(** [v.k] for a value that is not [null] or [undefined]; the keys this
    program reads are never names of the built-in prototypes. *)
Definition prop (v : JsVal) (k : string) : JsVal :=
  match v with
  | JArr l =>
      if String.eqb k "length" then JNum (Z.of_nat (List.length l))
      else match lookup k (own_props v) with Some x => x | None => JUndef end
  | JStr s =>
      if String.eqb k "length" then JNum (Z.of_nat (String.length s))
      else match lookup k (own_props v) with Some x => x | None => JUndef end
  | _ => match lookup k (own_props v) with Some x => x | None => JUndef end
  end.

(** [k in v] for an object or an array. *)
Definition has_prop (v : JsVal) (k : string) : bool :=
  match v with
  | JArr _ =>
      String.eqb k "length" ||
      match lookup k (own_props v) with Some _ => true | None => false end
  | _ => match lookup k (own_props v) with Some _ => true | None => false end
  end.

(** [!!v]. *)
Definition truthy (v : JsVal) : bool :=
  match v with
  | JUndef | JNull => false
  | JBool b => b
  | JNum z => negb (Z.eqb z 0)
  | JStr s => negb (String.eqb s "")
  | JArr _ | JObj _ => true
  end.

(** [a || b], [a ?? b], and a parameter default [p = d]. *)
Definition or_else (a b : JsVal) : JsVal := if truthy a then a else b.
Definition coalesce (a b : JsVal) : JsVal := if is_nullish a then b else a.
Definition param_default (d a : JsVal) : JsVal :=
  match a with JUndef => d | _ => a end.

(** [Array.isArray(v)]. *)
Definition is_array (v : JsVal) : bool :=
  match v with JArr _ => true | _ => false end.

(** [v.length] of an array. *)
Definition array_length (v : JsVal) : nat :=
  match v with JArr l => List.length l | _ => 0 end.

(** [typeof v === "object"]. *)
Definition typeof_object (v : JsVal) : bool :=
  match v with JNull | JArr _ | JObj _ => true | _ => false end.

(** [l.join(sep)] on a list of strings. *)
Fixpoint join (sep : string) (l : list string) : string :=
  match l with
  | [] => ""
  | x :: l' =>
      match l' with
      | [] => x
      | _ :: _ => x ++ sep ++ join sep l'
      end
  end.

(** [String(v)], the text [new Error(v)] keeps as its message. *)
Fixpoint to_text (v : JsVal) : string :=
  match v with
  | JUndef => "undefined"
  | JNull => "null"
  | JBool true => "true"
  | JBool false => "false"
  | JNum z => number_text z
  | JStr s => s
  | JArr l =>
      join "," (map (fun x => if is_nullish x then "" else to_text x) l)
  | JObj _ => "[object Object]"
  end.

(** [s.split(",")]. *)
Fixpoint split_on (sep : ascii) (s : string) : list string :=
  match s with
  | EmptyString => [""]
  | String c s' =>
      if Ascii.eqb c sep then "" :: split_on sep s'
      else match split_on sep s' with
           | [] => [String c ""]
           | x :: r => String c x :: r
           end
  end.

(** [l.includes(x)] on a list of strings. *)
Definition includes (l : list string) (x : string) : bool :=
  existsb (String.eqb x) l.

End Js.

Import Js.

(* ================================================================== *)
(** ** Effects: thrown values, the HTTP client, the call log *)
(* ================================================================== *)

(** A thrown value, seen through the two fields the program reads:
    [err.response?.data] (present on an HTTP client error that carries a
    response) and [err.message]. *)
Record Thrown : Type := mkThrown {
  thrown_response : option JsVal;
  thrown_message : string
}.

(** [new Error(v)] and the runtime's [TypeError]s. *)
Definition new_Error (v : JsVal) : Thrown :=
  {| thrown_response := None; thrown_message := to_text v |}.

Definition TypeError (msg : string) : Thrown :=
  {| thrown_response := None; thrown_message := msg |}.

Definition cannot_read (v : JsVal) (k : string) : Thrown :=
  TypeError ("Cannot read properties of " ++ to_text v ++ " (reading '" ++ k ++ "')").

Definition cannot_destructure (src : string) (v : JsVal) (k : string) : Thrown :=
  TypeError ("Cannot destructure property '" ++ k ++ "' of '" ++ src ++ "' as it is "
             ++ to_text v ++ ".").

Definition cannot_convert : Thrown :=
  TypeError "Cannot convert undefined or null to object".

(** [err.response?.data]. *)
Definition response_data (e : Thrown) : JsVal :=
  match thrown_response e with Some d => d | None => JUndef end.

(** What one [axios.post] comes back with: the body of a 2xx response,
    or a rejection. *)
Inductive Reply : Type :=
| Replied (data : JsVal)
| Failed (e : Thrown).

(** The remote side, as a function of the path and the payload posted. *)
Definition Remote := string -> JsVal -> Reply.

(** One outbound call: path and payload. *)
Definition Call := (string * JsVal)%type.

Inductive result (A : Type) : Type :=
| Ok (a : A)
| Throw (e : Thrown).
Arguments Ok {A} a.
Arguments Throw {A} e.

(** A computation reads the remote side, appends to the log of calls made
    so far, and either returns or throws. *)
Definition M (A : Type) : Type := Remote -> list Call -> result A * list Call.

Definition ret {A : Type} (a : A) : M A := fun _ log => (Ok a, log).

Definition throw {A : Type} (e : Thrown) : M A := fun _ log => (Throw e, log).

Definition bind {A B : Type} (m : M A) (k : A -> M B) : M B :=
  fun remote log =>
    match m remote log with
    | (Ok a, log') => k a remote log'
    | (Throw e, log') => (Throw e, log')
    end.

(** [try { m } catch (err) { h err }]. *)
Definition try_catch {A : Type} (m : M A) (h : Thrown -> M A) : M A :=
  fun remote log =>
    match m remote log with
    | (Ok a, log') => (Ok a, log')
    | (Throw e, log') => h e remote log'
    end.

Declare Scope js_scope.
Delimit Scope js_scope with js.
Notation "x <- m ;; k" := (bind m (fun x => k))
  (at level 100, m at next level, right associativity) : js_scope.
Local Open Scope js_scope.

(** A step that makes no call. *)
Definition lift {A : Type} (r : result A) : M A :=
  match r with Ok a => ret a | Throw e => throw e end.

(** [await axios.post(url, payload, ...)], resolved to [res.data]. *)
Definition axios_post (path : string) (payload : JsVal) : M JsVal :=
  fun remote log =>
    match remote path payload with
    | Replied d => (Ok d, app log [(path, payload)])
    | Failed e => (Throw e, app log [(path, payload)])
    end.

(** [v.k] and [v[k]], throwing on [null] and [undefined]. *)
Definition get (v : JsVal) (k : string) : M JsVal :=
  if is_nullish v then throw (cannot_read v k) else ret (prop v k).

(** [const { k, ... } = src], where [src] evaluates to [v]: the first
    property read, throwing on [null] and [undefined]. *)
Definition destructure (src : string) (v : JsVal) (k : string) : M JsVal :=
  if is_nullish v then throw (cannot_destructure src v k) else ret (prop v k).

(** Builtins of the runtime that the model leaves uninterpreted. *)
Record Builtins : Type := mkBuiltins {
  Number : JsVal -> JsVal;
  JSON_stringify : JsVal -> string
}.

(** Object literals. *)
Definition obj (o : Props) : JsVal := JObj o.
Definition str (s : string) : JsVal := JStr s.

(* ================================================================== *)
(** ** services/goDataEngine.service.js *)
(* ================================================================== *)

(** The interface the controller imports (the default export). *)
Record Service : Type := mkService {
  svc_advancedSelect : JsVal -> M JsVal;
  svc_joinSelect : JsVal -> M JsVal;
  svc_insert : JsVal -> JsVal -> JsVal -> JsVal -> M JsVal;
  svc_batchInsert : JsVal -> JsVal -> JsVal -> JsVal -> M JsVal;
  svc_update : JsVal -> JsVal -> JsVal -> JsVal -> JsVal -> JsVal -> M JsVal;
  svc_batchUpdate : JsVal -> JsVal -> JsVal -> JsVal -> M JsVal;
  svc_delete : JsVal -> JsVal -> JsVal -> JsVal -> JsVal -> JsVal -> M JsVal;
  svc_aggregate : JsVal -> JsVal -> JsVal -> JsVal -> JsVal -> JsVal -> M JsVal
}.

(** [if (c) throw new Error(msg);] *)
Definition throw_if (c : bool) (msg : string) : M unit :=
  if c then throw (new_Error (str msg)) else ret tt.

(** [!v]. *)
Definition falsy (v : JsVal) : bool := negb (truthy v).

(** The three [requestToGo] of the repository. They post the same way and
    differ in the text of the error they throw. *)
Module RequestToGo.

(** [throw new Error(err.response?.data || err.message)] *)
Definition plain (endpoint : string) (payload : JsVal) : M JsVal :=
  try_catch (axios_post endpoint payload)
    (fun err =>
       throw (new_Error (or_else (response_data err) (str (thrown_message err))))).

(** [errorDetail = err.response?.data || err.message], thrown as
    [JSON.stringify(errorDetail)] when it is an object. *)
Definition stringified (B : Builtins) (endpoint : string) (payload : JsVal) : M JsVal :=
  try_catch (axios_post endpoint payload)
    (fun err =>
       let errorDetail := or_else (response_data err) (str (thrown_message err)) in
       throw (new_Error
                (if typeof_object errorDetail
                 then str (JSON_stringify B errorDetail)
                 else errorDetail))).

(** [throw new Error(err.response?.data?.error || err.message)] *)
Definition error_field (endpoint : string) (payload : JsVal) : M JsVal :=
  try_catch (axios_post endpoint payload)
    (fun err =>
       let d := response_data err in
       let e := if is_nullish d then JUndef else prop d "error" in
       throw (new_Error (or_else e (str (thrown_message err))))).

End RequestToGo.

(** The operations that read the same in every copy of the service. *)
Section Operations.

Variable B : Builtins.
Variable requestToGo : string -> JsVal -> M JsVal.

Definition advancedSelect (options : JsVal) : M JsVal :=
  project_id <- destructure "options" options "project_id" ;;
  let id_instancia := prop options "id_instancia" in
  let table := prop options "table" in
  let alias := prop options "alias" in
  let select := prop options "select" in
  let joins := prop options "joins" in
  let where_ := prop options "where" in
  let where_raw := prop options "where_raw" in
  let group_by := prop options "group_by" in
  let having := prop options "having" in
  let order_by := prop options "order_by" in
  let limit := prop options "limit" in
  let offset := prop options "offset" in
  _ <- throw_if (falsy project_id || falsy id_instancia || falsy table)
         "project_id, id_instancia e table são obrigatórios" ;;
  let payload := obj [
    ("project_id", Number B project_id);
    ("id_instancia", Number B id_instancia);
    ("table", table);
    ("alias", or_else alias (str ""));
    ("select", if is_array select then select else JArr []);
    ("joins", if is_array joins then joins else JArr []);
    ("where", if truthy where_ && typeof_object where_ then where_ else obj []);
    ("where_raw", or_else where_raw (str ""));
    ("group_by", or_else group_by (str ""));
    ("having", or_else having (str ""));
    ("order_by", or_else order_by (str ""));
    ("limit", or_else limit (JNum 0));
    ("offset", or_else offset (JNum 0)) ] in
  requestToGo "/data/select" payload.

Definition joinSelect (options : JsVal) : M JsVal :=
  project_id <- destructure "options" options "project_id" ;;
  let id_instancia := prop options "id_instancia" in
  let base := prop options "base" in
  let joins := param_default (JArr []) (prop options "joins") in
  let where_ := param_default (obj []) (prop options "where") in
  let where_raw := param_default (JArr []) (prop options "where_raw") in
  let group_by := param_default (str "") (prop options "group_by") in
  let having := param_default (str "") (prop options "having") in
  let order_by := param_default (str "") (prop options "order_by") in
  let limit := param_default JNull (prop options "limit") in
  let offset := param_default JNull (prop options "offset") in
  let base_table := if is_nullish base then JUndef else prop base "table" in
  _ <- throw_if (falsy project_id || falsy id_instancia || falsy base_table)
         "project_id, id_instancia e base.table são obrigatórios" ;;
  let payload := obj [
    ("project_id", project_id);
    ("id_instancia", id_instancia);
    ("base", base);
    ("joins", joins);
    ("where", where_);
    ("where_raw", where_raw);
    ("group_by", group_by);
    ("having", having);
    ("order_by", order_by);
    ("limit", limit);
    ("offset", offset) ] in
  requestToGo "/data/join-select" payload.

Definition update (project_id id_instancia table data where0 where_raw0 : JsVal)
  : M JsVal :=
  let where_ := param_default (obj []) where0 in
  let where_raw := param_default JNull where_raw0 in
  _ <- throw_if (falsy project_id || falsy id_instancia || falsy table || falsy data)
         "project_id, id_instancia, table e data são obrigatórios" ;;
  let payload := obj [
    ("project_id", project_id);
    ("id_instancia", id_instancia);
    ("table", table);
    ("data", data);
    ("where", or_else where_ (obj []));
    ("where_raw", or_else where_raw (str "")) ] in
  requestToGo "/data/update" payload.

Definition batchUpdate (project_id id_instancia table updates : JsVal) : M JsVal :=
  _ <- throw_if (falsy project_id || falsy id_instancia || falsy table
                 || negb (is_array updates))
         "project_id, id_instancia, table e updates (array) são obrigatórios" ;;
  let payload := obj [
    ("project_id", project_id);
    ("id_instancia", id_instancia);
    ("table", table);
    ("updates", or_else updates (JArr [])) ] in
  requestToGo "/data/batch-update" payload.

Definition deleteRecords (project_id id_instancia table where0 where_raw0 mode0 : JsVal)
  : M JsVal :=
  let where_ := param_default (obj []) where0 in
  let where_raw := param_default JNull where_raw0 in
  let mode := param_default (str "hard") mode0 in
  _ <- throw_if (falsy project_id || falsy id_instancia || falsy table)
         "project_id, id_instancia e table são obrigatórios" ;;
  requestToGo "/data/delete" (obj [
    ("project_id", project_id);
    ("id_instancia", id_instancia);
    ("table", table);
    ("where", where_);
    ("where_raw", where_raw);
    ("mode", mode) ]).

Definition aggregate (project_id id_instancia table operation column0 where0 : JsVal)
  : M JsVal :=
  let column := param_default JNull column0 in
  let where_ := param_default (obj []) where0 in
  _ <- throw_if (falsy project_id || falsy id_instancia || falsy table || falsy operation)
         "project_id, id_instancia, table e operation são obrigatórios" ;;
  requestToGo "/data/aggregate" (obj [
    ("project_id", project_id);
    ("id_instancia", id_instancia);
    ("table", table);
    ("operation", operation);
    ("column", column);
    ("where", where_) ]).

End Operations.

(** [l.map(f)] for a callback that may throw: the first throw ends it. *)
Fixpoint map_throwing {A C : Type} (f : A -> result C) (l : list A) : result (list C) :=
  match l with
  | [] => Ok []
  | x :: l' =>
      match f x with
      | Throw e => Throw e
      | Ok y =>
          match map_throwing f l' with
          | Throw e => Throw e
          | Ok ys => Ok (y :: ys)
          end
      end
  end.

(** The copies of the service that forward the rows as objects under
    [data]. *)
Module DataPayload.

Section Inserts.

Variable requestToGo : string -> JsVal -> M JsVal.

Definition insert (project_id id_instancia table data : JsVal) : M JsVal :=
  let payload := obj [
    ("project_id", coalesce project_id JNull);
    ("id_instancia", coalesce id_instancia JNull);
    ("table", coalesce table (str ""));
    ("data", coalesce data (obj [])) ] in
  _ <- throw_if (falsy (prop payload "project_id")) "project_id é obrigatório" ;;
  _ <- throw_if (falsy (prop payload "id_instancia")) "id_instancia é obrigatório" ;;
  _ <- throw_if (falsy (prop payload "table")) "table é obrigatória" ;;
  _ <- throw_if (Nat.eqb (List.length (keys (own_props (prop payload "data")))) 0)
         "data não pode ser vazio" ;;
  requestToGo "/data/insert" payload.

(** [row => ({ ...row, id_instancia: row.id_instancia ?? id_instancia })] *)
Definition with_instance (id_instancia row : JsVal) : result JsVal :=
  if is_nullish row then Throw (cannot_read row "id_instancia")
  else Ok (obj (put "id_instancia"
                  (coalesce (prop row "id_instancia") id_instancia)
                  (own_props row))).

Definition batchInsert (project_id id_instancia table data : JsVal) : M JsVal :=
  rows <- lift (match data with
                | JArr l =>
                    match map_throwing (with_instance id_instancia) l with
                    | Ok l' => Ok (JArr l')
                    | Throw e => Throw e
                    end
                | _ => Ok (JArr [])
                end) ;;
  let payload := obj [
    ("project_id", coalesce project_id JNull);
    ("id_instancia", coalesce id_instancia JNull);
    ("table", coalesce table (str ""));
    ("data", rows) ] in
  _ <- throw_if (falsy (prop payload "project_id")) "project_id é obrigatório" ;;
  _ <- throw_if (falsy (prop payload "id_instancia")) "id_instancia é obrigatório" ;;
  _ <- throw_if (falsy (prop payload "table")) "table é obrigatória" ;;
  _ <- throw_if (negb (is_array (prop payload "data"))
                 || Nat.eqb (array_length (prop payload "data")) 0)
         "data (array) não pode ser vazio" ;;
  requestToGo "/data/batch-insert" payload.

End Inserts.

Definition make (B : Builtins) (requestToGo : string -> JsVal -> M JsVal) : Service :=
  {| svc_advancedSelect := advancedSelect B requestToGo;
     svc_joinSelect := joinSelect requestToGo;
     svc_insert := insert requestToGo;
     svc_batchInsert := batchInsert requestToGo;
     svc_update := update requestToGo;
     svc_batchUpdate := batchUpdate requestToGo;
     svc_delete := deleteRecords requestToGo;
     svc_aggregate := aggregate requestToGo |}.

(** The copy whose [requestToGo] throws the detail as it is, and the copy
    that serializes an object detail first. *)
Definition service (B : Builtins) : Service := make B RequestToGo.plain.

Definition service_stringified (B : Builtins) : Service :=
  make B (RequestToGo.stringified B).

End DataPayload.

(** The copy of the service that forwards each row as a list of
    [{name, value}] column assignments, under [columns] and [rows]. *)
Module ColumnPayload.

(** [Object.entries(row).map(([key, value]) => ({ name: key, value }))] *)
Definition columns_of (row : JsVal) : result JsVal :=
  if is_nullish row then Throw cannot_convert
  else Ok (JArr (map (fun kv => obj [("name", str (fst kv)); ("value", snd kv)])
                     (own_props row))).

Definition requestToGo := RequestToGo.error_field.

Definition insert (project_id id_instancia table data : JsVal) : M JsVal :=
  _ <- throw_if (falsy project_id) "project_id é obrigatório" ;;
  _ <- throw_if (falsy id_instancia) "id_instancia é obrigatório" ;;
  _ <- throw_if (falsy table) "table é obrigatória" ;;
  _ <- throw_if (falsy data || Nat.eqb (List.length (keys (own_props data))) 0)
         "data não pode ser vazio" ;;
  columns <- lift (columns_of data) ;;
  let payload := obj [
    ("project_id", project_id);
    ("id_instancia", id_instancia);
    ("table", table);
    ("columns", columns) ] in
  requestToGo "/data/insert" payload.

Definition batchInsert (project_id id_instancia table data : JsVal) : M JsVal :=
  _ <- throw_if (falsy project_id) "project_id é obrigatório" ;;
  _ <- throw_if (falsy id_instancia) "id_instancia é obrigatória" ;;
  _ <- throw_if (falsy table) "table é obrigatória" ;;
  _ <- throw_if (negb (is_array data) || Nat.eqb (array_length data) 0)
         "data deve ser um array não vazio" ;;
  rows <- lift (match data with
                | JArr l =>
                    match map_throwing columns_of l with
                    | Ok l' => Ok (JArr l')
                    | Throw e => Throw e
                    end
                | _ => Ok (JArr [])
                end) ;;
  let payload := obj [
    ("project_id", project_id);
    ("id_instancia", id_instancia);
    ("table", table);
    ("rows", rows) ] in
  requestToGo "/data/batch-insert" payload.

Definition service (B : Builtins) : Service :=
  {| svc_advancedSelect := advancedSelect B requestToGo;
     svc_joinSelect := joinSelect requestToGo;
     svc_insert := insert;
     svc_batchInsert := batchInsert;
     svc_update := update requestToGo;
     svc_batchUpdate := batchUpdate requestToGo;
     svc_delete := deleteRecords requestToGo;
     svc_aggregate := aggregate requestToGo |}.

End ColumnPayload.

(* ================================================================== *)
(** ** Requests, responses, configuration *)
(* ================================================================== *)

Record Request : Type := mkRequest {
  req_headers : list (string * string);
  req_body : JsVal
}.

(** What [res.status(code).json(body)] writes. *)
Record Response : Type := mkResponse {
  res_status : Z;
  res_body : JsVal
}.

(** [process.env], read when a request arrives. *)
Record Env : Type := mkEnv {
  API_KEYS : option string
}.

(** [req.headers[name]] *)
Fixpoint header (hs : list (string * string)) (name : string) : option string :=
  match hs with
  | [] => None
  | (n, v) :: hs' => if String.eqb name n then Some v else header hs' name
  end.

(** [res.status(code).json(body)] *)
Definition status_json (code : Z) (body : JsVal) : M Response :=
  ret {| res_status := code; res_body := body |}.

(** [res.json(body)], status 200. *)
Definition json (body : JsVal) : M Response := status_json 200 body.

(* ================================================================== *)
(** ** middlewares/apiKey.middleware.js *)
(* ================================================================== *)

(** [process.env.API_KEYS ? process.env.API_KEYS.split(",") : []] *)
Definition validKeys (env : Env) : list string :=
  match API_KEYS env with
  | Some s => if String.eqb s "" then [] else split_on "," s
  | None => []
  end.

Definition unauthorized : Response :=
  {| res_status := 401;
     res_body := obj [("success", JBool false);
                      ("message", str "Chave de API inválida ou ausente")] |}.

(** [if (!key || !validKeys.includes(key)) return res.status(401).json(...);
    next();] *)
Definition validateApiKey (env : Env) (req : Request) (next : M Response) : M Response :=
  let key := header (req_headers req) "x-api-key" in
  match key with
  | None => ret unauthorized
  | Some k =>
      if String.eqb k "" || negb (includes (validKeys env) k)
      then ret unauthorized
      else next
  end.

(* ================================================================== *)
(** ** controllers/api/goDataEngine.controller.js *)
(* ================================================================== *)

(** What a controller file exports and the router imports. *)
Record ControllerModule : Type := mkController {
  ctl_insertRecord : Request -> M Response;
  ctl_batchInsert : Request -> M Response;
  ctl_advancedSelect : Request -> M Response;
  ctl_updateRecord : Request -> M Response;
  ctl_batchUpdate : Request -> M Response;
  ctl_deleteRecord : Request -> M Response;
  ctl_aggregate : Request -> M Response
}.

Module Controller.

Section Handlers.

Variable service : Service.

Definition bad_request (message : string) : M Response :=
  status_json 400 (obj [("success", JBool false); ("message", str message)]).

(** The [catch (err)] of every handler. *)
Definition server_error (message : string) (err : Thrown) : M Response :=
  status_json 500 (obj [("success", JBool false);
                        ("message", str message);
                        ("error", str (thrown_message err))]).

Definition success (message : string) (result : JsVal) : M Response :=
  json (obj [("success", JBool true); ("message", str message); ("data", result)]).

Definition insertRecord (req : Request) : M Response :=
  try_catch
    (project_id <- destructure "req.body" (req_body req) "project_id" ;;
     let id_instancia := prop (req_body req) "id_instancia" in
     let table := prop (req_body req) "table" in
     let data := prop (req_body req) "data" in
     if falsy project_id || falsy id_instancia || falsy table || falsy data
     then bad_request "project_id, id_instancia, table e data são obrigatórios"
     else
       result <- svc_insert service project_id id_instancia table data ;;
       success "Registro inserido com sucesso" result)
    (server_error "Erro ao inserir registro").

Definition batchInsert (req : Request) : M Response :=
  try_catch
    (project_id <- destructure "req.body" (req_body req) "project_id" ;;
     let id_instancia := prop (req_body req) "id_instancia" in
     let table := prop (req_body req) "table" in
     let data := prop (req_body req) "data" in
     if falsy project_id || falsy id_instancia || falsy table || negb (is_array data)
     then bad_request "project_id, id_instancia, table e data (array) são obrigatórios"
     else
       result <- svc_batchInsert service project_id id_instancia table data ;;
       success "Batch insert realizado com sucesso" result)
    (server_error "Erro ao inserir registros em lote").

Definition advancedSelect (req : Request) : M Response :=
  try_catch
    (let options := req_body req in
     project_id <- get options "project_id" ;;
     if falsy project_id || falsy (prop options "id_instancia")
        || falsy (prop options "table")
     then bad_request "project_id, id_instancia e table são obrigatórios"
     else
       result <- svc_advancedSelect service options ;;
       json (obj [("success", JBool true);
                  ("message", str "Consulta realizada com sucesso");
                  ("data", result);
                  ("count", if is_array result
                            then JNum (Z.of_nat (array_length result))
                            else JNum 0)]))
    (server_error "Erro ao executar consulta avançada").

Definition updateRecord (req : Request) : M Response :=
  try_catch
    (project_id <- destructure "req.body" (req_body req) "project_id" ;;
     let id_instancia := prop (req_body req) "id_instancia" in
     let table := prop (req_body req) "table" in
     let data := prop (req_body req) "data" in
     let where_ := prop (req_body req) "where" in
     let where_raw := prop (req_body req) "where_raw" in
     if falsy project_id || falsy id_instancia || falsy table || falsy data
     then bad_request "project_id, id_instancia, table e data são obrigatórios"
     else
       result <- svc_update service project_id id_instancia table data
                   (or_else where_ (obj [])) (or_else where_raw JNull) ;;
       success "Registro atualizado com sucesso" result)
    (server_error "Erro ao atualizar registro").

Definition batchUpdate (req : Request) : M Response :=
  try_catch
    (project_id <- destructure "req.body" (req_body req) "project_id" ;;
     let id_instancia := prop (req_body req) "id_instancia" in
     let table := prop (req_body req) "table" in
     let updates := prop (req_body req) "updates" in
     if falsy project_id || falsy id_instancia || falsy table || negb (is_array updates)
     then bad_request "project_id, id_instancia, table e updates (array) são obrigatórios"
     else
       result <- svc_batchUpdate service project_id id_instancia table updates ;;
       success "Batch update realizado com sucesso" result)
    (server_error "Erro ao atualizar registros em lote").

Definition deleteRecord (req : Request) : M Response :=
  try_catch
    (project_id <- destructure "req.body" (req_body req) "project_id" ;;
     let id_instancia := prop (req_body req) "id_instancia" in
     let table := prop (req_body req) "table" in
     let where_ := prop (req_body req) "where" in
     let where_raw := prop (req_body req) "where_raw" in
     let mode := prop (req_body req) "mode" in
     if falsy project_id || falsy id_instancia || falsy table
     then bad_request "project_id, id_instancia e table são obrigatórios"
     else
       result <- svc_delete service project_id id_instancia table
                   (or_else where_ (obj [])) (or_else where_raw JNull)
                   (or_else mode (str "hard")) ;;
       success "Registro(s) deletado(s) com sucesso" result)
    (server_error "Erro ao deletar registro(s)").

Definition aggregate (req : Request) : M Response :=
  try_catch
    (project_id <- destructure "req.body" (req_body req) "project_id" ;;
     let id_instancia := prop (req_body req) "id_instancia" in
     let table := prop (req_body req) "table" in
     let operation := prop (req_body req) "operation" in
     let column := prop (req_body req) "column" in
     let where_ := prop (req_body req) "where" in
     if falsy project_id || falsy id_instancia || falsy table || falsy operation
     then bad_request "project_id, id_instancia, table e operation são obrigatórios"
     else
       result <- svc_aggregate service project_id id_instancia table operation
                   (or_else column JNull) (or_else where_ (obj [])) ;;
       success "Agregação realizada com sucesso" result)
    (server_error "Erro ao executar agregação").

End Handlers.

Definition exports (service : Service) : ControllerModule :=
  {| ctl_insertRecord := insertRecord service;
     ctl_batchInsert := batchInsert service;
     ctl_advancedSelect := advancedSelect service;
     ctl_updateRecord := updateRecord service;
     ctl_batchUpdate := batchUpdate service;
     ctl_deleteRecord := deleteRecord service;
     ctl_aggregate := aggregate service |}.

End Controller.

(* ================================================================== *)
(** ** routes/api/index.js *)
(* ================================================================== *)

(** The operations the router mounts. *)
Inductive Operation : Type :=
| OpInsert | OpBatchInsert | OpGet | OpUpdate | OpBatchUpdate | OpDelete | OpAggregate.

Definition path_of (op : Operation) : string :=
  match op with
  | OpInsert => "/insert"
  | OpBatchInsert => "/batch-insert"
  | OpGet => "/get"
  | OpUpdate => "/update"
  | OpBatchUpdate => "/batch-update"
  | OpDelete => "/delete"
  | OpAggregate => "/aggregate"
  end.

(** The export that serves each operation. *)
Definition handler_of (controller : ControllerModule) (op : Operation)
  : Request -> M Response :=
  match op with
  | OpInsert => ctl_insertRecord controller
  | OpBatchInsert => ctl_batchInsert controller
  | OpGet => ctl_advancedSelect controller
  | OpUpdate => ctl_updateRecord controller
  | OpBatchUpdate => ctl_batchUpdate controller
  | OpDelete => ctl_deleteRecord controller
  | OpAggregate => ctl_aggregate controller
  end.

(** [router.post(path, validateApiKey, controller.handler)] *)
Definition router (env : Env) (controller : ControllerModule)
  : list (string * (Request -> M Response)) :=
  [ ("/insert",
     fun req => validateApiKey env req (ctl_insertRecord controller req));
    ("/batch-insert",
     fun req => validateApiKey env req (ctl_batchInsert controller req));
    ("/get",
     fun req => validateApiKey env req (ctl_advancedSelect controller req));
    ("/update",
     fun req => validateApiKey env req (ctl_updateRecord controller req));
    ("/batch-update",
     fun req => validateApiKey env req (ctl_batchUpdate controller req));
    ("/delete",
     fun req => validateApiKey env req (ctl_deleteRecord controller req));
    ("/aggregate",
     fun req => validateApiKey env req (ctl_aggregate controller req)) ].

(** The handler chain a POST to [path] runs. *)
Fixpoint route (table : list (string * (Request -> M Response))) (path : string)
  : option (Request -> M Response) :=
  match table with
  | [] => None
  | (p, h) :: table' => if String.eqb path p then Some h else route table' path
  end.

(** What the router does with a POST to the path of [op] that has reached
    it: [req] is the request as the middleware of [app.js] hands it over,
    its body already parsed. What comes before the router is [App.post],
    below. *)
Definition handle (env : Env) (controller : ControllerModule) (op : Operation)
           (req : Request) : M Response :=
  match route (router env controller) (path_of op) with
  | Some h => h req
  | None => status_json 404 JUndef
  end.

(* ================================================================== *)
(** ** app.js *)
(* ================================================================== *)

Module App.

(** What the body parsers, [express.urlencoded({ extended: true })] and
    [express.json()], make of the body of a request: a value left in
    [req.body], or an error handed to [next] (a JSON body that does not
    parse, a body over the size limit). *)
Inductive Parsing : Type :=
| Accepted (body : JsVal)
| Refused.

(** A request that comes in as a POST to [/api] and the path of an
    operation, and is a POST still when it reaches the router:
    [methodOverride("_method")] changes the method only of a request that
    names another one in its query, and the router has routes for POST
    alone. The static files and the session, mounted between the parsers
    and the routes, let a POST to [/api] through as it is. *)
Record Inbound : Type := mkInbound {
  in_headers : list (string * string);
  in_body : Parsing
}.

(** [app.use(express.urlencoded({ extended: true })); app.use(express.json());]
    The request as the routes get it, when the parsers raise no error. *)
Definition body_parsers (inbound : Inbound) : option Request :=
  match in_body inbound with
  | Accepted body => Some {| req_headers := in_headers inbound; req_body := body |}
  | Refused => None
  end.

(** [res.status(500).send("Erro interno")]: the text is the body, sent as
    it is and not as JSON. *)
Definition internal_error : Response :=
  {| res_status := 500; res_body := str "Erro interno" |}.

(** [app.use((err, req, res, next) => { console.error(err);
    res.status(500).send("Erro interno"); })] *)
Definition error_handler : M Response := ret internal_error.

(** [app.use("/api", apiRoutes)] behind the parsers, with the error handler
    at the end: an error of the parsers skips the routes and is answered
    by the error handler; otherwise the router takes the request. What a
    handler throws stays thrown here: the handlers are [async] functions,
    a throw rejects the promise the handler returns, and what becomes of
    a rejected promise is up to the release of Express in use. *)
Definition post (env : Env) (controller : ControllerModule) (op : Operation)
           (inbound : Inbound) : M Response :=
  match body_parsers inbound with
  | Some req => handle env controller op req
  | None => error_handler
  end.

End App.

(* ================================================================== *)
(** ** The controller written with [handleError] and [validateFields] *)
(* ================================================================== *)

Module HelperController.

(** The object a helper is handed as its [res] parameter. Only the
    response has a [status] method. *)
Inductive Handle : Type :=
| the_res
| the_req.

(** [res.status(code).json(body)] inside a helper. *)
Definition status_json_on (res : Handle) (code : Z) (body : JsVal) : M Response :=
  match res with
  | the_res => status_json code body
  | the_req => throw (TypeError "res.status is not a function")
  end.

Definition handleError (res : Handle) (context : string) (err : Thrown) : M Response :=
  status_json_on res 500 (obj [("success", JBool false);
                               ("message", str ("Erro ao " ++ context));
                               ("error", str (thrown_message err))]).

(** [f in body] throws unless [body] is an object or an array. *)
Definition in_operator (f : string) (body : JsVal) : result bool :=
  match body with
  | JObj _ | JArr _ => Ok (has_prop body f)
  | _ => Throw (TypeError ("Cannot use 'in' operator to search for '" ++ f
                           ++ "' in " ++ to_text body))
  end.

(** [f => !(f in body) || body[f] == null] *)
Definition is_missing (body : JsVal) (f : string) : result bool :=
  match in_operator f body with
  | Throw e => Throw e
  | Ok present => Ok (negb present || is_nullish (prop body f))
  end.

(** [requiredFields.filter(...)] *)
Fixpoint missing_fields (body : JsVal) (requiredFields : list string)
  : result (list string) :=
  match requiredFields with
  | [] => Ok []
  | f :: fs =>
      match is_missing body f with
      | Throw e => Throw e
      | Ok m =>
          match missing_fields body fs with
          | Throw e => Throw e
          | Ok rest => Ok (if m then f :: rest else rest)
          end
      end
  end.

(** Returns the response it wrote, or [null]. *)
Definition validateFields (res : Handle) (body : JsVal) (requiredFields : list string)
           (context : string) : M (option Response) :=
  missing <- lift (missing_fields body requiredFields) ;;
  if negb (Nat.eqb (List.length missing) 0)
  then
    r <- status_json_on res 400
           (obj [("success", JBool false);
                 ("message", str ("Campos obrigatórios ausentes para " ++ context
                                  ++ ": " ++ join ", " missing))]) ;;
    ret (Some r)
  else ret None.

Section Handlers.

Variable service : Service.

Definition success := Controller.success.

Definition insertRecord (req : Request) : M Response :=
  validationError <- validateFields the_req (req_body req)
                       ["project_id"; "id_instancia"; "table"; "data"] "insert" ;;
  match validationError with
  | Some r => ret r
  | None =>
      try_catch
        (let body := req_body req in
         result <- svc_insert service (prop body "project_id")
                     (prop body "id_instancia") (prop body "table") (prop body "data") ;;
         success "Registro inserido com sucesso" result)
        (handleError the_res "inserir registro")
  end.

Definition batchInsert (req : Request) : M Response :=
  validationError <- validateFields the_req (req_body req)
                       ["project_id"; "id_instancia"; "table"; "data"] "batch insert" ;;
  match validationError with
  | Some r => ret r
  | None =>
      if negb (is_array (prop (req_body req) "data"))
      then Controller.bad_request "data deve ser um array para batch insert"
      else
        try_catch
          (let body := req_body req in
           result <- svc_batchInsert service (prop body "project_id")
                       (prop body "id_instancia") (prop body "table") (prop body "data") ;;
           success "Batch insert realizado com sucesso" result)
          (handleError the_res "inserir registros em lote")
  end.

Definition advancedSelect (req : Request) : M Response :=
  validationError <- validateFields the_req (req_body req)
                       ["project_id"; "id_instancia"; "table"] "consulta avançada" ;;
  match validationError with
  | Some r => ret r
  | None =>
      try_catch
        (result <- svc_advancedSelect service (req_body req) ;;
         rows <- get result "data" ;;
         json (obj [("success", JBool true);
                    ("message", str "Consulta realizada com sucesso");
                    ("data", result);
                    ("count", if is_array rows
                              then JNum (Z.of_nat (array_length rows))
                              else JNum 0)]))
        (handleError the_res "executar consulta avançada")
  end.

Definition updateRecord (req : Request) : M Response :=
  validationError <- validateFields the_req (req_body req)
                       ["project_id"; "id_instancia"; "table"; "data"] "update" ;;
  match validationError with
  | Some r => ret r
  | None =>
      try_catch
        (let body := req_body req in
         result <- svc_update service (prop body "project_id")
                     (prop body "id_instancia") (prop body "table") (prop body "data")
                     (or_else (prop body "where") (obj []))
                     (or_else (prop body "where_raw") JNull) ;;
         success "Registro atualizado com sucesso" result)
        (handleError the_res "atualizar registro")
  end.

Definition batchUpdate (req : Request) : M Response :=
  validationError <- validateFields the_req (req_body req)
                       ["project_id"; "id_instancia"; "table"; "updates"] "batch update" ;;
  match validationError with
  | Some r => ret r
  | None =>
      if negb (is_array (prop (req_body req) "updates"))
      then Controller.bad_request "updates deve ser um array para batch update"
      else
        try_catch
          (let body := req_body req in
           result <- svc_batchUpdate service (prop body "project_id")
                       (prop body "id_instancia") (prop body "table")
                       (prop body "updates") ;;
           success "Batch update realizado com sucesso" result)
          (handleError the_res "atualizar registros em lote")
  end.

Definition deleteRecord (req : Request) : M Response :=
  validationError <- validateFields the_req (req_body req)
                       ["project_id"; "id_instancia"; "table"] "delete" ;;
  match validationError with
  | Some r => ret r
  | None =>
      try_catch
        (let body := req_body req in
         result <- svc_delete service (prop body "project_id")
                     (prop body "id_instancia") (prop body "table")
                     (or_else (prop body "where") (obj []))
                     (or_else (prop body "where_raw") JNull)
                     (or_else (prop body "mode") (str "hard")) ;;
         success "Registro(s) deletado(s) com sucesso" result)
        (handleError the_res "deletar registro(s)")
  end.

Definition aggregate (req : Request) : M Response :=
  validationError <- validateFields the_req (req_body req)
                       ["project_id"; "id_instancia"; "table"; "operation"] "aggregate" ;;
  match validationError with
  | Some r => ret r
  | None =>
      try_catch
        (let body := req_body req in
         result <- svc_aggregate service (prop body "project_id")
                     (prop body "id_instancia") (prop body "table")
                     (prop body "operation")
                     (or_else (prop body "column") JNull)
                     (or_else (prop body "where") (obj [])) ;;
         success "Agregação realizada com sucesso" result)
        (handleError the_res "executar agregação")
  end.

End Handlers.

Definition exports (service : Service) : ControllerModule :=
  {| ctl_insertRecord := insertRecord service;
     ctl_batchInsert := batchInsert service;
     ctl_advancedSelect := advancedSelect service;
     ctl_updateRecord := updateRecord service;
     ctl_batchUpdate := batchUpdate service;
     ctl_deleteRecord := deleteRecord service;
     ctl_aggregate := aggregate service |}.

End HelperController.

(* ================================================================== *)
(** ** The consumer of the gateway: [callGoEngine] *)
(* ================================================================== *)

Module Consumer.

Section Client.

(** [process.env.PROJECT_ID] and [process.env.ID_INSTANCIA]. *)
Variable PROJECT_ID : JsVal.
Variable INSTANCE_ID : JsVal.

(** [{ ...base, ...v }] *)
Definition spread_over (base : Props) (v : JsVal) : Props :=
  fold_left (fun acc kv => put (fst kv) (snd kv) acc) (own_props v) base.

(** The function as it stands: it returns at [return result.data.data],
    and the statements after it never run. *)
Definition callGoEngine (endpoint : string) (payload0 : JsVal) : M JsVal :=
  let payload := param_default (obj []) payload0 in
  try_catch
    (result <- axios_post ("/" ++ endpoint)
                 (obj (spread_over [("project_id", PROJECT_ID);
                                    ("id_instancia", INSTANCE_ID)] payload)) ;;
     inner <- get result "data" ;;
     get inner "data")
    (fun err =>
       let erroReal := or_else (response_data err) (str (thrown_message err)) in
       detail <- get erroReal "error" ;;
       _ <- get detail "1" ;;
       ret (JArr [])).

(** The statements below the early [return], which say what shape the
    caller is meant to get. *)
Definition normalize (result : JsVal) : JsVal :=
  let inner := if is_nullish result then JUndef else prop result "data" in
  let rows := if is_nullish inner then JUndef else prop inner "data" in
  if truthy rows && is_array rows then rows
  else if is_array result then result
  else if truthy result && typeof_object result then JArr [result]
  else JArr [].

End Client.

End Consumer.

(* ================================================================== *)
(** ** The consumer's payload helpers *)
(* ================================================================== *)

Module ConsumerHelpers.

(** [cleaned[key] = value], on the object [cleaned] that began as [{}]. A
    property is written as [put] writes it, under every key but
    [__proto__]: that name is the accessor of the prototype, and writing
    to it creates no property (it replaces the prototype of [cleaned]
    when [value] is an object or [null], and a [JsVal] holds no
    prototype). *)
Definition assign (key : string) (value : JsVal) (cleaned : Props) : Props :=
  if String.eqb key "__proto__" then cleaned else put key value cleaned.

(** [for (const key in payload) { const value = payload[key];
     if (value !== undefined) cleaned[key] = value; }] *)
Definition cleanPayload (payload : JsVal) : JsVal :=
  obj (fold_left
         (fun cleaned key =>
            let value := prop payload key in
            match value with
            | JUndef => cleaned
            | _ => assign key value cleaned
            end)
         (keys (own_props payload)) []).

End ConsumerHelpers.

(* ================================================================== *)
(** ** services/goProjects.service.js *)
(* ================================================================== *)

Module GoProjects.

(** A call through [axiosInstance]: the method and the path, and what
    goes with it, the [params] of a GET and the body of a POST or a PUT.
    It resolves to [response.data]. *)
Definition request (method url : string) (sent : JsVal) : M JsVal :=
  fun remote log =>
    match remote (method ++ " " ++ url) sent with
    | Replied d => (Ok d, app log [(method ++ " " ++ url, sent)])
    | Failed e => (Throw e, app log [(method ++ " " ++ url, sent)])
    end.

(** [value !== undefined && value !== null && value !== ""] *)
Definition given (value : JsVal) : bool :=
  match value with
  | JUndef | JNull => false
  | JStr s => negb (String.eqb s "")
  | _ => true
  end.

(** [for (const key of Object.keys(base)) { const value = input[key];
     if (...) payload[key] = value; }] *)
Fixpoint fill (input : JsVal) (ks : list string) (payload : Props) : result Props :=
  match ks with
  | [] => Ok payload
  | key :: ks' =>
      if is_nullish input then Throw (cannot_read input key)
      else
        let value := prop input key in
        fill input ks' (if given value then put key value payload else payload)
  end.

Definition buildPayload (base : Props) (input0 : JsVal) : result JsVal :=
  let input := param_default (obj []) input0 in
  match fill input (keys base) base with
  | Ok payload => Ok (obj payload)
  | Throw e => Throw e
  end.

Definition project_base : Props :=
  [("name", str ""); ("code", str ""); ("description", str ""); ("api_key", str "");
   ("type", str ""); ("version", str "1.0.0"); ("status", str "active")].

Definition buildProjectPayload (data0 : JsVal) : result JsVal :=
  buildPayload project_base (param_default (obj []) data0).

Definition instance_base : Props :=
  [("project_id", JNull); ("client_name", str ""); ("email", str ""); ("phone", str "");
   ("price", JNum 0); ("payment_day", JNull); ("name", str ""); ("code", str "");
   ("description", str ""); ("status", str "active"); ("settings", obj [])].

Definition buildInstancePayload (data0 : JsVal) : result JsVal :=
  buildPayload instance_base (param_default (obj []) data0).

Definition listProjects : M JsVal :=
  try_catch
    (data <- request "GET" "/projects" JUndef ;;
     if truthy data && is_array data then ret data
     else if truthy data && truthy (prop data "data") then ret (prop data "data")
     else ret (JArr []))
    (fun err =>
       throw (new_Error (or_else (response_data err) (str "Erro ao listar projetos")))).

Definition createProject (projectData : JsVal) : M JsVal :=
  try_catch
    (payload <- lift (buildProjectPayload projectData) ;;
     request "POST" "/projects" payload)
    (fun err => throw err).

Definition deleteProject (id : JsVal) : M JsVal :=
  try_catch
    (request "DELETE" ("/projects/" ++ to_text id) JUndef)
    (fun err =>
       throw (new_Error (or_else (response_data err) (str "Erro ao deletar projeto")))).

Definition listInstances (projectId0 : JsVal) : M JsVal :=
  let projectId := param_default JNull projectId0 in
  try_catch
    (let params := if truthy projectId then obj [("project_id", projectId)] else obj [] in
     data <- request "GET" "/instances" (obj [("params", params)]) ;;
     if is_array data then ret data
     else if truthy data && truthy (prop data "data") then ret (prop data "data")
     else ret (JArr []))
    (fun err =>
       throw (new_Error (or_else (response_data err) (str "Erro ao listar instâncias")))).

Definition createInstance (instanceData : JsVal) : M JsVal :=
  try_catch
    (payload <- lift (buildInstancePayload instanceData) ;;
     request "POST" "/instances" payload)
    (fun err => throw err).

Definition deleteInstance (id : JsVal) : M JsVal :=
  try_catch
    (request "DELETE" ("/instances/" ++ to_text id) JUndef)
    (fun err =>
       throw (new_Error (or_else (response_data err) (str "Erro ao deletar instância")))).

Section Lookup.

(** [a == b], which the model leaves uninterpreted. *)
Variable loose_eq : JsVal -> JsVal -> bool.

(** [items.find(p => p.id == id)] on the elements of a list. *)
Fixpoint find_by_id (id : JsVal) (l : list JsVal) : result JsVal :=
  match l with
  | [] => Ok JUndef
  | p :: l' =>
      if is_nullish p then Throw (cannot_read p "id")
      else if loose_eq (prop p "id") id then Ok p
      else find_by_id id l'
  end.

(** [items.find(...)] on what a listing returned under the name [name]. *)
Definition find_in (name : string) (items id : JsVal) : result JsVal :=
  match items with
  | JArr l => find_by_id id l
  | JUndef | JNull => Throw (cannot_read items "find")
  | _ => Throw (TypeError (name ++ ".find is not a function"))
  end.

Definition updateProject (id projectData : JsVal) : M JsVal :=
  try_catch
    (projects <- listProjects ;;
     current <- lift (find_in "projects" projects id) ;;
     _ <- throw_if (falsy current) "Projeto não encontrado para atualização" ;;
     payload <- lift (buildProjectPayload
                        (obj (Consumer.spread_over (own_props current) projectData))) ;;
     request "PUT" ("/projects/" ++ to_text id) payload)
    (fun err => throw err).

Definition updateInstance (id instanceData : JsVal) : M JsVal :=
  try_catch
    (project_id <- get instanceData "project_id" ;;
     _ <- throw_if (falsy project_id) "project_id é obrigatório para update de instância" ;;
     instances <- listInstances project_id ;;
     current <- lift (find_in "instances" instances id) ;;
     _ <- throw_if (falsy current) "Instância não encontrada" ;;
     payload <- lift (buildInstancePayload
                        (obj (Consumer.spread_over (own_props current) instanceData))) ;;
     request "PUT" ("/instances/" ++ to_text id) payload)
    (fun err => throw err).

End Lookup.

End GoProjects.

(* ================================================================== *)
(** ** config/goClient.js *)
(* ================================================================== *)

Module GoClient.

(** [goClient.request(config)], resolved to the response's [data]: the
    remote side is asked with the method and the url, and the rest of
    the configuration. *)
Definition client_request (url method data apiKey : JsVal) : M JsVal :=
  fun remote log =>
    let path := to_text method ++ " " ++ to_text url in
    let sent := obj [("data", data); ("headers", obj [("api_key", apiKey)])] in
    match remote path sent with
    | Replied d => (Ok d, app log [(path, sent)])
    | Failed e => (Throw e, app log [(path, sent)])
    end.

(** How the runtime names a parameter it cannot destructure. *)
Definition unnamed_source (v : JsVal) : string :=
  match v with JNull => "object null" | _ => "undefined" end.

(** [async function goRequest({ url, method = 'POST', apiKey, data })] *)
Definition goRequest (arg : JsVal) : M JsVal :=
  url <- destructure (unnamed_source arg) arg "url" ;;
  let method := param_default (str "POST") (prop arg "method") in
  let apiKey := prop arg "apiKey" in
  let data := prop arg "data" in
  try_catch
    (client_request url method data apiKey)
    (fun err =>
       match thrown_response err with
       | Some body =>
           ret (obj [("status", str "error");
                     ("message", or_else body (str "Erro no Go"))])
       | None =>
           ret (obj [("status", str "error");
                     ("message", str "Não foi possível conectar ao Go")])
       end).

Definition insert (apiKey table data : JsVal) : M JsVal :=
  goRequest (obj [("url", str "/insert"); ("apiKey", apiKey);
                  ("data", obj [("table", table); ("data", data)])]).

Definition getAll (apiKey table : JsVal) : M JsVal :=
  goRequest (obj [("url", str "/get"); ("apiKey", apiKey);
                  ("data", obj [("table", table)])]).

Definition update (apiKey table data query : JsVal) : M JsVal :=
  goRequest (obj [("url", str "/update"); ("apiKey", apiKey);
                  ("data", obj [("table", table); ("data", data); ("query", query)])]).

Definition remove (apiKey table query : JsVal) : M JsVal :=
  goRequest (obj [("url", str "/delete"); ("apiKey", apiKey);
                  ("data", obj [("table", table); ("query", query)])]).

Definition universal (apiKey payload : JsVal) : M JsVal :=
  goRequest (obj [("url", str "/universal"); ("apiKey", apiKey); ("data", payload)]).

End GoClient.

(* ================================================================== *)
(** ** controllers/admin/dashboard.controller.js and its routes *)
(* ================================================================== *)

Module Dashboard.

(** [process.env.ADMIN_PASSWORD || "senha_super_secreta"] *)
Definition ADMIN_PASSWORD (configured : option string) : string :=
  match configured with
  | Some s => if String.eqb s "" then "senha_super_secreta" else s
  | None => "senha_super_secreta"
  end.

(** [req.session], as far as these handlers use it. *)
Record Session : Type := mkSession {
  adminAuthenticated : JsVal
}.

(** What a handler does with the response. *)
Inductive Reaction : Type :=
| RedirectTo (location : string)
| Render (view : string) (locals : JsVal)
| InternalError.

(** A handler reads and writes the session and may call the engine. *)
Definition Handler : Type := Session -> M (Reaction * Session).

(** [password === ADMIN_PASSWORD] *)
Definition strictly_equal (password : JsVal) (expected : string) : bool :=
  match password with
  | JStr s => String.eqb s expected
  | _ => false
  end.

Section Handlers.

Variable configured : option string.

Definition loginPage : Handler :=
  fun session => ret (Render "admin/login" JUndef, session).

Definition login (body : JsVal) : Handler :=
  fun session =>
    password <- destructure "req.body" body "password" ;;
    if strictly_equal password (ADMIN_PASSWORD configured)
    then ret (RedirectTo "/admin/dashboard", {| adminAuthenticated := JBool true |})
    else ret (Render "admin/login" (obj [("error", str "Senha incorreta!")]), session).

(** [if (req.session.adminAuthenticated) return next();
     return res.redirect("/admin/login");] *)
Definition authMiddleware (next : Handler) : Handler :=
  fun session =>
    if truthy (adminAuthenticated session) then next session
    else ret (RedirectTo "/admin/login", session).

Definition dashboard : Handler :=
  fun session =>
    try_catch
      (projects <- GoProjects.listProjects ;;
       ret (Render "admin/dashboard" (obj [("projects", projects)]), session))
      (fun err =>
         ret (Render "admin/dashboard"
                     (obj [("projects", JArr []);
                           ("error", str "Erro ao carregar projetos")]),
              session)).

Definition logout : Handler :=
  fun session =>
    ret (RedirectTo "/admin/login", {| adminAuthenticated := JBool false |}).

(** The requests [dashboard.routes.js] mounts. *)
Inductive AdminRequest : Type :=
| GetLogin
| PostLogin (body : JsVal)
| GetDashboard
| GetLogout.

Definition route (req : AdminRequest) : Handler :=
  match req with
  | GetLogin => loginPage
  | PostLogin body => login body
  | GetDashboard => authMiddleware dashboard
  | GetLogout => authMiddleware logout
  end.

(** One request of a browser session: what a handler throws goes to the
    error handler of [app.js], and the session stays as it was. *)
Definition serve (req : AdminRequest) : Handler :=
  fun session =>
    try_catch (route req session) (fun _ => ret (InternalError, session)).

(** The requests of one browser session, in order. *)
Fixpoint serve_all (reqs : list AdminRequest) (session : Session)
  : M (list Reaction * Session) :=
  match reqs with
  | [] => ret ([], session)
  | req :: reqs' =>
      served <- serve req session ;;
      rest <- serve_all reqs' (snd served) ;;
      ret (fst served :: fst rest, snd rest)
  end.

End Handlers.

(** A session that has just been created. *)
Definition fresh : Session := {| adminAuthenticated := JUndef |}.

End Dashboard.

(* ================================================================== *)
(** ** Vocabulary of the statements *)
(* ================================================================== *)

(** The calls a computation makes, and what it ends with, from an empty
    log. *)
Definition forwarded {A : Type} (m : M A) (remote : Remote) : list Call :=
  snd (m remote []).

Definition outcome {A : Type} (m : M A) (remote : Remote) : result A :=
  fst (m remote []).

(** The copies of the service. *)
Definition services (B : Builtins) : list Service :=
  [ DataPayload.service B; DataPayload.service_stringified B; ColumnPayload.service B ].

(** The two copies of the controller, over a service. *)
Definition controllers (service : Service) : list ControllerModule :=
  [ Controller.exports service; HelperController.exports service ].

(** The copies that forward the rows under [data]. *)
Definition data_services (B : Builtins) : list Service :=
  [ DataPayload.service B; DataPayload.service_stringified B ].

(** The value each [requestToGo] hands to [new Error]. *)
Definition detail_plain (err : Thrown) : JsVal :=
  or_else (response_data err) (str (thrown_message err)).

Definition detail_stringified (B : Builtins) (err : Thrown) : JsVal :=
  let errorDetail := or_else (response_data err) (str (thrown_message err)) in
  if typeof_object errorDetail then str (JSON_stringify B errorDetail) else errorDetail.

Definition detail_error_field (err : Thrown) : JsVal :=
  or_else (if is_nullish (response_data err) then JUndef
           else prop (response_data err) "error")
          (str (thrown_message err)).

(** Each copy of the service with the detail its [requestToGo] throws. *)
Definition copies (B : Builtins) : list (Service * (Thrown -> JsVal)) :=
  [ (DataPayload.service B, detail_plain);
    (DataPayload.service_stringified B, detail_stringified B);
    (ColumnPayload.service B, detail_error_field) ].

(** One post, logged; a reply is returned, a rejection is thrown again as
    [new Error(detail err)]. *)
Definition posts_once (requestToGo : string -> JsVal -> M JsVal)
           (detail : Thrown -> JsVal) : Prop :=
  forall path payload remote log,
    requestToGo path payload remote log =
    match remote path payload with
    | Replied d => (Ok d, app log [(path, payload)])
    | Failed e => (Throw (new_Error (detail e)), app log [(path, payload)])
    end.

(** How a copy of the service is put together: its [requestToGo] and the
    operations built on it. *)
Record built_on (service : Service) (B : Builtins)
       (requestToGo : string -> JsVal -> M JsVal) (detail : Thrown -> JsVal) : Prop := {
  built_posts : posts_once requestToGo detail;
  built_select : svc_advancedSelect service = advancedSelect B requestToGo;
  built_update : svc_update service = update requestToGo;
  built_batchUpdate : svc_batchUpdate service = batchUpdate requestToGo;
  built_delete : svc_delete service = deleteRecords requestToGo;
  built_aggregate : svc_aggregate service = aggregate requestToGo
}.

Section OneShot.

Variable detail : Thrown -> JsVal.

(** What a computation that posts [payload] to [path] once comes to, when
    a reply is continued with [ok] and a rejection with [ko]. *)
Definition posting {A : Type} (path : string) (payload : JsVal)
           (ok : JsVal -> result A) (ko : Thrown -> result A) : M A :=
  fun remote log =>
    match remote path payload with
    | Replied d => (ok d, app log [(path, payload)])
    | Failed e => (ko e, app log [(path, payload)])
    end.

(** A service operation either throws before it posts, or posts once,
    returns the reply and throws a rejection again as
    [new Error(detail err)]. *)
Inductive one_shot (m : M JsVal) : Prop :=
| shot_throws (e : Thrown) :
    (forall remote log, m remote log = (Throw e, log)) -> one_shot m
| shot_posts (path : string) (payload : JsVal) :
    (forall remote log,
        m remote log
        = posting path payload Ok (fun e => Throw (new_Error (detail e))) remote log) ->
    one_shot m.

(** Every operation of a service is of that shape. *)
Record one_shot_service (service : Service) : Prop := {
  shot_select : forall o, one_shot (svc_advancedSelect service o);
  shot_insert : forall a b c d, one_shot (svc_insert service a b c d);
  shot_batchInsert : forall a b c d, one_shot (svc_batchInsert service a b c d);
  shot_update : forall a b c d e f, one_shot (svc_update service a b c d e f);
  shot_batchUpdate : forall a b c d, one_shot (svc_batchUpdate service a b c d);
  shot_delete : forall a b c d e f, one_shot (svc_delete service a b c d e f);
  shot_aggregate : forall a b c d e f, one_shot (svc_aggregate service a b c d e f)
}.

(** A handler either answers without posting, or throws without posting
    and writes nothing, or posts once and answers [ok d] to a reply [d]
    and a 500 carrying the thrown text to a rejection. *)
Inductive answers (h : M Response) : Prop :=
| answers_locally (r : Response) :
    (forall remote log, h remote log = (Ok r, log)) -> answers h
| answers_nothing (e : Thrown) :
    (forall remote log, h remote log = (Throw e, log)) -> answers h
| answers_after (path : string) (payload : JsVal) (ok : JsVal -> Response)
                (message : string) :
    (forall remote log,
        h remote log
        = posting path payload (fun d => Ok (ok d))
            (fun e => Ok {| res_status := 500;
                            res_body := obj [("success", JBool false);
                                             ("message", str message);
                                             ("error", str (to_text (detail e)))] |})
            remote log) ->
    answers h.

End OneShot.

(** The body fields each operation requires (section 6 of the
    specification; the names in each handler's 400 message). *)
Definition required (op : Operation) : list string :=
  match op with
  | OpInsert => ["project_id"; "id_instancia"; "table"; "data"]
  | OpBatchInsert => ["project_id"; "id_instancia"; "table"; "data"]
  | OpGet => ["project_id"; "id_instancia"; "table"]
  | OpUpdate => ["project_id"; "id_instancia"; "table"; "data"]
  | OpBatchUpdate => ["project_id"; "id_instancia"; "table"; "updates"]
  | OpDelete => ["project_id"; "id_instancia"; "table"]
  | OpAggregate => ["project_id"; "id_instancia"; "table"; "operation"]
  end.

(** The body does not carry the field. *)
Definition absent (body : JsVal) (f : string) : Prop :=
  lookup f (own_props body) = None.

(** The request carries a key that [validateApiKey] lets through. *)
Definition authorized (env : Env) (req : Request) : Prop :=
  exists k, header (req_headers req) "x-api-key" = Some k
            /\ k <> "" /\ In k (validKeys env).

(** The comma-separated entries of the variable, when it is set. *)
Definition allow_list (env : Env) : list string :=
  match API_KEYS env with
  | Some s => split_on "," s
  | None => []
  end.

(** The request has no key, or a key that is not an entry of the list. *)
Definition unlisted (env : Env) (req : Request) : Prop :=
  match header (req_headers req) "x-api-key" with
  | None => True
  | Some k => ~ In k (allow_list env)
  end.

(** The inbound request whose body the parsers turn into the body of
    [req]. *)
Definition arriving (req : Request) : App.Inbound :=
  {| App.in_headers := req_headers req; App.in_body := App.Accepted (req_body req) |}.

(** The inbound request with the headers of [req] whose body the parsers
    refuse. *)
Definition unparsable (req : Request) : App.Inbound :=
  {| App.in_headers := req_headers req; App.in_body := App.Refused |}.

(** The responses the statements name. *)
Definition rejection (code : Z) (message : string) : Response :=
  {| res_status := code;
     res_body := obj [("success", JBool false); ("message", str message)] |}.

Definition failure_response (message text : string) : Response :=
  {| res_status := 500;
     res_body := obj [("success", JBool false);
                      ("message", str message);
                      ("error", str text)] |}.


(** The request passes the checks of a handler that requires the three
    identifiers. *)
Definition identified (body : JsVal) : bool :=
  truthy (prop body "project_id") && truthy (prop body "id_instancia")
  && truthy (prop body "table").

(** The body is an object or an array, as the JSON body parser leaves it. *)
Definition parsed (body : JsVal) : Prop :=
  match body with JObj _ | JArr _ => True | _ => False end.

(** The required fields that are absent from the body or [null] in it. *)
Definition missing_of (body : JsVal) (fields : list string) : list string :=
  filter (fun f => negb (has_prop body f) || is_nullish (prop body f)) fields.

Definition not_nullish (v : JsVal) : Prop := is_nullish v = false.

(** The text starts with a decimal digit, as the key of every array
    index does and no field name of this program does. *)
Definition starts_with_digit (k : string) : bool :=
  match k with
  | EmptyString => false
  | String c _ =>
      (Nat.leb 48 (nat_of_ascii c) && Nat.leb (nat_of_ascii c) 57)%bool
  end.

(** The character occurs in the text. *)
Fixpoint mentions (c : ascii) (s : string) : bool :=
  match s with
  | EmptyString => false
  | String a s' => Ascii.eqb a c || mentions c s'
  end.

(** The payload [deleteRecord] hands down for a body. *)
Definition delete_payload (body : JsVal) : JsVal :=
  obj [("project_id", prop body "project_id");
       ("id_instancia", prop body "id_instancia");
       ("table", prop body "table");
       ("where", or_else (prop body "where") (obj []));
       ("where_raw", or_else (prop body "where_raw") JNull);
       ("mode", or_else (prop body "mode") (str "hard"))].

(** The payload [aggregate] hands down for a body. *)
Definition aggregate_payload (body : JsVal) : JsVal :=
  obj [("project_id", prop body "project_id");
       ("id_instancia", prop body "id_instancia");
       ("table", prop body "table");
       ("operation", prop body "operation");
       ("column", or_else (prop body "column") JNull);
       ("where", or_else (prop body "where") (obj []))].

(** The row built for [row] when it is not [null] or [undefined]. *)
Definition merged_row (v row : JsVal) : JsVal :=
  obj (put "id_instancia" (coalesce (prop row "id_instancia") v) (own_props row)).

(** The properties of a row other than [id_instancia], in order. *)
Definition others (o : Props) : Props :=
  filter (fun kv => negb (String.eqb "id_instancia" (fst kv))) o.

(** The batch request is one the controller and the service let through. *)
Definition batch_accepted (body : JsVal) (rs : list JsVal) : Prop :=
  identified body = true /\ prop body "data" = JArr rs /\ rs <> []
  /\ Forall not_nullish rs.

(** The row the specification expects to go out for [row]: the row with
    [id_instancia: v] added when it has none, the row itself when it has
    one. *)
Definition claimed_row (v row : JsVal) : JsVal :=
  match lookup "id_instancia" (own_props row) with
  | None => obj (app (own_props row) [("id_instancia", v)])
  | Some _ => row
  end.

(** The row that does go out under [data]: [null] and [undefined] count
    as no value. *)
Definition data_row (v row row' : JsVal) : Prop :=
  match lookup "id_instancia" (own_props row) with
  | None => row' = obj (app (own_props row) [("id_instancia", v)])
  | Some w =>
      if is_nullish w
      then row' = obj (put "id_instancia" v (own_props row))
           /\ prop row' "id_instancia" = v
      else row' = obj (own_props row)
  end.

(** The row that goes out under [rows]: one [{name, value}] per property
    of the input row, nothing added. *)
Definition column_row (row row' : JsVal) : Prop :=
  row' = JArr (map (fun kv => obj [("name", str (fst kv)); ("value", snd kv)])
                   (own_props row)).

(** The [context] each handler passes. *)
Definition context_of (op : Operation) : string :=
  match op with
  | OpInsert => "insert"
  | OpBatchInsert => "batch insert"
  | OpGet => "consulta avançada"
  | OpUpdate => "update"
  | OpBatchUpdate => "batch update"
  | OpDelete => "delete"
  | OpAggregate => "aggregate"
  end.

(** A remote side that replies [d] to every post. *)
Definition replying (d : JsVal) : Remote := fun _ _ => Replied d.

(* ================================================================== *)
(** ** Vocabulary of the further statements *)
(* ================================================================== *)

(** The engine path the service posts to for each operation the router
    mounts ([requestToGo("/data/...", payload)] in each function). *)
Definition engine_path (op : Operation) : string :=
  match op with
  | OpInsert => "/data/insert"
  | OpBatchInsert => "/data/batch-insert"
  | OpGet => "/data/select"
  | OpUpdate => "/data/update"
  | OpBatchUpdate => "/data/batch-update"
  | OpDelete => "/data/delete"
  | OpAggregate => "/data/aggregate"
  end.

(** A computation that makes no call. *)
Definition quiet {A : Type} (m : M A) : Prop :=
  forall remote log, snd (m remote log) = log.

(** A computation that makes no call, or one call, to [path]. *)
Definition only_to (path : string) {A : Type} (m : M A) : Prop :=
  forall remote log,
    snd (m remote log) = log
    \/ exists payload, snd (m remote log) = app log [(path, payload)].

(** The engine path of each operation of a service. *)
Definition posts_to_engine (service : Service) : Prop :=
  (forall o, only_to (engine_path OpGet) (svc_advancedSelect service o))
  /\ (forall a b c d, only_to (engine_path OpInsert) (svc_insert service a b c d))
  /\ (forall a b c d, only_to (engine_path OpBatchInsert) (svc_batchInsert service a b c d))
  /\ (forall a b c d e f, only_to (engine_path OpUpdate) (svc_update service a b c d e f))
  /\ (forall a b c d, only_to (engine_path OpBatchUpdate) (svc_batchUpdate service a b c d))
  /\ (forall a b c d e f, only_to (engine_path OpDelete) (svc_delete service a b c d e f))
  /\ (forall a b c d e f, only_to (engine_path OpAggregate) (svc_aggregate service a b c d e f)).

(** The payload [advancedSelect] builds for a body. *)
Definition select_payload (B : Builtins) (body : JsVal) : JsVal :=
  obj [("project_id", Number B (prop body "project_id"));
       ("id_instancia", Number B (prop body "id_instancia"));
       ("table", prop body "table");
       ("alias", or_else (prop body "alias") (str ""));
       ("select", if is_array (prop body "select") then prop body "select" else JArr []);
       ("joins", if is_array (prop body "joins") then prop body "joins" else JArr []);
       ("where", if truthy (prop body "where") && typeof_object (prop body "where")
                 then prop body "where" else obj []);
       ("where_raw", or_else (prop body "where_raw") (str ""));
       ("group_by", or_else (prop body "group_by") (str ""));
       ("having", or_else (prop body "having") (str ""));
       ("order_by", or_else (prop body "order_by") (str ""));
       ("limit", or_else (prop body "limit") (JNum 0));
       ("offset", or_else (prop body "offset") (JNum 0))].

(** The fields of a select payload that the caller may leave out. *)
Definition select_optional : list string :=
  ["alias"; "select"; "joins"; "where"; "where_raw"; "group_by"; "having";
   "order_by"; "limit"; "offset"].

(** The payload [joinSelect] builds for its options. *)
Definition join_payload (options : JsVal) : JsVal :=
  obj [("project_id", prop options "project_id");
       ("id_instancia", prop options "id_instancia");
       ("base", prop options "base");
       ("joins", param_default (JArr []) (prop options "joins"));
       ("where", param_default (obj []) (prop options "where"));
       ("where_raw", param_default (JArr []) (prop options "where_raw"));
       ("group_by", param_default (str "") (prop options "group_by"));
       ("having", param_default (str "") (prop options "having"));
       ("order_by", param_default (str "") (prop options "order_by"));
       ("limit", param_default JNull (prop options "limit"));
       ("offset", param_default JNull (prop options "offset"))].

(** [options.base?.table] is truthy, with the two identifiers. *)
Definition join_accepted (options : JsVal) : bool :=
  truthy (prop options "project_id") && truthy (prop options "id_instancia")
  && truthy (if is_nullish (prop options "base") then JUndef
             else prop (prop options "base") "table").

(** The payload that leaves for an update. *)
Definition update_payload (body : JsVal) : JsVal :=
  obj [("project_id", prop body "project_id");
       ("id_instancia", prop body "id_instancia");
       ("table", prop body "table");
       ("data", prop body "data");
       ("where", or_else (prop body "where") (obj []));
       ("where_raw", or_else (prop body "where_raw") (str ""))].

(** The payload that leaves for a batch update. *)
Definition batch_update_payload (body : JsVal) : JsVal :=
  obj [("project_id", prop body "project_id");
       ("id_instancia", prop body "id_instancia");
       ("table", prop body "table");
       ("updates", prop body "updates")].

(** The [{name, value}] list built from the properties of a record. *)
Definition column_list (data : JsVal) : JsVal :=
  JArr (map (fun kv => obj [("name", str (fst kv)); ("value", snd kv)])
            (own_props data)).

(** What a column list says, read back as pairs of name and value. *)
Definition read_columns (columns : JsVal) : list (JsVal * JsVal) :=
  match columns with
  | JArr l => map (fun c => (prop c "name", prop c "value")) l
  | _ => []
  end.

(** [Array.isArray(v) ? v.length : 0] *)
Definition length_or_zero (v : JsVal) : JsVal :=
  if is_array v then JNum (Z.of_nat (array_length v)) else JNum 0.

(** An insert the controller and the service let through: the three
    identifiers, and a [data] that is truthy and has a property. *)
Definition insert_accepted (body : JsVal) : Prop :=
  identified body = true /\ truthy (prop body "data") = true
  /\ own_props (prop body "data") <> [].

(** The list of rows is empty, or one of its entries is [null] or
    [undefined]. *)
Definition unusable_rows (rs : list JsVal) : Prop :=
  rs = [] \/ Exists (fun r => is_nullish r = true) rs.

(** A remote side that rejects every post with [err]. *)
Definition failing (err : Thrown) : Remote := fun _ _ => Failed err.

(** The check each handler of the controller with inline checks makes
    before it calls the service: the three identifiers are truthy, and
    so is [data] or [operation] where one is required; for the batch
    operations, [data] or [updates] is a list. *)
Definition passes_inline_checks (op : Operation) (body : JsVal) : bool :=
  identified body
  && match op with
     | OpInsert | OpUpdate => truthy (prop body "data")
     | OpBatchInsert => is_array (prop body "data")
     | OpBatchUpdate => is_array (prop body "updates")
     | OpAggregate => truthy (prop body "operation")
     | OpGet | OpDelete => true
     end.

(** The field a batch operation wants as a list. *)
Definition list_field (op : Operation) : option string :=
  match op with
  | OpBatchInsert => Some "data"
  | OpBatchUpdate => Some "updates"
  | _ => None
  end.

(** A rejection with no response received, and one with a response
    body. *)
Definition no_response (message : string) : Thrown :=
  {| thrown_response := None; thrown_message := message |}.

Definition error_response (body : JsVal) (message : string) : Thrown :=
  {| thrown_response := Some body; thrown_message := message |}.

(** The fields [callGoEngine] writes before it spreads the payload. *)
Definition engine_identity (PROJECT_ID INSTANCE_ID : JsVal) : Props :=
  [("project_id", PROJECT_ID); ("id_instancia", INSTANCE_ID)].

(** The two copies of the controller, by name. *)
Inductive ControllerCopy : Type :=
| InlineChecks
| WithHelpers.

Definition controller_copy (copy : ControllerCopy) (service : Service)
  : ControllerModule :=
  match copy with
  | InlineChecks => Controller.exports service
  | WithHelpers => HelperController.exports service
  end.

(** The properties whose value is not [undefined]. *)
Definition defined_props (o : Props) : Props :=
  filter (fun kv => match snd kv with JUndef => false | _ => true end) o.

(** The generic operations of [goClient.js], with their arguments. *)
Inductive GenericCall : Type :=
| CallInsert (apiKey table data : JsVal)
| CallGetAll (apiKey table : JsVal)
| CallUpdate (apiKey table data query : JsVal)
| CallRemove (apiKey table query : JsVal)
| CallUniversal (apiKey payload : JsVal).

Definition run_generic (c : GenericCall) : M JsVal :=
  match c with
  | CallInsert apiKey table data => GoClient.insert apiKey table data
  | CallGetAll apiKey table => GoClient.getAll apiKey table
  | CallUpdate apiKey table data query => GoClient.update apiKey table data query
  | CallRemove apiKey table query => GoClient.remove apiKey table query
  | CallUniversal apiKey payload => GoClient.universal apiKey payload
  end.

(** The path each generic operation posts to, the key it carries and the
    body it sends. *)
Definition generic_path (c : GenericCall) : string :=
  match c with
  | CallInsert _ _ _ => "POST /insert"
  | CallGetAll _ _ => "POST /get"
  | CallUpdate _ _ _ _ => "POST /update"
  | CallRemove _ _ _ => "POST /delete"
  | CallUniversal _ _ => "POST /universal"
  end.

Definition generic_key (c : GenericCall) : JsVal :=
  match c with
  | CallInsert apiKey _ _ | CallGetAll apiKey _ | CallUpdate apiKey _ _ _
  | CallRemove apiKey _ _ | CallUniversal apiKey _ => apiKey
  end.

(** What [goRequest] returns in place of a rejection. *)
Definition error_value (err : Thrown) : JsVal :=
  obj [("status", str "error");
       ("message", match thrown_response err with
                   | Some body => or_else body (str "Erro no Go")
                   | None => str "Não foi possível conectar ao Go"
                   end)].

(** What [listProjects] returns for a reply [data]. *)
Definition listed (data : JsVal) : JsVal :=
  if truthy data && is_array data then data
  else if truthy data && truthy (prop data "data") then prop data "data"
  else JArr [].

(** The request is a login that carries the password. *)
Definition good_login (password : string) (req : Dashboard.AdminRequest) : Prop :=
  exists body, req = Dashboard.PostLogin body /\ prop body "password" = str password.

(** The response shows the dashboard. *)
Definition shows_dashboard (r : Dashboard.Reaction) : Prop :=
  exists locals, r = Dashboard.Render "admin/dashboard" locals.

(** What [listInstances] sends with its GET: the filter, when it is
    given a truthy project. *)
Definition instances_filter (projectId : JsVal) : JsVal :=
  obj [("params", if truthy projectId then obj [("project_id", projectId)] else obj [])].

(* ================================================================== *)
(** ** Sample requests and remotes *)
(* ================================================================== *)

(** Stand-ins for the builtins, for the sample runs. *)
Definition no_builtins : Builtins :=
  {| Number := fun v => v; JSON_stringify := fun v => to_text v |}.

(** An engine that replies [null] to every post. *)
Definition silent : Remote := fun _ _ => Replied JNull.

(** The engine cannot be reached. *)
Definition refused : Remote :=
  fun _ _ => Failed {| thrown_response := None;
                       thrown_message := "connect ECONNREFUSED 10.0.0.5:8080" |}.

Definition timed_out : Remote :=
  fun _ _ => Failed {| thrown_response := None;
                       thrown_message := "timeout of 30000ms exceeded" |}.

Definition refused_error : Thrown :=
  {| thrown_response := None;
     thrown_message := "connect ECONNREFUSED 10.0.0.5:8080" |}.

Definition aggregate_request (operation : string) (column : list (string * JsVal))
  : Request :=
  {| req_headers := [("x-api-key", "k1")];
     req_body := obj (app [("project_id", JNum 1); ("id_instancia", JNum 10);
                           ("table", str "pedidos");
                           ("operation", str operation)] column) |}.


Definition batch_request (rows : list JsVal) : Request :=
  {| req_headers := [("x-api-key", "k1")];
     req_body := obj [("project_id", JNum 1); ("id_instancia", JNum 10);
                      ("table", str "produtos"); ("data", JArr rows)] |}.

Definition sample_rows : list JsVal :=
  [ obj [("nome", str "A")];
    obj [("nome", str "B"); ("id_instancia", JNum 99)];
    obj [("id_instancia", JNull); ("nome", str "C")] ].

Definition sample_insert : Request :=
  {| req_headers := [("x-api-key", "k1")];
     req_body := obj [("project_id", JNum 1); ("id_instancia", JNum 10);
                      ("table", str "usuarios");
                      ("data", obj [("nome", str "Ana")])] |}.

Definition sample_insert_call : Call :=
  ("/data/insert",
   obj [("project_id", JNum 1); ("id_instancia", JNum 10);
        ("table", str "usuarios"); ("data", obj [("nome", str "Ana")])]).

Definition incomplete_aggregate : Request :=
  {| req_headers := [("x-api-key", "k1")];
     req_body := obj [("project_id", JNum 1); ("table", JNull)] |}.

(** A request to delete, with a key that is not on the list. *)
Definition unlisted_delete : Request :=
  {| req_headers := [("x-api-key", "k3")];
     req_body := obj [("project_id", JNum 1); ("id_instancia", JNum 10);
                      ("table", str "logs")] |}.

(** The same request without a key. *)
Definition keyless_delete : Request :=
  {| req_headers := [];
     req_body := obj [("project_id", JNum 1); ("id_instancia", JNum 10);
                      ("table", str "logs")] |}.

(* ================================================================== *)
(** ** Further sample requests and remotes *)
(* ================================================================== *)

Definition sample_update : Request :=
  {| req_headers := [("x-api-key", "k1")];
     req_body := obj [("project_id", JNum 1); ("id_instancia", JNum 10);
                      ("table", str "usuarios");
                      ("data", obj [("nome", str "Ana")])] |}.

Definition sample_batch_update : Request :=
  {| req_headers := [("x-api-key", "k1")];
     req_body := obj [("project_id", JNum 1); ("id_instancia", JNum 10);
                      ("table", str "usuarios"); ("updates", JArr [])] |}.

Definition sample_select : Request :=
  {| req_headers := [("x-api-key", "k1")];
     req_body := obj [("project_id", JNum 1); ("id_instancia", JNum 10);
                      ("table", str "usuarios"); ("select", str "*");
                      ("where", JNull); ("limit", JNum 5)] |}.

Definition batch_with_null : Request :=
  batch_request [obj [("nome", str "A")]; JNull; obj [("nome", str "C")]].

Definition zero_project : Request :=
  {| req_headers := [("x-api-key", "k1")];
     req_body := obj [("project_id", JNum 0); ("id_instancia", JNum 10);
                      ("table", str "usuarios")] |}.

Definition batch_of_text : Request :=
  {| req_headers := [("x-api-key", "k1")];
     req_body := obj [("project_id", JNum 1); ("id_instancia", JNum 10);
                      ("table", str "produtos"); ("data", str "A,B")] |}.

Definition comma_key : Request :=
  {| req_headers := [("x-api-key", "k1,k2")];
     req_body := obj [("project_id", JNum 1); ("id_instancia", JNum 10);
                      ("table", str "usuarios")] |}.

Definition delete_everything : Request :=
  {| req_headers := [("x-api-key", "k1")];
     req_body := obj [("project_id", JNum 1); ("id_instancia", JNum 10);
                      ("table", str "usuarios")] |}.

Definition env_k1 : Env := {| API_KEYS := Some "k1" |}.

(** A project as the engine lists it. *)
Definition sample_project : JsVal :=
  obj [("id", JNum 3); ("name", str "Barbearia"); ("code", str "barbearia");
       ("description", str "Sede"); ("api_key", str "key_1"); ("type", str "barbearia");
       ("version", str "2.1.0"); ("status", str "blocked");
       ("created_at", str "2025-01-01")].

(** Equality of identifiers as the samples need it: the same number, or a
    number and its decimal text. *)
Definition same_id (a b : JsVal) : bool :=
  String.eqb (to_text a) (to_text b).

(** An engine that lists [sample_project] and accepts every write. *)
Definition projects_engine : Remote :=
  fun path _ =>
    if String.eqb path "GET /projects" then Replied (JArr [sample_project])
    else Replied (str "ok").

(* ================================================================== *)
(** ** Facts about values *)
(* ================================================================== *)

Example split_two : split_on "," "k1,k2" = ["k1"; "k2"].
Proof. reflexivity. Qed.

Example text_of_array :
  to_text (JArr [JNum 1; JNull; JStr "a"; JArr [JNum (-2); JNum 3]]) = "1,,a,-2,3".
Proof. reflexivity. Qed.

Example spread_of_array :
  own_props (JArr [JStr "x"; JStr "y"]) = [("0", JStr "x"); ("1", JStr "y")].
Proof. reflexivity. Qed.

Lemma includes_In (l : list string) (x : string) :
  includes l x = true <-> In x l.
Proof.
  unfold includes. rewrite existsb_exists. split.
  - intros [y [Hy Heq]]. apply String.eqb_eq in Heq. subst. exact Hy.
  - intros H. exists x. split; [exact H | apply String.eqb_refl].
Qed.

Lemma includes_false (l : list string) (x : string) :
  ~ In x l -> includes l x = false.
Proof.
  intros H. destruct (includes l x) eqn:E; [|reflexivity].
  apply includes_In in E. contradiction.
Qed.

Lemma split_on_not_nil (sep : ascii) (s : string) : split_on sep s <> [].
Proof.
  induction s as [|c s IH]; simpl; [discriminate|].
  destruct (Ascii.eqb c sep); [discriminate|].
  destruct (split_on sep s); discriminate.
Qed.

(** Splitting at the commas and joining with commas gives the text back:
    the entries of [split_on] are the comma-separated entries. *)
Lemma join_split_on (c : ascii) (s : string) :
  join (String c "") (split_on c s) = s.
Proof.
  induction s as [|a s IH]; simpl; [reflexivity|].
  destruct (Ascii.eqb a c) eqn:E.
  - apply Ascii.eqb_eq in E. subst a.
    pose proof (split_on_not_nil c s) as Hne.
    destruct (split_on c s) as [|x r] eqn:Es; [congruence|].
    simpl in *. rewrite IH. reflexivity.
  - pose proof (split_on_not_nil c s) as Hne.
    destruct (split_on c s) as [|x r] eqn:Es; [congruence|].
    destruct r as [|y r'].
    + simpl in *. rewrite IH. reflexivity.
    + simpl in *. rewrite <- IH. reflexivity.
Qed.

Lemma split_on_entries (c : ascii) (s : string) :
  Forall (fun e => mentions c e = false) (split_on c s).
Proof.
  induction s as [|a s IH]; simpl.
  - constructor; [reflexivity | constructor].
  - destruct (Ascii.eqb a c) eqn:E.
    + constructor; [reflexivity | exact IH].
    + destruct (split_on c s) as [|x r]; constructor.
      * simpl. rewrite E. reflexivity.
      * constructor.
      * simpl. rewrite E. inversion IH; subst. assumption.
      * inversion IH; subst. assumption.
Qed.

Lemma validKeys_allow_list (env : Env) (k : string) :
  In k (validKeys env) -> In k (allow_list env).
Proof.
  unfold validKeys, allow_list. destruct (API_KEYS env) as [s|]; [|tauto].
  destruct (String.eqb s ""); [intros [] | tauto].
Qed.

Lemma to_uint_not_nil (i : nat) : Nat.to_uint i <> Decimal.Nil.
Proof.
  rewrite <- (DecimalNat.Unsigned.of_to i) at 1.
  rewrite DecimalNat.Unsigned.to_of. unfold Decimal.unorm.
  destruct (Decimal.nzhead (Nat.to_uint i)); discriminate.
Qed.

Lemma index_key_digit (i : nat) : starts_with_digit (index_key i) = true.
Proof.
  unfold index_key. pose proof (to_uint_not_nil i) as H.
  destruct (Nat.to_uint i); [congruence | reflexivity ..].
Qed.

Lemma indexed_lookup_digit {A : Type} (f : A -> JsVal) (k : string) (l : list A) :
  forall i, starts_with_digit k = false -> lookup k (indexed f i l) = None.
Proof.
  induction l as [|x l IH]; intros i Hk; [reflexivity|].
  simpl. destruct (String.eqb k (index_key i)) eqn:E.
  - apply String.eqb_eq in E. subst k. rewrite index_key_digit in Hk. discriminate.
  - apply IH. exact Hk.
Qed.

(** A value with a truthy property under a name is an object. *)
Lemma truthy_prop_object (body : JsVal) (k : string) :
  starts_with_digit k = false -> k <> "length" ->
  truthy (prop body k) = true ->
  exists o v, body = JObj o /\ lookup k o = Some v /\ prop body k = v.
Proof.
  intros Hd Hl Ht. apply String.eqb_neq in Hl.
  destruct body as [| |b|z|s|l|o]; simpl in Ht; try discriminate.
  - rewrite Hl in Ht. rewrite indexed_lookup_digit in Ht by exact Hd. discriminate.
  - rewrite Hl in Ht. rewrite indexed_lookup_digit in Ht by exact Hd. discriminate.
  - simpl. destruct (lookup k o) as [v|] eqn:E; [|discriminate].
    exists o, v. auto.
Qed.

Lemma absent_prop (body : JsVal) (f : string) :
  absent body f -> f <> "length" -> prop body f = JUndef.
Proof.
  unfold absent, prop. intros H Hl.
  apply String.eqb_neq in Hl.
  destruct body; simpl in *; rewrite ?Hl, ?H; reflexivity.
Qed.

Lemma prop_lookup (v : JsVal) (k : string) :
  k <> "length" ->
  prop v k = match lookup k (own_props v) with Some x => x | None => JUndef end.
Proof.
  intros H. apply String.eqb_neq in H.
  destruct v; simpl; rewrite ?H; reflexivity.
Qed.

Lemma identified_not_nullish (body : JsVal) :
  identified body = true -> is_nullish body = false.
Proof. destruct body; simpl; intros H; try reflexivity; discriminate. Qed.

Lemma identified_fields (body : JsVal) :
  identified body = true ->
  truthy (prop body "project_id") = true
  /\ truthy (prop body "id_instancia") = true
  /\ truthy (prop body "table") = true.
Proof.
  unfold identified. intros H.
  apply andb_prop in H as [H E3]. apply andb_prop in H as [E1 E2]. auto.
Qed.

Lemma identified_object (body : JsVal) :
  identified body = true -> exists o, body = JObj o.
Proof.
  intros H. destruct (identified_fields body H) as [E1 _].
  destruct (truthy_prop_object body "project_id") as [o [v [-> _]]];
    [reflexivity | discriminate | exact E1 | exists o; reflexivity].
Qed.

Lemma truthy_not_nullish (v : JsVal) : truthy v = true -> is_nullish v = false.
Proof. destruct v; simpl; intros H; try reflexivity; discriminate. Qed.

Lemma or_else_never_undef (a d : JsVal) :
  d <> JUndef -> forall x, param_default x (or_else a d) = or_else a d.
Proof.
  intros Hd x. unfold or_else.
  destruct (truthy a) eqn:E.
  - destruct a; simpl in *; try reflexivity; discriminate.
  - destruct d; simpl; try reflexivity; congruence.
Qed.

Lemma coalesce_truthy (a d : JsVal) : truthy a = true -> coalesce a d = a.
Proof. destruct a; simpl; intros H; try reflexivity; discriminate. Qed.

Lemma put_lookup_same (k : string) (v : JsVal) (o : Props) :
  lookup k (put k v o) = Some v.
Proof.
  induction o as [|[k' v'] o IH]; simpl.
  - rewrite String.eqb_refl. reflexivity.
  - destruct (String.eqb k k') eqn:E; simpl; rewrite E; [reflexivity | exact IH].
Qed.

Lemma put_lookup_other (k k' : string) (v : JsVal) (o : Props) :
  k' <> k -> lookup k' (put k v o) = lookup k' o.
Proof.
  intros Hne. induction o as [|[k0 v0] o IH]; simpl.
  - apply String.eqb_neq in Hne. rewrite Hne. reflexivity.
  - destruct (String.eqb k k0) eqn:E; simpl.
    + apply String.eqb_eq in E. subst k0.
      apply String.eqb_neq in Hne. rewrite Hne. reflexivity.
    + destruct (String.eqb k' k0); [reflexivity | exact IH].
Qed.

Lemma put_absent (k : string) (v : JsVal) (o : Props) :
  lookup k o = None -> put k v o = app o [(k, v)].
Proof.
  induction o as [|[k' v'] o IH]; simpl; [reflexivity|].
  destruct (String.eqb k k'); [discriminate|].
  intros H. rewrite IH by exact H. reflexivity.
Qed.

Lemma put_present (k : string) (v : JsVal) (o : Props) :
  lookup k o = Some v -> put k v o = o.
Proof.
  induction o as [|[k' v'] o IH]; simpl; [discriminate|].
  destruct (String.eqb k k') eqn:E.
  - intros H. injection H as ->. reflexivity.
  - intros H. rewrite IH by exact H. reflexivity.
Qed.

Lemma others_put (v : JsVal) (o : Props) :
  others (put "id_instancia" v o) = others o.
Proof.
  induction o as [|[k w] o IH]; [reflexivity|].
  cbn [put]. destruct (String.eqb "id_instancia" k) eqn:E.
  - unfold others. cbn [filter fst]. rewrite E. reflexivity.
  - unfold others in *. cbn [filter fst]. rewrite E. cbn [negb].
    f_equal. exact IH.
Qed.

(* ================================================================== *)
(** ** The key check *)
(* ================================================================== *)

Lemma handle_unfold (env : Env) (controller : ControllerModule) (op : Operation)
      (req : Request) :
  handle env controller op req
  = validateApiKey env req (handler_of controller op req).
Proof. destruct op; reflexivity. Qed.

Lemma validateApiKey_passes (env : Env) (req : Request) (next : M Response) :
  authorized env req -> validateApiKey env req next = next.
Proof.
  intros [k [Hh [Hne Hin]]]. unfold validateApiKey. rewrite Hh.
  apply String.eqb_neq in Hne. rewrite Hne.
  apply includes_In in Hin. rewrite Hin. reflexivity.
Qed.

Lemma validateApiKey_rejects (env : Env) (req : Request) (next : M Response) :
  unlisted env req \/ API_KEYS env = None \/ API_KEYS env = Some "" ->
  validateApiKey env req next = ret unauthorized.
Proof.
  unfold unlisted, validateApiKey.
  destruct (header (req_headers req) "x-api-key") as [k|]; [|reflexivity].
  intros H. destruct (String.eqb k ""); [reflexivity|]. simpl.
  rewrite includes_false; [reflexivity|].
  destruct H as [H | [H | H]].
  - intros Hin. apply H. apply validKeys_allow_list. exact Hin.
  - unfold validKeys. rewrite H. intros [].
  - unfold validKeys. rewrite H. intros [].
Qed.

Lemma validateApiKey_cases (env : Env) (req : Request) (next : M Response) :
  validateApiKey env req next = next
  \/ validateApiKey env req next = ret unauthorized.
Proof.
  unfold validateApiKey.
  destruct (header (req_headers req) "x-api-key") as [k|]; [|right; reflexivity].
  destruct (String.eqb k "" || negb (includes (validKeys env) k));
    [right | left]; reflexivity.
Qed.

Lemma authorized_k1 (body : JsVal) :
  authorized {| API_KEYS := Some "k1" |}
             {| req_headers := [("x-api-key", "k1")]; req_body := body |}.
Proof.
  exists "k1". simpl. split; [reflexivity|]. split; [discriminate | tauto].
Defined.

Example listed_key_goes_through :
  handle {| API_KEYS := Some "k1,k2" |}
         (Controller.exports (DataPayload.service no_builtins)) OpInsert
         {| req_headers := [("x-api-key", "k2")]; req_body := req_body sample_insert |}
         (replying (obj [("id", JNum 789)])) []
  = (Ok {| res_status := 200;
           res_body := obj [("success", JBool true);
                            ("message", str "Registro inserido com sucesso");
                            ("data", obj [("id", JNum 789)])] |},
     [sample_insert_call]).
Proof. reflexivity. Qed.

Lemma post_arriving (env : Env) (controller : ControllerModule) (op : Operation)
      (req : Request) :
  App.post env controller op (arriving req) = handle env controller op req.
Proof. destruct req; reflexivity. Qed.

Lemma post_unparsable (env : Env) (controller : ControllerModule) (op : Operation)
      (req : Request) :
  App.post env controller op (unparsable req) = ret App.internal_error.
Proof. reflexivity. Qed.

Lemma post_accepted (env : Env) (controller : ControllerModule) (op : Operation)
      (inbound : App.Inbound) (req : Request) :
  App.body_parsers inbound = Some req ->
  App.post env controller op inbound = handle env controller op req.
Proof. unfold App.post. intros ->. reflexivity. Qed.

Lemma post_refused (env : Env) (controller : ControllerModule) (op : Operation)
      (inbound : App.Inbound) :
  App.body_parsers inbound = None ->
  App.post env controller op inbound = ret App.internal_error.
Proof. unfold App.post. intros ->. reflexivity. Qed.

(** C4. Take a POST to any of the seven operation paths, one that asks
    for no other method with [_method] in its query, whichever controller
    is mounted: a POST with no [x-api-key] header or with a key that is
    not an entry of the comma-separated [API_KEYS], or any such POST at
    all when [API_KEYS] is unset or empty. If the body parsers of
    [app.js] accept its body, the key check answers it 401 with
    [success: false] and nothing is forwarded. If they refuse its body,
    the routes are never reached: the error handler of [app.js] answers
    500 with the text ["Erro interno"], and nothing is forwarded
    either. *)
Theorem invalid_key_is_401 (env : Env) (controller : ControllerModule) (op : Operation)
        (req : Request) (remote : Remote) :
  unlisted env req \/ API_KEYS env = None \/ API_KEYS env = Some "" ->
  App.post env controller op (arriving req) remote []
  = (Ok (rejection 401 "Chave de API inválida ou ausente"), [])
  /\ App.post env controller op (unparsable req) remote []
     = (Ok {| res_status := 500; res_body := str "Erro interno" |}, []).
Proof.
  intros H. split.
  - rewrite post_arriving, handle_unfold.
    rewrite validateApiKey_rejects by exact H. reflexivity.
  - reflexivity.
Qed.

Lemma invalid_key_is_401_witness :
  App.post {| API_KEYS := Some "k1,k2" |}
           (Controller.exports (DataPayload.service no_builtins)) OpDelete
           (arriving unlisted_delete) silent []
  = (Ok (rejection 401 "Chave de API inválida ou ausente"), [])
  /\ App.post {| API_KEYS := Some "k1,k2" |}
              (Controller.exports (DataPayload.service no_builtins)) OpDelete
              (unparsable unlisted_delete) silent []
     = (Ok {| res_status := 500; res_body := str "Erro interno" |}, []).
Proof.
  apply invalid_key_is_401. left. unfold unlisted. simpl.
  intros [H | [H | []]]; discriminate.
Defined.

(** A request without a key whose body the parsers refuse is answered 500
    by the error handler, not 401: the parsers run before the key check. *)
Lemma unparsable_body_without_key_is_500 :
  unlisted {| API_KEYS := Some "k1,k2" |} keyless_delete
  /\ App.post {| API_KEYS := Some "k1,k2" |}
              (Controller.exports (DataPayload.service no_builtins)) OpDelete
              (unparsable keyless_delete) silent []
     = (Ok {| res_status := 500; res_body := str "Erro interno" |}, [])
  /\ res_status {| res_status := 500; res_body := str "Erro interno" |} <> 401%Z.
Proof. repeat split. discriminate. Qed.

(* ================================================================== *)
(** ** Missing fields, in the controller with inline checks *)
(* ================================================================== *)

Lemma required_not_length (op : Operation) (f : string) :
  In f (required op) -> f <> "length".
Proof.
  destruct op; simpl; intros H;
    repeat (destruct H as [H | H]; [subst f; discriminate|]); contradiction.
Qed.

Ltac run_handler :=
  unfold try_catch, bind, destructure, get, throw_if, ret, throw, lift,
    Controller.bad_request, Controller.server_error, Controller.success,
    json, status_json, rejection.

(** With a key that passes the check and a body that is not [null] or
    [undefined], the controller with inline checks answers 400 with
    [success: false] to a request that lacks a required field, on each of
    the seven operations, and the service is not entered. *)
Lemma inline_checks_answer_400 (env : Env) (service : Service) (op : Operation)
      (req : Request) (remote : Remote) (f : string) :
  authorized env req ->
  is_nullish (req_body req) = false ->
  In f (required op) ->
  absent (req_body req) f ->
  exists message,
    handle env (Controller.exports service) op req remote []
    = (Ok (rejection 400 message), []).
Proof.
  intros Hauth Hbody Hin Habs.
  rewrite handle_unfold, validateApiKey_passes by exact Hauth.
  pose proof (absent_prop _ _ Habs (required_not_length op f Hin)) as Hp.
  destruct op; simpl in Hin; cbn [handler_of Controller.exports
      ctl_insertRecord ctl_batchInsert ctl_advancedSelect ctl_updateRecord
      ctl_batchUpdate ctl_deleteRecord ctl_aggregate];
    repeat (destruct Hin as [Hin | Hin]; [subst f|]); try contradiction;
    eexists;
    match goal with
    | |- ?h service req remote [] = _ => unfold h
    end;
    run_handler; rewrite Hbody; rewrite ?Hp; simpl;
    rewrite ?orb_true_r; simpl; reflexivity.
Qed.

(* ================================================================== *)
(** ** [validateFields] and the handlers that call it *)
(* ================================================================== *)

Lemma missing_fields_parsed (body : JsVal) (fields : list string) :
  parsed body ->
  HelperController.missing_fields body fields = Ok (missing_of body fields).
Proof.
  intros Hb. induction fields as [|f fs IH]; [reflexivity|].
  cbn [HelperController.missing_fields]. rewrite IH.
  unfold HelperController.is_missing, HelperController.in_operator.
  destruct body; try contradiction; simpl; reflexivity.
Qed.

(** Handed the response, the helper answers 400 and names every absent or
    null field, in the order of the required list. *)
Lemma validateFields_names_all (body : JsVal) (fields : list string) (context : string)
      (remote : Remote) (log : list Call) :
  parsed body ->
  missing_of body fields <> [] ->
  HelperController.validateFields HelperController.the_res body fields context remote log
  = (Ok (Some (rejection 400 ("Campos obrigatórios ausentes para " ++ context ++ ": "
                              ++ join ", " (missing_of body fields)))), log).
Proof.
  intros Hb Hm. unfold HelperController.validateFields.
  rewrite (missing_fields_parsed body fields Hb).
  destruct (missing_of body fields) as [|f fs]; [congruence|]. reflexivity.
Qed.

(** Handed the request, it throws where it would answer. *)
Lemma validateFields_on_req (body : JsVal) (fields : list string) (context : string) :
  parsed body ->
  missing_of body fields <> [] ->
  HelperController.validateFields HelperController.the_req body fields context
  = throw (TypeError "res.status is not a function").
Proof.
  intros Hb Hm. unfold HelperController.validateFields.
  rewrite (missing_fields_parsed body fields Hb).
  destruct (missing_of body fields) as [|f fs]; [congruence|]. reflexivity.
Qed.

(** With nothing missing it returns [null], whatever it is handed. *)
Lemma validateFields_nothing_missing (res : HelperController.Handle) (body : JsVal)
      (fields : list string) (context : string) :
  parsed body ->
  missing_of body fields = [] ->
  HelperController.validateFields res body fields context = ret None.
Proof.
  intros Hb Hm. unfold HelperController.validateFields.
  rewrite (missing_fields_parsed body fields Hb), Hm. reflexivity.
Qed.

(** At a call site it either throws or returns [null]. *)
Lemma validateFields_on_req_cases (body : JsVal) (fields : list string) (context : string) :
  (exists e, HelperController.validateFields HelperController.the_req body fields context
             = throw e)
  \/ HelperController.validateFields HelperController.the_req body fields context
     = ret None.
Proof.
  unfold HelperController.validateFields.
  destruct (HelperController.missing_fields body fields) as [missing | e].
  - destruct missing as [|f fs]; [right | left; eexists]; reflexivity.
  - left. eexists. reflexivity.
Qed.

Lemma missing_of_In (body : JsVal) (fields : list string) (f : string) :
  In f fields ->
  f <> "length" ->
  absent body f \/ prop body f = JNull ->
  In f (missing_of body fields).
Proof.
  intros Hin Hl H. unfold missing_of. apply filter_In. split; [exact Hin|].
  apply String.eqb_neq in Hl.
  destruct H as [H | H].
  - unfold absent in H. destruct (is_nullish (prop body f)); [apply orb_true_r|].
    rewrite orb_false_r.
    destruct body; simpl in *; rewrite ?H, ?Hl; reflexivity.
  - rewrite H. apply orb_true_r.
Qed.

(** Every handler hands the helper its request: with a field missing the
    handler throws before its [try]. *)
Lemma helper_handlers_throw (service : Service) (op : Operation) (req : Request)
      (remote : Remote) :
  parsed (req_body req) ->
  missing_of (req_body req) (required op) <> [] ->
  handler_of (HelperController.exports service) op req remote []
  = (Throw (TypeError "res.status is not a function"), []).
Proof.
  intros Hb Hm.
  destruct op; cbn [handler_of HelperController.exports
      ctl_insertRecord ctl_batchInsert ctl_advancedSelect ctl_updateRecord
      ctl_batchUpdate ctl_deleteRecord ctl_aggregate];
    match goal with
    | |- ?h service req remote [] = _ => unfold h
    end;
    simpl required in Hm;
    rewrite validateFields_on_req by assumption; reflexivity.
Qed.

(** C7, where the code falls short of it. For an object body with an
    absent or null required field, [validateFields] builds the 400 whose
    message names the required fields that are absent or null, all of
    them and in order, and would send it through a response; but each
    handler hands it the request, so the call throws a [TypeError] before
    the handler's [try]: no response is written and nothing is
    forwarded. *)
Theorem validateFields_call_sites_throw (service : Service) (op : Operation)
        (req : Request) (remote : Remote) :
  parsed (req_body req) ->
  missing_of (req_body req) (required op) <> [] ->
  HelperController.validateFields HelperController.the_res (req_body req)
    (required op) (context_of op) remote []
  = (Ok (Some (rejection 400 ("Campos obrigatórios ausentes para " ++ context_of op
                              ++ ": " ++ join ", " (missing_of (req_body req) (required op))))),
     [])
  /\ (forall f, In f (required op) ->
        absent (req_body req) f \/ prop (req_body req) f = JNull ->
        In f (missing_of (req_body req) (required op)))
  /\ handler_of (HelperController.exports service) op req remote []
     = (Throw (TypeError "res.status is not a function"), []).
Proof.
  intros Hb Hm. split; [|split].
  - apply validateFields_names_all; assumption.
  - intros f Hin H.
    apply missing_of_In; [exact Hin | exact (required_not_length op f Hin) | exact H].
  - apply helper_handlers_throw; assumption.
Qed.

Lemma validateFields_call_sites_throw_witness :
  HelperController.validateFields HelperController.the_res
    (req_body incomplete_aggregate) (required OpAggregate) (context_of OpAggregate)
    silent []
  = (Ok (Some (rejection 400
                 "Campos obrigatórios ausentes para aggregate: id_instancia, table, operation")),
     [])
  /\ (forall f, In f (required OpAggregate) ->
        absent (req_body incomplete_aggregate) f
        \/ prop (req_body incomplete_aggregate) f = JNull ->
        In f (missing_of (req_body incomplete_aggregate) (required OpAggregate)))
  /\ handler_of (HelperController.exports (DataPayload.service no_builtins)) OpAggregate
                incomplete_aggregate silent []
     = (Throw (TypeError "res.status is not a function"), []).
Proof.
  apply (validateFields_call_sites_throw (DataPayload.service no_builtins) OpAggregate
           incomplete_aggregate silent).
  - exact I.
  - discriminate.
Defined.

(** C1, where the code falls short of it. On each of the seven
    operations, with a key that passes the check, the controller written
    with [validateFields] leaves a request whose object body lacks a
    required field without an answer: the handler throws, no 400 is
    written, and nothing is forwarded. *)
Theorem helper_missing_field_unanswered (env : Env) (service : Service) (op : Operation)
        (req : Request) (remote : Remote) (f : string) :
  authorized env req ->
  parsed (req_body req) ->
  In f (required op) ->
  absent (req_body req) f ->
  handle env (HelperController.exports service) op req remote []
  = (Throw (TypeError "res.status is not a function"), []).
Proof.
  intros Hauth Hb Hin Habs.
  rewrite handle_unfold, validateApiKey_passes by exact Hauth.
  apply (helper_handlers_throw service op req remote Hb).
  intros Hm.
  assert (Hf : In f (missing_of (req_body req) (required op))).
  { apply missing_of_In; [exact Hin | exact (required_not_length op f Hin) | ].
    left. exact Habs. }
  rewrite Hm in Hf. exact Hf.
Qed.

Lemma helper_missing_field_unanswered_witness :
  handle {| API_KEYS := Some "k1" |}
         (HelperController.exports (DataPayload.service no_builtins)) OpInsert
         {| req_headers := [("x-api-key", "k1")]; req_body := obj [] |} silent []
  = (Throw (TypeError "res.status is not a function"), []).
Proof.
  apply helper_missing_field_unanswered with (f := "data").
  - apply authorized_k1.
  - exact I.
  - simpl. tauto.
  - reflexivity.
Defined.

Lemma present_not_missing (o : Props) (f : string) :
  is_nullish (prop (JObj o) f) = false ->
  negb (has_prop (JObj o) f) || is_nullish (prop (JObj o) f) = false.
Proof.
  simpl. destruct (lookup f o); simpl; intros H; [exact H | discriminate].
Qed.

Lemma identified_nothing_missing (body : JsVal) :
  identified body = true ->
  parsed body /\ missing_of body ["project_id"; "id_instancia"; "table"] = [].
Proof.
  intros Hid. destruct (identified_object body Hid) as [o ->].
  destruct (identified_fields _ Hid) as [E1 [E2 E3]].
  split; [exact I|]. unfold missing_of. cbn [filter].
  rewrite !present_not_missing by (apply truthy_not_nullish; assumption).
  reflexivity.
Qed.

Lemma identified_and_nothing_missing (body : JsVal) (f : string) :
  identified body = true ->
  is_nullish (prop body f) = false ->
  parsed body /\ missing_of body ["project_id"; "id_instancia"; "table"; f] = [].
Proof.
  intros Hid Hf. destruct (identified_object body Hid) as [o ->].
  destruct (identified_fields _ Hid) as [E1 [E2 E3]].
  split; [exact I|]. unfold missing_of. cbn [filter].
  rewrite !present_not_missing by (first [exact Hf | apply truthy_not_nullish; assumption]).
  reflexivity.
Qed.

Lemma not_identified (body : JsVal) :
  identified body = false ->
  falsy (prop body "project_id") || falsy (prop body "id_instancia")
  || falsy (prop body "table") = true.
Proof.
  unfold identified, falsy.
  destruct (truthy (prop body "project_id")), (truthy (prop body "id_instancia")),
    (truthy (prop body "table")); simpl; congruence.
Qed.

(* ================================================================== *)
(** ** What [requestToGo] does *)
(* ================================================================== *)

Lemma plain_posts_once : posts_once RequestToGo.plain detail_plain.
Proof.
  intros path payload remote log.
  unfold RequestToGo.plain, try_catch, axios_post, throw.
  destruct (remote path payload); reflexivity.
Qed.

Lemma stringified_posts_once (B : Builtins) :
  posts_once (RequestToGo.stringified B) (detail_stringified B).
Proof.
  intros path payload remote log.
  unfold RequestToGo.stringified, try_catch, axios_post, throw.
  destruct (remote path payload); reflexivity.
Qed.

Lemma error_field_posts_once : posts_once RequestToGo.error_field detail_error_field.
Proof.
  intros path payload remote log.
  unfold RequestToGo.error_field, try_catch, axios_post, throw.
  destruct (remote path payload); reflexivity.
Qed.

Lemma services_built (B : Builtins) (service : Service) :
  In service (services B) ->
  exists requestToGo detail, built_on service B requestToGo detail.
Proof.
  intros [H | [H | [H | []]]]; subst service.
  - exists RequestToGo.plain, detail_plain.
    constructor; auto using plain_posts_once.
  - exists (RequestToGo.stringified B), (detail_stringified B).
    constructor; auto using stringified_posts_once.
  - exists RequestToGo.error_field, detail_error_field.
    constructor; auto using error_field_posts_once.
Qed.

(* ================================================================== *)
(** ** Delete *)
(* ================================================================== *)

Ltac run_helper :=
  unfold try_catch, bind, throw_if, ret, throw, lift,
    HelperController.handleError, HelperController.status_json_on,
    HelperController.success, Controller.success, Controller.bad_request,
    json, status_json.

Lemma deleteRecords_run requestToGo detail (body : JsVal) (remote : Remote) :
  posts_once requestToGo detail ->
  snd (deleteRecords requestToGo (prop body "project_id") (prop body "id_instancia")
         (prop body "table") (or_else (prop body "where") (obj []))
         (or_else (prop body "where_raw") JNull)
         (or_else (prop body "mode") (str "hard")) remote [])
  = if identified body then [("/data/delete", delete_payload body)] else [].
Proof.
  intros Hp. unfold deleteRecords. run_handler.
  rewrite !or_else_never_undef by discriminate.
  destruct (identified body) eqn:Hid.
  - destruct (identified_fields _ Hid) as [E1 [E2 E3]]. unfold falsy.
    rewrite E1, E2, E3. simpl. rewrite Hp. unfold delete_payload.
    destruct (remote _ _); reflexivity.
  - rewrite (not_identified _ Hid). reflexivity.
Qed.

Lemma deleteRecord_forwarded (B : Builtins) (service : Service)
      (controller : ControllerModule) (req : Request) (remote : Remote)
      requestToGo detail :
  built_on service B requestToGo detail ->
  In controller (controllers service) ->
  forwarded (ctl_deleteRecord controller req) remote
  = if identified (req_body req)
    then [("/data/delete", delete_payload (req_body req))]
    else [].
Proof.
  intros Hb [Hc | [Hc | []]]; subst controller; unfold forwarded;
    cbn [Controller.exports HelperController.exports ctl_deleteRecord];
    pose proof (deleteRecords_run requestToGo detail (req_body req) remote
                  (built_posts _ _ _ _ Hb)) as Hrun.
  - unfold Controller.deleteRecord. rewrite (built_delete _ _ _ _ Hb).
    run_handler.
    destruct (is_nullish (req_body req)) eqn:Hn.
    + destruct (req_body req); try discriminate; reflexivity.
    + destruct (identified (req_body req)) eqn:Hid.
      * destruct (identified_fields _ Hid) as [E1 [E2 E3]]. unfold falsy.
        rewrite E1, E2, E3. cbn [negb orb].
        rewrite <- Hrun.
        destruct (deleteRecords _ _ _ _ _ _ _ remote []) as [[d | e] calls];
          reflexivity.
      * rewrite (not_identified _ Hid). reflexivity.
  - unfold HelperController.deleteRecord. rewrite (built_delete _ _ _ _ Hb).
    assert (Hafter :
      snd (try_catch
             (bind (deleteRecords requestToGo (prop (req_body req) "project_id")
                      (prop (req_body req) "id_instancia") (prop (req_body req) "table")
                      (or_else (prop (req_body req) "where") (obj []))
                      (or_else (prop (req_body req) "where_raw") JNull)
                      (or_else (prop (req_body req) "mode") (str "hard")))
                   (fun result =>
                      HelperController.success "Registro(s) deletado(s) com sucesso" result))
             (HelperController.handleError HelperController.the_res "deletar registro(s)")
             remote [])
      = if identified (req_body req)
        then [("/data/delete", delete_payload (req_body req))] else []).
    { run_helper. rewrite <- Hrun.
      destruct (deleteRecords _ _ _ _ _ _ _ remote []) as [[d | e] calls]; reflexivity. }
    destruct (identified (req_body req)) eqn:Hid.
    + destruct (identified_nothing_missing _ Hid) as [Hpar Hm].
      rewrite (validateFields_nothing_missing HelperController.the_req
                 (req_body req) _ "delete" Hpar Hm).
      exact Hafter.
    + destruct (validateFields_on_req_cases (req_body req)
                  ["project_id"; "id_instancia"; "table"] "delete") as [[e ->] | ->];
        [reflexivity | exact Hafter].
Qed.

(** C3. Whichever copy of the controller and of the service is in
    place, whatever a delete request forwards goes to [/data/delete]; its
    [mode] is ["hard"] when the body has no [mode] field and ["soft"] when
    the body says [mode: "soft"]. A request that passes the key check and
    carries the three identifiers does forward one such payload. *)
Theorem delete_mode_defaults_to_hard (B : Builtins) (service : Service)
        (controller : ControllerModule) (env : Env) (req : Request) (remote : Remote) :
  In service (services B) ->
  In controller (controllers service) ->
  let calls := forwarded (handle env controller OpDelete req) remote in
  (calls = []
   \/ exists payload,
        calls = [("/data/delete", payload)]
        /\ (absent (req_body req) "mode" -> prop payload "mode" = str "hard")
        /\ (prop (req_body req) "mode" = str "soft" ->
            prop payload "mode" = str "soft"))
  /\ (authorized env req -> identified (req_body req) = true ->
      exists payload, calls = [("/data/delete", payload)]).
Proof.
  intros Hin Hc calls. subst calls.
  destruct (services_built B service Hin) as [rtg [detail Hb]].
  rewrite handle_unfold. cbn [handler_of]. split.
  - destruct (validateApiKey_cases env req (ctl_deleteRecord controller req))
      as [-> | ->]; [|left; reflexivity].
    rewrite (deleteRecord_forwarded B service controller req remote rtg detail Hb Hc).
    destruct (identified (req_body req)); [right | left; reflexivity].
    exists (delete_payload (req_body req)). split; [reflexivity|]. split.
    + intros Ha. simpl. rewrite (absent_prop _ _ Ha) by discriminate. reflexivity.
    + intros Hs. simpl. rewrite Hs. reflexivity.
  - intros Hauth Hid. rewrite validateApiKey_passes by exact Hauth.
    rewrite (deleteRecord_forwarded B service controller req remote rtg detail Hb Hc), Hid.
    eexists. reflexivity.
Qed.

Lemma delete_mode_defaults_to_hard_witness :
  let req := {| req_headers := [("x-api-key", "k1")];
                req_body := obj [("project_id", JNum 1); ("id_instancia", JNum 10);
                                 ("table", str "logs");
                                 ("where", obj [("id", JNum 100)])] |} in
  let calls := forwarded (handle {| API_KEYS := Some "k1" |}
                                 (HelperController.exports (DataPayload.service no_builtins))
                                 OpDelete req) silent in
  (calls = []
   \/ exists payload,
        calls = [("/data/delete", payload)]
        /\ (absent (req_body req) "mode" -> prop payload "mode" = str "hard")
        /\ (prop (req_body req) "mode" = str "soft" ->
            prop payload "mode" = str "soft"))
  /\ (authorized {| API_KEYS := Some "k1" |} req -> identified (req_body req) = true ->
      exists payload, calls = [("/data/delete", payload)]).
Proof.
  intros req.
  apply (delete_mode_defaults_to_hard no_builtins (DataPayload.service no_builtins)).
  - simpl. tauto.
  - simpl. tauto.
Defined.

Example delete_without_mode :
  forwarded (handle {| API_KEYS := Some "k1" |}
                    (Controller.exports (DataPayload.service no_builtins)) OpDelete
               {| req_headers := [("x-api-key", "k1")];
                  req_body := obj [("project_id", JNum 1); ("id_instancia", JNum 10);
                                   ("table", str "logs")] |}) silent
  = [("/data/delete",
      obj [("project_id", JNum 1); ("id_instancia", JNum 10); ("table", str "logs");
           ("where", obj []); ("where_raw", JNull); ("mode", str "hard")])].
Proof. reflexivity. Qed.

Example delete_soft :
  forwarded (handle {| API_KEYS := Some "k1" |}
                    (HelperController.exports (ColumnPayload.service no_builtins)) OpDelete
               {| req_headers := [("x-api-key", "k1")];
                  req_body := obj [("project_id", JNum 1); ("id_instancia", JNum 10);
                                   ("table", str "usuarios"); ("mode", str "soft")] |})
            silent
  = [("/data/delete",
      obj [("project_id", JNum 1); ("id_instancia", JNum 10); ("table", str "usuarios");
           ("where", obj []); ("where_raw", JNull); ("mode", str "soft")])].
Proof. reflexivity. Qed.

(* ================================================================== *)
(** ** Aggregate *)
(* ================================================================== *)

Lemma aggregate_run requestToGo detail (body : JsVal) (remote : Remote) :
  posts_once requestToGo detail ->
  snd (aggregate requestToGo (prop body "project_id") (prop body "id_instancia")
         (prop body "table") (prop body "operation")
         (or_else (prop body "column") JNull)
         (or_else (prop body "where") (obj [])) remote [])
  = if identified body && truthy (prop body "operation")
    then [("/data/aggregate", aggregate_payload body)] else [].
Proof.
  intros Hp. unfold aggregate. run_handler.
  rewrite !or_else_never_undef by discriminate.
  destruct (identified body) eqn:Hid.
  - destruct (identified_fields _ Hid) as [E1 [E2 E3]]. unfold falsy.
    rewrite E1, E2, E3. simpl.
    destruct (truthy (prop body "operation")); simpl; [|reflexivity].
    rewrite Hp. unfold aggregate_payload.
    destruct (remote _ _); reflexivity.
  - rewrite (not_identified _ Hid). reflexivity.
Qed.

Lemma aggregate_forwarded (B : Builtins) (service : Service)
      (controller : ControllerModule) (req : Request) (remote : Remote)
      requestToGo detail :
  built_on service B requestToGo detail ->
  In controller (controllers service) ->
  forwarded (ctl_aggregate controller req) remote
  = if identified (req_body req) && truthy (prop (req_body req) "operation")
    then [("/data/aggregate", aggregate_payload (req_body req))]
    else [].
Proof.
  intros Hb [Hc | [Hc | []]]; subst controller; unfold forwarded;
    cbn [Controller.exports HelperController.exports ctl_aggregate];
    pose proof (aggregate_run requestToGo detail (req_body req) remote
                  (built_posts _ _ _ _ Hb)) as Hrun.
  - unfold Controller.aggregate. rewrite (built_aggregate _ _ _ _ Hb).
    run_handler.
    destruct (is_nullish (req_body req)) eqn:Hn.
    + destruct (req_body req); try discriminate; reflexivity.
    + destruct (identified (req_body req)) eqn:Hid.
      * destruct (identified_fields _ Hid) as [E1 [E2 E3]]. unfold falsy.
        rewrite E1, E2, E3. cbn [negb orb andb].
        destruct (truthy (prop (req_body req) "operation")) eqn:E4;
          cbn [negb]; [|reflexivity].
        cbn [andb] in Hrun. rewrite <- Hrun.
        destruct (aggregate _ _ _ _ _ _ _ remote []) as [[d | e] calls];
          reflexivity.
      * rewrite (not_identified _ Hid). reflexivity.
  - unfold HelperController.aggregate. rewrite (built_aggregate _ _ _ _ Hb).
    assert (Hafter :
      snd (try_catch
             (bind (aggregate requestToGo (prop (req_body req) "project_id")
                      (prop (req_body req) "id_instancia") (prop (req_body req) "table")
                      (prop (req_body req) "operation")
                      (or_else (prop (req_body req) "column") JNull)
                      (or_else (prop (req_body req) "where") (obj [])))
                   (fun result =>
                      HelperController.success "Agregação realizada com sucesso" result))
             (HelperController.handleError HelperController.the_res "executar agregação")
             remote [])
      = if identified (req_body req) && truthy (prop (req_body req) "operation")
        then [("/data/aggregate", aggregate_payload (req_body req))] else []).
    { run_helper. rewrite <- Hrun.
      destruct (aggregate _ _ _ _ _ _ _ remote []) as [[d | e] calls]; reflexivity. }
    destruct (identified (req_body req) && truthy (prop (req_body req) "operation"))
      eqn:Hacc.
    + apply andb_prop in Hacc as [Hid Hop].
      destruct (identified_and_nothing_missing _ "operation" Hid
                  (truthy_not_nullish _ Hop)) as [Hpar Hm].
      rewrite (validateFields_nothing_missing HelperController.the_req
                 (req_body req) _ "aggregate" Hpar Hm).
      exact Hafter.
    + destruct (validateFields_on_req_cases (req_body req)
                  ["project_id"; "id_instancia"; "table"; "operation"] "aggregate")
        as [[e ->] | ->]; [reflexivity | exact Hafter].
Qed.

(** C6, as the code has it. Whichever copy of the controller and of the
    service is in place, an aggregate request that passes the key check
    is forwarded exactly when it carries the three identifiers and a
    truthy [operation]; the payload repeats [operation] as given, whatever
    its value, and carries [column] as given, or [null] when the body has
    none. The operator set and the need for a column are left to the
    engine. *)
Theorem aggregate_forwards_operation_as_given (B : Builtins) (service : Service)
        (controller : ControllerModule) (env : Env) (req : Request) (remote : Remote) :
  In service (services B) ->
  In controller (controllers service) ->
  authorized env req ->
  let body := req_body req in
  forwarded (handle env controller OpAggregate req) remote
  = if identified body && truthy (prop body "operation")
    then [("/data/aggregate",
           obj [("project_id", prop body "project_id");
                ("id_instancia", prop body "id_instancia");
                ("table", prop body "table");
                ("operation", prop body "operation");
                ("column", if truthy (prop body "column")
                           then prop body "column" else JNull);
                ("where", if truthy (prop body "where")
                          then prop body "where" else obj [])])]
    else [].
Proof.
  intros Hin Hc Hauth body. subst body.
  destruct (services_built B service Hin) as [rtg [detail Hb]].
  rewrite handle_unfold, validateApiKey_passes by exact Hauth.
  cbn [handler_of].
  rewrite (aggregate_forwarded B service controller req remote rtg detail Hb Hc).
  reflexivity.
Qed.

Lemma aggregate_forwards_operation_as_given_witness :
  forwarded (handle {| API_KEYS := Some "k1" |}
                    (Controller.exports (DataPayload.service no_builtins))
                    OpAggregate (aggregate_request "COUNT" [])) silent
  = [("/data/aggregate",
      obj [("project_id", JNum 1); ("id_instancia", JNum 10);
           ("table", str "pedidos"); ("operation", str "COUNT");
           ("column", JNull); ("where", obj [])])].
Proof.
  apply (aggregate_forwards_operation_as_given no_builtins
           (DataPayload.service no_builtins)
           (Controller.exports (DataPayload.service no_builtins))
           {| API_KEYS := Some "k1" |} (aggregate_request "COUNT" []) silent).
  - simpl. tauto.
  - simpl. tauto.
  - apply authorized_k1.
Defined.

(** An operator outside the set is accepted and forwarded, and [SUM]
    without a column is forwarded with [column: null]: neither is
    rejected. *)
Lemma aggregate_unlisted_operator_accepted :
  handle {| API_KEYS := Some "k1" |}
         (Controller.exports (DataPayload.service no_builtins)) OpAggregate
         (aggregate_request "MEDIAN" [("column", str "total")])
         (replying (JNum 7)) []
  = (Ok {| res_status := 200;
           res_body := obj [("success", JBool true);
                            ("message", str "Agregação realizada com sucesso");
                            ("data", JNum 7)] |},
     [("/data/aggregate",
       obj [("project_id", JNum 1); ("id_instancia", JNum 10);
            ("table", str "pedidos"); ("operation", str "MEDIAN");
            ("column", str "total"); ("where", obj [])])])
  /\ handle {| API_KEYS := Some "k1" |}
            (Controller.exports (DataPayload.service no_builtins)) OpAggregate
            (aggregate_request "SUM" []) (replying (JNum 7)) []
     = (Ok {| res_status := 200;
              res_body := obj [("success", JBool true);
                               ("message", str "Agregação realizada com sucesso");
                               ("data", JNum 7)] |},
        [("/data/aggregate",
          obj [("project_id", JNum 1); ("id_instancia", JNum 10);
               ("table", str "pedidos"); ("operation", str "SUM");
               ("column", JNull); ("where", obj [])])]).
Proof. split; reflexivity. Qed.

(* ================================================================== *)
(** ** Insert with an empty [data] *)
(* ================================================================== *)





(* ================================================================== *)
(** ** Batch insert *)
(* ================================================================== *)

Lemma with_instance_rows (v : JsVal) (rs : list JsVal) :
  Forall not_nullish rs ->
  map_throwing (DataPayload.with_instance v) rs = Ok (map (merged_row v) rs).
Proof.
  induction 1 as [|r rs Hr _ IH]; simpl; [reflexivity|].
  unfold DataPayload.with_instance at 1. rewrite Hr, IH. reflexivity.
Qed.

Lemma columns_of_rows (rs : list JsVal) :
  Forall not_nullish rs ->
  map_throwing ColumnPayload.columns_of rs
  = Ok (map (fun row => JArr (map (fun kv => obj [("name", str (fst kv));
                                                  ("value", snd kv)])
                                  (own_props row))) rs).
Proof.
  induction 1 as [|r rs Hr _ IH]; simpl; [reflexivity|].
  unfold ColumnPayload.columns_of at 1. rewrite Hr, IH. reflexivity.
Qed.

(** What the service does with a batch that it lets through. *)
Lemma batchInsert_data_run (B : Builtins) (service : Service) (p i t : JsVal)
      (rs : list JsVal) (remote : Remote) :
  In service (data_services B) ->
  truthy p = true -> truthy i = true -> truthy t = true ->
  rs <> [] -> Forall not_nullish rs ->
  snd (svc_batchInsert service p i t (JArr rs) remote [])
  = [("/data/batch-insert",
      obj [("project_id", p); ("id_instancia", i); ("table", t);
           ("data", JArr (map (merged_row i) rs))])].
Proof.
  intros Hin E1 E2 E3 Hne Hrows.
  assert (Hposts : exists rtg detail, posts_once rtg detail
            /\ svc_batchInsert service = DataPayload.batchInsert rtg).
  { destruct Hin as [H | [H | []]]; subst service.
    - exists RequestToGo.plain, detail_plain. split; [apply plain_posts_once | reflexivity].
    - exists (RequestToGo.stringified B), (detail_stringified B).
      split; [apply stringified_posts_once | reflexivity]. }
  destruct Hposts as [rtg [detail [Hp ->]]].
  unfold DataPayload.batchInsert. run_handler.
  rewrite (with_instance_rows _ rs Hrows). simpl.
  rewrite !coalesce_truthy by assumption. unfold falsy. rewrite E1, E2, E3. simpl.
  rewrite length_map.
  destruct rs as [|r rs']; [congruence|]. simpl.
  rewrite (Hp _ _ remote []).
  destruct (remote _ _); reflexivity.
Qed.

Lemma batchInsert_columns_run (B : Builtins) (p i t : JsVal)
      (rs : list JsVal) (remote : Remote) :
  truthy p = true -> truthy i = true -> truthy t = true ->
  rs <> [] -> Forall not_nullish rs ->
  snd (svc_batchInsert (ColumnPayload.service B) p i t (JArr rs) remote [])
  = [("/data/batch-insert",
      obj [("project_id", p); ("id_instancia", i); ("table", t);
           ("rows", JArr (map (fun row =>
                                 JArr (map (fun kv => obj [("name", str (fst kv));
                                                           ("value", snd kv)])
                                           (own_props row))) rs))])].
Proof.
  intros E1 E2 E3 Hne Hrows.
  cbn [svc_batchInsert ColumnPayload.service].
  unfold ColumnPayload.batchInsert. run_handler. unfold falsy.
  rewrite E1, E2, E3. simpl.
  destruct rs as [|r rs']; [congruence|]. cbn [array_length List.length Nat.eqb].
  rewrite (columns_of_rows (r :: rs') Hrows).
  unfold lift, ret. unfold ColumnPayload.requestToGo.
  rewrite (error_field_posts_once _ _ remote []).
  destruct (remote _ _); reflexivity.
Qed.

(** Either copy of the controller hands an accepted batch to the service
    as it came. *)
Lemma batchInsert_forwarded (service : Service) (controller : ControllerModule)
      (req : Request) (remote : Remote) (rs : list JsVal) :
  In controller (controllers service) ->
  batch_accepted (req_body req) rs ->
  forwarded (ctl_batchInsert controller req) remote
  = snd (svc_batchInsert service (prop (req_body req) "project_id")
           (prop (req_body req) "id_instancia") (prop (req_body req) "table")
           (JArr rs) remote []).
Proof.
  intros Hc [Hid [Hdata [Hne Hrows]]].
  pose proof (identified_not_nullish _ Hid) as Hn.
  destruct (identified_fields _ Hid) as [E1 [E2 E3]].
  destruct Hc as [Hc | [Hc | []]]; subst controller; unfold forwarded;
    cbn [Controller.exports HelperController.exports ctl_batchInsert].
  - unfold Controller.batchInsert. run_handler.
    rewrite Hn. unfold falsy. rewrite E1, E2, E3, Hdata. simpl.
    destruct (svc_batchInsert _ _ _ _ _ remote []) as [[d | e] calls]; reflexivity.
  - unfold HelperController.batchInsert.
    destruct (identified_and_nothing_missing _ "data" Hid) as [Hpar Hm];
      [rewrite Hdata; reflexivity|].
    rewrite (validateFields_nothing_missing HelperController.the_req
               (req_body req) _ "batch insert" Hpar Hm).
    run_helper. rewrite Hdata. simpl.
    destruct (svc_batchInsert _ _ _ _ _ remote []) as [[d | e] calls]; reflexivity.
Qed.

Lemma sample_rows_accepted : batch_accepted (req_body (batch_request sample_rows)) sample_rows.
Proof.
  repeat split; try discriminate.
  repeat constructor.
Defined.

Lemma batch_data_forwarded (B : Builtins) (service : Service)
      (controller : ControllerModule) (env : Env) (req : Request) (remote : Remote)
      (rs : list JsVal) :
  In service (data_services B) ->
  In controller (controllers service) ->
  authorized env req ->
  batch_accepted (req_body req) rs ->
  forwarded (handle env controller OpBatchInsert req) remote
  = [("/data/batch-insert",
      obj [("project_id", prop (req_body req) "project_id");
           ("id_instancia", prop (req_body req) "id_instancia");
           ("table", prop (req_body req) "table");
           ("data", JArr (map (merged_row (prop (req_body req) "id_instancia")) rs))])].
Proof.
  intros Hin Hc Hauth Hacc.
  rewrite handle_unfold, validateApiKey_passes by exact Hauth.
  cbn [handler_of].
  rewrite (batchInsert_forwarded service controller req remote rs Hc Hacc).
  destruct Hacc as [Hid [_ [Hne Hrows]]].
  destruct (identified_fields _ Hid) as [E1 [E2 E3]].
  apply (batchInsert_data_run B); assumption.
Qed.

(** C10. In the batch insert of the copies that forward [data], under
    either copy of the controller, a row goes out with every property
    other than [id_instancia] as the caller wrote it, same keys, same
    values, same order, and a row whose [id_instancia] is [null] goes out
    with the request's [id_instancia]. *)
Theorem batch_rows_keep_other_fields (B : Builtins) (service : Service)
        (controller : ControllerModule) (env : Env) (req : Request) (remote : Remote)
        (rs : list JsVal) :
  In service (data_services B) ->
  In controller (controllers service) ->
  authorized env req ->
  batch_accepted (req_body req) rs ->
  exists payload rows,
    forwarded (handle env controller OpBatchInsert req) remote
    = [("/data/batch-insert", payload)]
    /\ prop payload "data" = JArr rows
    /\ Forall2 (fun row row' =>
                  others (own_props row') = others (own_props row)
                  /\ (prop row "id_instancia" = JNull ->
                      prop row' "id_instancia" = prop (req_body req) "id_instancia"))
               rs rows.
Proof.
  intros Hin Hc Hauth Hacc.
  rewrite (batch_data_forwarded B service controller env req remote rs Hin Hc Hauth Hacc).
  eexists. eexists. split; [reflexivity|]. split; [reflexivity|].
  clear. induction rs as [|r rs IH]; constructor; [|exact IH].
  split.
  - unfold merged_row. simpl. apply others_put.
  - intros Hnull. unfold merged_row. rewrite Hnull. simpl.
    rewrite put_lookup_same. reflexivity.
Qed.

Lemma batch_rows_keep_other_fields_witness :
  exists payload rows,
    forwarded (handle {| API_KEYS := Some "k1" |}
                      (Controller.exports (DataPayload.service no_builtins))
                      OpBatchInsert (batch_request sample_rows)) silent
    = [("/data/batch-insert", payload)]
    /\ prop payload "data" = JArr rows
    /\ Forall2 (fun row row' =>
                  others (own_props row') = others (own_props row)
                  /\ (prop row "id_instancia" = JNull ->
                      prop row' "id_instancia"
                      = prop (req_body (batch_request sample_rows)) "id_instancia"))
               sample_rows rows.
Proof.
  apply (batch_rows_keep_other_fields no_builtins (DataPayload.service no_builtins)).
  - simpl. tauto.
  - simpl. tauto.
  - apply authorized_k1.
  - apply sample_rows_accepted.
Defined.

Example batch_sample_forwarded :
  forwarded (handle {| API_KEYS := Some "k1" |}
                    (Controller.exports (DataPayload.service no_builtins))
                    OpBatchInsert (batch_request sample_rows)) silent
  = [("/data/batch-insert",
      obj [("project_id", JNum 1); ("id_instancia", JNum 10);
           ("table", str "produtos");
           ("data", JArr [ obj [("nome", str "A"); ("id_instancia", JNum 10)];
                           obj [("nome", str "B"); ("id_instancia", JNum 99)];
                           obj [("id_instancia", JNum 10); ("nome", str "C")] ])])].
Proof. reflexivity. Qed.

Lemma merged_row_data_row (v row : JsVal) : data_row v row (merged_row v row).
Proof.
  unfold data_row, merged_row.
  rewrite (prop_lookup row "id_instancia") by discriminate.
  destruct (lookup "id_instancia" (own_props row)) as [w|] eqn:E.
  - destruct (is_nullish w) eqn:Hw.
    + unfold coalesce. rewrite Hw. split; [reflexivity|].
      simpl. rewrite put_lookup_same. reflexivity.
    + unfold coalesce. rewrite Hw. rewrite put_present by exact E. reflexivity.
  - simpl. rewrite put_absent by exact E. reflexivity.
Qed.

(** C2, as the code has it. For a batch insert that is let through, with
    request-level [id_instancia] [v], under either copy of the controller:
    the copies of the service that forward [data] send, for each row, the
    row with [id_instancia: v] appended when it has no such field, the row
    with its [id_instancia] replaced by [v] when that field is [null] or
    [undefined], and the row as it is otherwise; the copy that forwards
    [rows] sends each row as the list of its [{name, value}] pairs and
    adds no [id_instancia] to it. *)
Theorem batch_rows_take_request_instance (B : Builtins) (env : Env) (req : Request)
        (remote : Remote) (rs : list JsVal) :
  authorized env req ->
  batch_accepted (req_body req) rs ->
  (forall service controller,
     In service (data_services B) -> In controller (controllers service) ->
     exists payload rows,
       forwarded (handle env controller OpBatchInsert req) remote
       = [("/data/batch-insert", payload)]
       /\ prop payload "data" = JArr rows
       /\ Forall2 (data_row (prop (req_body req) "id_instancia")) rs rows)
  /\ (forall controller,
        In controller (controllers (ColumnPayload.service B)) ->
        exists payload rows,
          forwarded (handle env controller OpBatchInsert req) remote
          = [("/data/batch-insert", payload)]
          /\ prop payload "rows" = JArr rows
          /\ Forall2 column_row rs rows).
Proof.
  intros Hauth Hacc. split.
  - intros service controller Hin Hc.
    rewrite (batch_data_forwarded B service controller env req remote rs Hin Hc Hauth Hacc).
    eexists. eexists. split; [reflexivity|]. split; [reflexivity|].
    clear. induction rs as [|r rs IH]; constructor; [|exact IH].
    apply merged_row_data_row.
  - intros controller Hc.
    rewrite handle_unfold, validateApiKey_passes by exact Hauth.
    cbn [handler_of].
    rewrite (batchInsert_forwarded _ controller req remote rs Hc Hacc).
    destruct Hacc as [Hid [_ [Hne Hrows]]].
    destruct (identified_fields _ Hid) as [E1 [E2 E3]].
    rewrite (batchInsert_columns_run B _ _ _ rs remote E1 E2 E3 Hne Hrows).
    eexists. eexists. split; [reflexivity|]. split; [reflexivity|].
    clear. induction rs as [|r rs IH]; constructor; [reflexivity | exact IH].
Qed.

Lemma batch_rows_take_request_instance_witness :
  (forall service controller,
     In service (data_services no_builtins) -> In controller (controllers service) ->
     exists payload rows,
       forwarded (handle {| API_KEYS := Some "k1" |} controller OpBatchInsert
                         (batch_request sample_rows)) silent
       = [("/data/batch-insert", payload)]
       /\ prop payload "data" = JArr rows
       /\ Forall2 (data_row (prop (req_body (batch_request sample_rows)) "id_instancia"))
                  sample_rows rows)
  /\ (forall controller,
        In controller (controllers (ColumnPayload.service no_builtins)) ->
        exists payload rows,
          forwarded (handle {| API_KEYS := Some "k1" |} controller OpBatchInsert
                            (batch_request sample_rows)) silent
          = [("/data/batch-insert", payload)]
          /\ prop payload "rows" = JArr rows
          /\ Forall2 column_row sample_rows rows).
Proof.
  apply (batch_rows_take_request_instance no_builtins).
  - apply authorized_k1.
  - apply sample_rows_accepted.
Defined.

(** Two rows that do not go out as the specification expects: under
    [rows], a row without [id_instancia] goes out without it; under
    [data], a row that says [id_instancia: null] goes out with the
    request's value in its place. *)
Lemma batch_rows_not_as_claimed :
  (exists row',
     forwarded (handle {| API_KEYS := Some "k1" |}
                       (Controller.exports (ColumnPayload.service no_builtins))
                       OpBatchInsert (batch_request [obj [("nome", str "A")]])) silent
     = [("/data/batch-insert",
         obj [("project_id", JNum 1); ("id_instancia", JNum 10);
              ("table", str "produtos"); ("rows", JArr [row'])])]
     /\ row' = JArr [obj [("name", str "nome"); ("value", str "A")]]
     /\ row' <> claimed_row (JNum 10) (obj [("nome", str "A")]))
  /\ (exists row',
        forwarded (handle {| API_KEYS := Some "k1" |}
                          (Controller.exports (DataPayload.service no_builtins))
                          OpBatchInsert
                          (batch_request [obj [("nome", str "C");
                                               ("id_instancia", JNull)]])) silent
        = [("/data/batch-insert",
            obj [("project_id", JNum 1); ("id_instancia", JNum 10);
                 ("table", str "produtos"); ("data", JArr [row'])])]
        /\ row' = obj [("nome", str "C"); ("id_instancia", JNum 10)]
        /\ row' <> claimed_row (JNum 10) (obj [("nome", str "C");
                                               ("id_instancia", JNull)])).
Proof.
  split; eexists; (split; [reflexivity|]); (split; [reflexivity|]);
    simpl; discriminate.
Qed.

(* ================================================================== *)
(** ** The shape of every operation: at most one post *)
(* ================================================================== *)

Section OneShotFacts.

Variable detail : Thrown -> JsVal.

Lemma one_shot_request requestToGo path payload :
  posts_once requestToGo detail -> one_shot detail (requestToGo path payload).
Proof.
  intros Hp. apply shot_posts with (path := path) (payload := payload).
  intros remote log. rewrite Hp. reflexivity.
Qed.

Lemma one_shot_throw_if (c : bool) (msg : string) (k : M JsVal) :
  one_shot detail k -> one_shot detail (bind (throw_if c msg) (fun _ => k)).
Proof.
  intros Hk. destruct c.
  - apply shot_throws with (e := new_Error (str msg)). reflexivity.
  - destruct Hk as [e He | path payload Hpost].
    + apply shot_throws with (e := e). intros. unfold bind. simpl. apply He.
    + apply shot_posts with (path := path) (payload := payload).
      intros. unfold bind. simpl. apply Hpost.
Qed.

Lemma one_shot_lift {A : Type} (r : result A) (k : A -> M JsVal) :
  (forall x, one_shot detail (k x)) -> one_shot detail (bind (lift r) k).
Proof.
  intros Hk. destruct r as [x | e].
  - destruct (Hk x) as [e He | path payload Hpost].
    + apply shot_throws with (e := e). intros. unfold bind. simpl. apply He.
    + apply shot_posts with (path := path) (payload := payload).
      intros. unfold bind. simpl. apply Hpost.
  - apply shot_throws with (e := e). reflexivity.
Qed.

Lemma one_shot_destructure (src : string) (v : JsVal) (f : string) (k : JsVal -> M JsVal) :
  (forall x, one_shot detail (k x)) ->
  one_shot detail (bind (destructure src v f) k).
Proof.
  intros Hk. unfold destructure. destruct (is_nullish v).
  - apply shot_throws with (e := cannot_destructure src v f). reflexivity.
  - destruct (Hk (prop v f)) as [e He | path payload Hpost].
    + apply shot_throws with (e := e). intros. unfold bind. simpl. apply He.
    + apply shot_posts with (path := path) (payload := payload).
      intros. unfold bind. simpl. apply Hpost.
Qed.

(** [try { const result = await m; k result } catch (err) { 500 }], for a
    continuation [k] that makes no call of its own. *)
Lemma answers_try (m : M JsVal) (k : JsVal -> M Response)
      (kr : JsVal -> result Response) (message : string) :
  (forall d remote log, k d remote log = (kr d, log)) ->
  one_shot detail m ->
  answers detail (try_catch (bind m k) (Controller.server_error message)).
Proof.
  intros Hk [e He | path payload Hpost].
  - eapply answers_locally. intros remote log.
    unfold try_catch, bind. rewrite He. reflexivity.
  - apply answers_after
      with (path := path) (payload := payload) (message := message)
           (ok := fun d => match kr d with
                           | Ok r => r
                           | Throw e => failure_response message (thrown_message e)
                           end).
    intros remote log. unfold try_catch, bind. rewrite Hpost. unfold posting.
    destruct (remote path payload) as [d | e]; [|reflexivity].
    rewrite Hk. destruct (kr d); reflexivity.
Qed.

Lemma answers_try_ok (m : M JsVal) (ok : JsVal -> Response) (message : string) :
  one_shot detail m ->
  answers detail (try_catch (bind m (fun result => ret (ok result)))
                            (Controller.server_error message)).
Proof.
  intros Hm. apply answers_try with (kr := fun d => Ok (ok d)); [reflexivity | exact Hm].
Qed.

(** The same computation, step for step, answers the same way. *)
Lemma answers_ext (h h' : M Response) :
  (forall remote log, h remote log = h' remote log) ->
  answers detail h' -> answers detail h.
Proof.
  intros Heq [r Hr | e He | path payload ok message Hpost].
  - apply answers_locally with (r := r). intros. rewrite Heq. apply Hr.
  - apply answers_nothing with (e := e). intros. rewrite Heq. apply He.
  - apply answers_after with (path := path) (payload := payload) (ok := ok)
                             (message := message).
    intros. rewrite Heq. apply Hpost.
Qed.

(** The pattern every handler of the controller with inline checks
    follows. *)
Lemma answers_inline (first : M JsVal) (c : JsVal -> bool) (bad : string)
      (call : JsVal -> M JsVal) (ok : JsVal -> Response) (message : string) :
  ((exists e, first = throw e) \/ (exists x, first = ret x)) ->
  (forall x, one_shot detail (call x)) ->
  answers detail
    (try_catch
       (bind first
             (fun pid => if c pid then Controller.bad_request bad
                         else bind (call pid) (fun result => ret (ok result))))
       (Controller.server_error message)).
Proof.
  intros [[e ->] | [x ->]] Hcall.
  - eapply answers_locally. reflexivity.
  - destruct (c x) eqn:Hc.
    + eapply answers_locally. intros remote log.
      unfold try_catch, bind, ret. rewrite Hc. reflexivity.
    + apply answers_ext
        with (h' := try_catch (bind (call x) (fun result => ret (ok result)))
                              (Controller.server_error message)).
      * intros remote log. unfold try_catch, bind, ret. rewrite Hc. reflexivity.
      * apply answers_try_ok. apply Hcall.
Qed.

(** The pattern every handler of the controller with helpers follows. *)
Lemma answers_after_validation (v : M (option Response)) (h : M Response) :
  (exists e, v = throw e) \/ v = ret None ->
  answers detail h ->
  answers detail (bind v (fun validationError =>
                            match validationError with
                            | Some r => ret r
                            | None => h
                            end)).
Proof.
  intros [[e ->] | ->] Hh.
  - apply answers_nothing with (e := e). reflexivity.
  - apply answers_ext with (h' := h); [reflexivity | exact Hh].
Qed.

Lemma answers_guard (c : bool) (bad : string) (h : M Response) :
  answers detail h ->
  answers detail (if c then Controller.bad_request bad else h).
Proof.
  intros Hh. destruct c; [|exact Hh]. eapply answers_locally. reflexivity.
Qed.

End OneShotFacts.

Ltac shoot Hp :=
  cbv zeta;
  repeat first
    [ apply one_shot_throw_if
    | apply one_shot_lift; intros
    | apply one_shot_destructure; intros
    | apply one_shot_request; exact Hp ];
  cbv zeta.

Lemma operations_one_shot (B : Builtins) requestToGo detail :
  posts_once requestToGo detail ->
  (forall o, one_shot detail (advancedSelect B requestToGo o))
  /\ (forall a b c d e f, one_shot detail (update requestToGo a b c d e f))
  /\ (forall a b c d, one_shot detail (batchUpdate requestToGo a b c d))
  /\ (forall a b c d e f, one_shot detail (deleteRecords requestToGo a b c d e f))
  /\ (forall a b c d e f, one_shot detail (aggregate requestToGo a b c d e f)).
Proof.
  intros Hp. repeat split; intros;
    unfold advancedSelect, update, batchUpdate, deleteRecords, aggregate;
    shoot Hp; shoot Hp.
Qed.

Lemma data_inserts_one_shot requestToGo detail :
  posts_once requestToGo detail ->
  (forall a b c d, one_shot detail (DataPayload.insert requestToGo a b c d))
  /\ (forall a b c d, one_shot detail (DataPayload.batchInsert requestToGo a b c d)).
Proof.
  intros Hp. split; intros;
    unfold DataPayload.insert, DataPayload.batchInsert; shoot Hp; shoot Hp.
Qed.

Lemma column_inserts_one_shot :
  (forall a b c d, one_shot detail_error_field (ColumnPayload.insert a b c d))
  /\ (forall a b c d, one_shot detail_error_field (ColumnPayload.batchInsert a b c d)).
Proof.
  pose proof error_field_posts_once as Hp.
  split; intros;
    unfold ColumnPayload.insert, ColumnPayload.batchInsert, ColumnPayload.requestToGo;
    shoot Hp; shoot Hp.
Qed.

Lemma data_service_one_shot (B : Builtins) requestToGo detail :
  posts_once requestToGo detail ->
  one_shot_service detail (DataPayload.make B requestToGo).
Proof.
  intros Hp.
  destruct (operations_one_shot B requestToGo detail Hp) as [H1 [H2 [H3 [H4 H5]]]].
  destruct (data_inserts_one_shot requestToGo detail Hp) as [H6 H7].
  constructor; assumption.
Qed.

Lemma column_service_one_shot (B : Builtins) :
  one_shot_service detail_error_field (ColumnPayload.service B).
Proof.
  destruct (operations_one_shot B _ _ error_field_posts_once) as [H1 [H2 [H3 [H4 H5]]]].
  destruct column_inserts_one_shot as [H6 H7].
  constructor; assumption.
Qed.

Lemma copies_one_shot (B : Builtins) (service : Service) (detail : Thrown -> JsVal) :
  In (service, detail) (copies B) -> one_shot_service detail service.
Proof.
  intros [H | [H | [H | []]]]; injection H as <- <-.
  - apply data_service_one_shot, plain_posts_once.
  - apply data_service_one_shot, stringified_posts_once.
  - apply column_service_one_shot.
Qed.

Section Answers.

Variable detail : Thrown -> JsVal.

Lemma destructure_cases (src : string) (v : JsVal) (f : string) :
  (exists e, destructure src v f = throw e) \/ (exists x, destructure src v f = ret x).
Proof.
  unfold destructure. destruct (is_nullish v); [left | right]; eexists; reflexivity.
Qed.

Lemma get_cases (v : JsVal) (f : string) :
  (exists e, get v f = throw e) \/ (exists x, get v f = ret x).
Proof.
  unfold get. destruct (is_nullish v); [left | right]; eexists; reflexivity.
Qed.

Lemma inline_controller_answers (service : Service) (op : Operation) (req : Request) :
  one_shot_service detail service ->
  answers detail (handler_of (Controller.exports service) op req).
Proof.
  intros Hs. destruct Hs.
  destruct op; cbn [handler_of Controller.exports
      ctl_insertRecord ctl_batchInsert ctl_advancedSelect ctl_updateRecord
      ctl_batchUpdate ctl_deleteRecord ctl_aggregate];
    match goal with
    | |- answers _ (?h service req) => unfold h
    end;
    unfold Controller.success, json, status_json;
    cbv zeta;
    apply answers_inline;
    first [ apply destructure_cases | apply get_cases | intros; auto ].
Qed.

Lemma handleError_the_res (context : string) :
  HelperController.handleError HelperController.the_res context
  = Controller.server_error ("Erro ao " ++ context).
Proof. reflexivity. Qed.

Lemma helper_controller_answers (service : Service) (op : Operation) (req : Request) :
  one_shot_service detail service ->
  answers detail (handler_of (HelperController.exports service) op req).
Proof.
  intros Hs. destruct Hs.
  destruct op; cbn [handler_of HelperController.exports
      ctl_insertRecord ctl_batchInsert ctl_advancedSelect ctl_updateRecord
      ctl_batchUpdate ctl_deleteRecord ctl_aggregate];
    match goal with
    | |- answers _ (?h service req) => unfold h
    end;
    cbv zeta;
    (apply answers_after_validation; [apply validateFields_on_req_cases|]);
    try apply answers_guard;
    rewrite handleError_the_res;
    unfold HelperController.success, Controller.success, json, status_json.
  - apply answers_try_ok. auto.
  - apply answers_try_ok. auto.
  - apply answers_try
      with (kr := fun result =>
                    if is_nullish result then Throw (cannot_read result "data")
                    else Ok {| res_status := 200;
                               res_body :=
                                 obj [("success", JBool true);
                                      ("message", str "Consulta realizada com sucesso");
                                      ("data", result);
                                      ("count",
                                       if is_array (prop result "data")
                                       then JNum (Z.of_nat (array_length (prop result "data")))
                                       else JNum 0)] |});
      [|auto].
    intros d remote log. unfold bind, get.
    destruct (is_nullish d); reflexivity.
  - apply answers_try_ok. auto.
  - apply answers_try_ok. auto.
  - apply answers_try_ok. auto.
  - apply answers_try_ok. auto.
Qed.

(** Behind the key check, every request is answered locally, left
    unanswered, or answered after one post. *)
Lemma handle_answers (env : Env) (service : Service) (controller : ControllerModule)
      (op : Operation) (req : Request) :
  one_shot_service detail service ->
  In controller (controllers service) ->
  answers detail (handle env controller op req).
Proof.
  intros Hs Hc. rewrite handle_unfold.
  destruct (validateApiKey_cases env req (handler_of controller op req)) as [-> | ->].
  - destruct Hc as [Hc | [Hc | []]]; subst controller.
    + apply inline_controller_answers. exact Hs.
    + apply helper_controller_answers. exact Hs.
  - eapply answers_locally. reflexivity.
Qed.

End Answers.

(** No request makes more than one outbound call. *)
Lemma at_most_one_call (B : Builtins) (service : Service) (detail : Thrown -> JsVal)
      (controller : ControllerModule) (env : Env) (op : Operation) (req : Request)
      (remote : Remote) :
  In (service, detail) (copies B) ->
  In controller (controllers service) ->
  (List.length (forwarded (handle env controller op req) remote) <= 1)%nat.
Proof.
  intros Hin Hc.
  destruct (handle_answers detail env service controller op req
              (copies_one_shot B _ _ Hin) Hc)
    as [r Hr | e He | path payload ok message Hpost]; unfold forwarded.
  - rewrite Hr. simpl. lia.
  - rewrite He. simpl. lia.
  - rewrite Hpost. unfold posting. destruct (remote path payload); simpl; lia.
Qed.

(* ================================================================== *)
(** ** A failed call, as the caller sees it *)
(* ================================================================== *)

Lemma no_response_detail (B : Builtins) (service : Service) (detail : Thrown -> JsVal)
      (err : Thrown) :
  In (service, detail) (copies B) ->
  thrown_response err = None ->
  to_text (detail err) = thrown_message err.
Proof.
  intros [H | [H | [H | []]]] Hr; injection H as <- <-;
    unfold detail_plain, detail_stringified, detail_error_field, response_data;
    rewrite Hr; reflexivity.
Qed.

(** C5, as the code has it. Whichever copy of the controller and of the
    service is in place, when the one call a request makes is rejected the
    caller gets a 500 with [success: false] whose [error] is the text of
    the detail the service threw. With no response received that text is
    the HTTP client's own message, unchanged. With a response whose body
    is a non-empty string, the copies that forward [data] give that
    string; with a response whose body has a non-empty string [error], the
    copy that forwards [rows] gives that string. *)
Theorem failed_call_error_detail (B : Builtins) (service : Service)
        (detail : Thrown -> JsVal) (controller : ControllerModule) (env : Env)
        (op : Operation) (req : Request) (remote : Remote) (path : string)
        (payload : JsVal) (err : Thrown) :
  In (service, detail) (copies B) ->
  In controller (controllers service) ->
  forwarded (handle env controller op req) remote = [(path, payload)] ->
  remote path payload = Failed err ->
  (exists message,
      outcome (handle env controller op req) remote
      = Ok (failure_response message (to_text (detail err))))
  /\ (thrown_response err = None -> to_text (detail err) = thrown_message err)
  /\ (forall s, thrown_response err = Some (str s) -> s <> "" ->
        to_text (detail_plain err) = s /\ to_text (detail_stringified B err) = s)
  /\ (forall d m, thrown_response err = Some d -> is_nullish d = false ->
        prop d "error" = str m -> m <> "" ->
        to_text (detail_error_field err) = m).
Proof.
  intros Hin Hc Hfw Hfail. split; [|split; [|split]].
  - destruct (handle_answers detail env service controller op req
                (copies_one_shot B _ _ Hin) Hc)
      as [r Hr | e He | path' payload' ok message Hpost].
    + unfold forwarded in Hfw. rewrite Hr in Hfw. discriminate.
    + unfold forwarded in Hfw. rewrite He in Hfw. discriminate.
    + unfold forwarded in Hfw. unfold outcome. rewrite Hpost in *.
      unfold posting in *.
      destruct (remote path' payload') as [d | e] eqn:Hrem; simpl in Hfw;
        injection Hfw as -> ->; rewrite Hfail in Hrem; [discriminate|].
      injection Hrem as <-. exists message. reflexivity.
  - apply (no_response_detail B service detail err Hin).
  - intros s Hr Hs. apply String.eqb_neq in Hs.
    unfold detail_plain, detail_stringified, response_data, or_else.
    rewrite Hr. simpl. rewrite Hs. simpl. split; reflexivity.
  - intros d m Hr Hd Hp Hm. apply String.eqb_neq in Hm.
    unfold detail_error_field, response_data, or_else.
    rewrite Hr, Hd, Hp. simpl. rewrite Hm. reflexivity.
Qed.

Lemma failed_call_error_detail_witness :
  (exists message,
      outcome (handle {| API_KEYS := Some "k1" |}
                      (Controller.exports (DataPayload.service no_builtins))
                      OpInsert sample_insert) refused
      = Ok (failure_response message (to_text (detail_plain refused_error))))
  /\ (thrown_response refused_error = None ->
      to_text (detail_plain refused_error) = thrown_message refused_error)
  /\ (forall s, thrown_response refused_error = Some (str s) -> s <> "" ->
        to_text (detail_plain refused_error) = s
        /\ to_text (detail_stringified no_builtins refused_error) = s)
  /\ (forall d m, thrown_response refused_error = Some d -> is_nullish d = false ->
        prop d "error" = str m -> m <> "" ->
        to_text (detail_error_field refused_error) = m).
Proof.
  apply (failed_call_error_detail no_builtins (DataPayload.service no_builtins)
           detail_plain (Controller.exports (DataPayload.service no_builtins))
           {| API_KEYS := Some "k1" |} OpInsert sample_insert refused
           (fst sample_insert_call) (snd sample_insert_call) refused_error).
  - simpl. tauto.
  - simpl. tauto.
  - reflexivity.
  - reflexivity.
Defined.

(** Two ways of not reaching the engine give the caller two different
    texts, each the client's own message, one of them with the engine's
    address in it: there is no fixed connectivity message. *)
Lemma connectivity_error_not_fixed :
  handle {| API_KEYS := Some "k1" |}
         (Controller.exports (DataPayload.service no_builtins)) OpInsert
         sample_insert refused []
  = (Ok (failure_response "Erro ao inserir registro"
                          "connect ECONNREFUSED 10.0.0.5:8080"),
     [sample_insert_call])
  /\ handle {| API_KEYS := Some "k1" |}
            (Controller.exports (DataPayload.service no_builtins)) OpInsert
            sample_insert timed_out []
     = (Ok (failure_response "Erro ao inserir registro" "timeout of 30000ms exceeded"),
        [sample_insert_call])
  /\ "connect ECONNREFUSED 10.0.0.5:8080" <> "timeout of 30000ms exceeded".
Proof. repeat split; discriminate. Qed.

(** An engine that answers with an error body: the second copy of
    [requestToGo] reads the text out of it. *)
Example application_error_relayed :
  handle {| API_KEYS := Some "k1" |}
         (Controller.exports (ColumnPayload.service no_builtins)) OpInsert
         sample_insert
         (fun _ _ => Failed {| thrown_response :=
                                 Some (obj [("success", JBool false);
                                            ("error", str "Duplicate entry")]);
                               thrown_message := "Request failed with status code 500" |})
         []
  = (Ok (failure_response "Erro ao inserir registro" "Duplicate entry"),
     [("/data/insert",
       obj [("project_id", JNum 1); ("id_instancia", JNum 10);
            ("table", str "usuarios");
            ("columns", JArr [obj [("name", str "nome"); ("value", str "Ana")]])])]).
Proof. reflexivity. Qed.

(* ================================================================== *)
(** ** [callGoEngine] *)
(* ================================================================== *)

Section CallGoEngine.

Variables PROJECT_ID INSTANCE_ID : JsVal.

(** What the function comes to on a reply [d]: the inner [data.data] as
    it is when [d.data] can be read through, a [TypeError] out of the
    [catch] otherwise. *)
Lemma callGoEngine_on_reply (endpoint : string) (payload d : JsVal) :
  outcome (Consumer.callGoEngine PROJECT_ID INSTANCE_ID endpoint payload) (replying d)
  = if is_nullish d || is_nullish (prop d "data")
    then Throw (cannot_read JUndef "1")
    else Ok (prop (prop d "data") "data").
Proof.
  unfold outcome, Consumer.callGoEngine, try_catch, bind, axios_post, replying, get.
  destruct (is_nullish d) eqn:Hd; simpl.
  - destruct d; try discriminate; reflexivity.
  - destruct (is_nullish (prop d "data")) eqn:Hi; simpl; [|reflexivity].
    destruct (prop d "data"); try discriminate; reflexivity.
Qed.

End CallGoEngine.

(** C9, where the code falls short of it. A reply that is a single
    object makes [callGoEngine] throw; a reply whose [data] holds a single
    object makes it return [undefined]; a reply whose [data.data] is a
    number makes it return that number. The statements after the early
    [return] would have given a list in each case. *)
Theorem callGoEngine_does_not_wrap :
  let call := Consumer.callGoEngine (str "1") (str "10") "get"
                (obj [("table", str "usuarios")]) in
  let single := obj [("id", JNum 5)] in
  let nested := obj [("success", JBool true); ("data", obj [("id", JNum 5)])] in
  let scalar := obj [("data", obj [("data", JNum 7)])] in
  outcome call (replying single) = Throw (cannot_read JUndef "1")
  /\ Consumer.normalize single = JArr [single]
  /\ outcome call (replying nested) = Ok JUndef
  /\ Consumer.normalize nested = JArr [nested]
  /\ outcome call (replying scalar) = Ok (JNum 7)
  /\ Consumer.normalize scalar = JArr [scalar].
Proof. repeat split. Qed.

(* ================================================================== *)
(** ** Where the calls go *)
(* ================================================================== *)

Lemma quiet_ret {A : Type} (a : A) : quiet (ret a).
Proof. intros remote log. reflexivity. Qed.

Lemma quiet_throw {A : Type} (e : Thrown) : quiet (@throw A e).
Proof. intros remote log. reflexivity. Qed.

Lemma quiet_lift {A : Type} (r : result A) : quiet (lift r).
Proof. destruct r; intros remote log; reflexivity. Qed.

Lemma quiet_throw_if (c : bool) (msg : string) : quiet (throw_if c msg).
Proof. destruct c; intros remote log; reflexivity. Qed.

Lemma quiet_destructure (src : string) (v : JsVal) (f : string) :
  quiet (destructure src v f).
Proof. unfold destructure. destruct (is_nullish v); intros remote log; reflexivity. Qed.

Lemma quiet_get (v : JsVal) (f : string) : quiet (get v f).
Proof. unfold get. destruct (is_nullish v); intros remote log; reflexivity. Qed.

Lemma quiet_status_json (code : Z) (body : JsVal) : quiet (status_json code body).
Proof. intros remote log. reflexivity. Qed.

Lemma quiet_status_json_on (res : HelperController.Handle) (code : Z) (body : JsVal) :
  quiet (HelperController.status_json_on res code body).
Proof. destruct res; intros remote log; reflexivity. Qed.

Lemma quiet_bind {A C : Type} (m : M A) (k : A -> M C) :
  quiet m -> (forall a, quiet (k a)) -> quiet (bind m k).
Proof.
  intros Hm Hk remote log. unfold bind.
  pose proof (Hm remote log) as H.
  destruct (m remote log) as [[a | e] log']; simpl in H; subst log'.
  - apply Hk.
  - reflexivity.
Qed.

Lemma quiet_try {A : Type} (m : M A) (h : Thrown -> M A) :
  quiet m -> (forall e, quiet (h e)) -> quiet (try_catch m h).
Proof.
  intros Hm Hh remote log. unfold try_catch.
  pose proof (Hm remote log) as H.
  destruct (m remote log) as [[a | e] log']; simpl in H; subst log'.
  - reflexivity.
  - apply Hh.
Qed.

Lemma quiet_validateFields (res : HelperController.Handle) (body : JsVal)
      (fields : list string) (context : string) :
  quiet (HelperController.validateFields res body fields context).
Proof.
  unfold HelperController.validateFields.
  apply quiet_bind; [apply quiet_lift|]. intros missing.
  destruct (negb (Nat.eqb (List.length missing) 0)); [|apply quiet_ret].
  apply quiet_bind; [apply quiet_status_json_on|]. intros r. apply quiet_ret.
Qed.

Lemma only_to_quiet (path : string) {A : Type} (m : M A) : quiet m -> only_to path m.
Proof. intros H remote log. left. apply H. Qed.

Lemma only_to_bind_first (path : string) {A C : Type} (m : M A) (k : A -> M C) :
  quiet m -> (forall a, only_to path (k a)) -> only_to path (bind m k).
Proof.
  intros Hm Hk remote log. unfold bind.
  pose proof (Hm remote log) as H.
  destruct (m remote log) as [[a | e] log']; simpl in H; subst log'.
  - apply Hk.
  - left. reflexivity.
Qed.

Lemma only_to_bind_then (path : string) {A C : Type} (m : M A) (k : A -> M C) :
  only_to path m -> (forall a, quiet (k a)) -> only_to path (bind m k).
Proof.
  intros Hm Hk remote log. unfold bind.
  pose proof (Hm remote log) as H.
  destruct (m remote log) as [[a | e] log']; simpl in H.
  - rewrite (Hk a remote log'). exact H.
  - exact H.
Qed.

Lemma only_to_try (path : string) {A : Type} (m : M A) (h : Thrown -> M A) :
  only_to path m -> (forall e, quiet (h e)) -> only_to path (try_catch m h).
Proof.
  intros Hm Hh remote log. unfold try_catch.
  pose proof (Hm remote log) as H.
  destruct (m remote log) as [[a | e] log']; simpl in H.
  - exact H.
  - rewrite (Hh e remote log'). exact H.
Qed.

Lemma only_to_request requestToGo detail (path : string) (payload : JsVal) :
  posts_once requestToGo detail -> only_to path (requestToGo path payload).
Proof.
  intros Hp remote log. right. exists payload. rewrite Hp.
  destruct (remote path payload); reflexivity.
Qed.

(** Steps that make no call. *)
Ltac hush :=
  repeat first
    [ apply quiet_ret | apply quiet_throw | apply quiet_lift | apply quiet_throw_if
    | apply quiet_destructure | apply quiet_get | apply quiet_status_json
    | apply quiet_status_json_on | apply quiet_validateFields
    | apply quiet_bind; [|intros]
    | apply quiet_try; [|intros] ].

(** Steps that lead to the one post. *)
Ltac follow Hp :=
  cbv zeta;
  repeat first
    [ apply only_to_bind_first; [solve [hush] | intros; cbv zeta]
    | eapply only_to_request; exact Hp ].

Lemma operations_post_to_engine (B : Builtins) requestToGo detail :
  posts_once requestToGo detail ->
  (forall o, only_to "/data/select" (advancedSelect B requestToGo o))
  /\ (forall a b c d e f, only_to "/data/update" (update requestToGo a b c d e f))
  /\ (forall a b c d, only_to "/data/batch-update" (batchUpdate requestToGo a b c d))
  /\ (forall a b c d e f, only_to "/data/delete" (deleteRecords requestToGo a b c d e f))
  /\ (forall a b c d e f, only_to "/data/aggregate" (aggregate requestToGo a b c d e f)).
Proof.
  intros Hp. repeat split; intros;
    unfold advancedSelect, update, batchUpdate, deleteRecords, aggregate;
    follow Hp.
Qed.

Lemma data_service_posts_to_engine (B : Builtins) requestToGo detail :
  posts_once requestToGo detail ->
  posts_to_engine (DataPayload.make B requestToGo).
Proof.
  intros Hp.
  destruct (operations_post_to_engine B requestToGo detail Hp) as [H1 [H2 [H3 [H4 H5]]]].
  unfold posts_to_engine. simpl. repeat split; try assumption; intros;
    unfold DataPayload.insert, DataPayload.batchInsert; follow Hp.
Qed.

Lemma column_service_posts_to_engine (B : Builtins) :
  posts_to_engine (ColumnPayload.service B).
Proof.
  pose proof error_field_posts_once as Hp.
  destruct (operations_post_to_engine B _ _ Hp) as [H1 [H2 [H3 [H4 H5]]]].
  unfold posts_to_engine. simpl. repeat split; try assumption; intros;
    unfold ColumnPayload.insert, ColumnPayload.batchInsert, ColumnPayload.requestToGo;
    follow Hp.
Qed.

Lemma services_post_to_engine (B : Builtins) (service : Service) :
  In service (services B) -> posts_to_engine service.
Proof.
  intros [H | [H | [H | []]]]; subst service.
  - apply (data_service_posts_to_engine B _ _ plain_posts_once).
  - apply (data_service_posts_to_engine B _ _ (stringified_posts_once B)).
  - apply column_service_posts_to_engine.
Qed.

Lemma quiet_server_error (message : string) (e : Thrown) :
  quiet (Controller.server_error message e).
Proof. apply quiet_status_json. Qed.

Lemma quiet_handleError (context : string) (e : Thrown) :
  quiet (HelperController.handleError HelperController.the_res context e).
Proof. apply quiet_status_json. Qed.

Lemma quiet_success (message : string) (d : JsVal) : quiet (Controller.success message d).
Proof. apply quiet_status_json. Qed.

Lemma quiet_bad_request (message : string) : quiet (Controller.bad_request message).
Proof. apply quiet_status_json. Qed.

(** Either copy of a handler calls nothing but its operation of the
    service, and only once. *)
Lemma handlers_post_to_engine (service : Service) (controller : ControllerModule)
      (op : Operation) (req : Request) :
  posts_to_engine service ->
  In controller (controllers service) ->
  only_to (engine_path op) (handler_of controller op req).
Proof.
  intros [H1 [H2 [H3 [H4 [H5 [H6 H7]]]]]] [Hc | [Hc | []]]; subst controller;
    destruct op; cbn [handler_of Controller.exports HelperController.exports
      ctl_insertRecord ctl_batchInsert ctl_advancedSelect ctl_updateRecord
      ctl_batchUpdate ctl_deleteRecord ctl_aggregate];
    match goal with
    | |- only_to _ (?h service req) => unfold h
    end;
    cbv zeta.
  all: try (apply only_to_try; [|intros; apply quiet_server_error];
            apply only_to_bind_first; [solve [hush] | intros pid];
            match goal with
            | |- only_to _ (if ?c then _ else _) =>
                destruct c; [apply only_to_quiet, quiet_bad_request|]
            end;
            apply only_to_bind_then; [auto | intros; hush]).
  all: apply only_to_bind_first; [apply quiet_validateFields | intros [r|]];
    [apply only_to_quiet, quiet_ret|];
    try match goal with
        | |- only_to _ (if ?c then _ else _) =>
            destruct c; [apply only_to_quiet, quiet_bad_request|]
        end;
    (apply only_to_try; [|intros; apply quiet_handleError]);
    (apply only_to_bind_then; [auto | intros; hush]).
Qed.

(** X1. Whichever copy of the controller and of the service is in
    place, one request makes at most one outbound call, and that call
    goes to the engine path of the operation requested: an insert never
    posts to [/data/delete], and no route posts to [/data/join-select]. *)
Theorem operation_posts_to_its_path (B : Builtins) (service : Service)
        (controller : ControllerModule) (env : Env) (op : Operation) (req : Request)
        (remote : Remote) :
  In service (services B) ->
  In controller (controllers service) ->
  (forwarded (handle env controller op req) remote = []
   \/ exists payload,
        forwarded (handle env controller op req) remote = [(engine_path op, payload)])
  /\ (forall call, In call (forwarded (handle env controller op req) remote) ->
        fst call <> "/data/join-select").
Proof.
  intros Hs Hc.
  assert (H : forwarded (handle env controller op req) remote = []
              \/ exists payload,
                   forwarded (handle env controller op req) remote
                   = [(engine_path op, payload)]).
  { rewrite handle_unfold. unfold forwarded.
    destruct (validateApiKey_cases env req (handler_of controller op req)) as [-> | ->];
      [|left; reflexivity].
    apply (handlers_post_to_engine service controller op req
             (services_post_to_engine B service Hs) Hc remote []). }
  split; [exact H|].
  intros call Hin. destruct H as [H | [payload H]]; rewrite H in Hin.
  - contradiction.
  - destruct Hin as [<- | []]. destruct op; discriminate.
Qed.

Lemma operation_posts_to_its_path_witness :
  let calls :=
    forwarded (handle env_k1 (HelperController.exports (ColumnPayload.service no_builtins))
                      OpUpdate sample_update) silent in
  (calls = [] \/ exists payload, calls = [(engine_path OpUpdate, payload)])
  /\ (forall call, In call calls -> fst call <> "/data/join-select").
Proof.
  intros calls.
  apply (operation_posts_to_its_path no_builtins (ColumnPayload.service no_builtins)).
  - simpl. tauto.
  - simpl. tauto.
Defined.

(* ================================================================== *)
(** ** The statuses a handler answers with *)
(* ================================================================== *)

Lemma validateApiKey_unauthorized (env : Env) (req : Request) (next : M Response) :
  ~ authorized env req -> validateApiKey env req next = ret unauthorized.
Proof.
  intros H. unfold validateApiKey.
  destruct (header (req_headers req) "x-api-key") as [k|] eqn:Hh; [|reflexivity].
  destruct (String.eqb k "") eqn:Hk; [reflexivity|].
  destruct (includes (validKeys env) k) eqn:Hi; [|reflexivity].
  exfalso. apply H. exists k. split; [exact Hh|]. split.
  - apply String.eqb_neq. exact Hk.
  - apply includes_In. exact Hi.
Qed.

(** Case analysis on the innermost call whose result is matched on. *)
Ltac split_call :=
  match goal with
  | |- context [match ?x with pair _ _ => _ end] =>
      lazymatch x with
      | context [match _ with pair _ _ => _ end] => fail
      | _ => destruct x as [[? | ?] ?]
      end
  end.

(** The controller with inline checks ends every run with a response. *)
Lemma inline_handler_status (service : Service) (op : Operation) (req : Request)
      (remote : Remote) (log : list Call) :
  exists r log',
    handler_of (Controller.exports service) op req remote log = (Ok r, log')
    /\ In (res_status r) [200; 400; 500]%Z.
Proof.
  destruct op; cbn [handler_of Controller.exports
      ctl_insertRecord ctl_batchInsert ctl_advancedSelect ctl_updateRecord
      ctl_batchUpdate ctl_deleteRecord ctl_aggregate];
    match goal with
    | |- context [?h service req remote log] => unfold h
    end;
    run_handler;
    (destruct (is_nullish (req_body req));
     [do 2 eexists; split; [reflexivity | simpl; tauto]|]);
    match goal with
    | |- context [if ?c then _ else _] => destruct c
    end;
    try (do 2 eexists; split; [reflexivity | simpl; tauto]);
    split_call;
    do 2 eexists; (split; [reflexivity | simpl; tauto]).
Qed.

(** The controller written with helpers answers with one of the same
    statuses, when it answers. *)
Lemma helper_handler_status (service : Service) (op : Operation) (req : Request)
      (remote : Remote) (log log' : list Call) (r : Response) :
  handler_of (HelperController.exports service) op req remote log = (Ok r, log') ->
  In (res_status r) [200; 400; 500]%Z.
Proof.
  destruct op; cbn [handler_of HelperController.exports
      ctl_insertRecord ctl_batchInsert ctl_advancedSelect ctl_updateRecord
      ctl_batchUpdate ctl_deleteRecord ctl_aggregate];
    match goal with
    | |- ?h service req remote log = _ -> _ => unfold h
    end;
    match goal with
    | |- context [HelperController.validateFields _ ?b ?fs ?c] =>
        destruct (validateFields_on_req_cases b fs c) as [[e ->] | ->]
    end;
    try (unfold bind, throw; intros H; discriminate H);
    run_helper; unfold get;
    try match goal with
        | |- context [if negb ?c then _ else _] => destruct c; simpl
        end;
    try (intros H; injection H as <- _; simpl; tauto);
    split_call;
    try match goal with
        | |- context [is_nullish ?d] => destruct (is_nullish d)
        end;
    unfold ret, throw; intros H; injection H as <- _; simpl; tauto.
Qed.

(** X2. Under the controller with inline checks, whatever the service
    and the engine do, every request on every route ends with a response
    written: nothing thrown escapes a handler. The status is 200, 400,
    401 or 500, and no other. *)
Theorem inline_controller_always_answers (env : Env) (service : Service)
        (op : Operation) (req : Request) (remote : Remote) (log : list Call) :
  exists r log',
    handle env (Controller.exports service) op req remote log = (Ok r, log')
    /\ In (res_status r) [200; 400; 401; 500]%Z.
Proof.
  rewrite handle_unfold.
  destruct (validateApiKey_cases env req
              (handler_of (Controller.exports service) op req)) as [-> | ->].
  - destruct (inline_handler_status service op req remote log) as [r [log' [Hr Hs]]].
    exists r, log'. split; [exact Hr|]. simpl in *. tauto.
  - exists unauthorized, log. split; [reflexivity|]. simpl. tauto.
Qed.

(** Past the body parsers, the router answers 401 exactly to the requests
    without a key that the check accepts. *)
Lemma handle_401_iff (service : Service) (controller : ControllerModule)
      (env : Env) (op : Operation) (req : Request) (remote : Remote) :
  In controller (controllers service) ->
  (exists r, outcome (handle env controller op req) remote = Ok r
             /\ res_status r = 401%Z)
  <-> ~ authorized env req.
Proof.
  intros Hc. rewrite handle_unfold. unfold outcome. split.
  - intros [r [Hr Hs]] Hauth.
    rewrite validateApiKey_passes in Hr by exact Hauth.
    destruct (handler_of controller op req remote []) as [res log'] eqn:Hrun.
    simpl in Hr. subst res.
    assert (Hin : In (res_status r) [200; 400; 500]%Z).
    { destruct Hc as [Hc | [Hc | []]]; subst controller.
      - destruct (inline_handler_status service op req remote []) as [r' [l' [Hr' Hs']]].
        rewrite Hrun in Hr'. injection Hr' as <- _. exact Hs'.
      - apply (helper_handler_status service op req remote [] log' r Hrun). }
    rewrite Hs in Hin. simpl in Hin.
    destruct Hin as [H | [H | [H | []]]]; discriminate H.
  - intros Hno. rewrite validateApiKey_unauthorized by exact Hno.
    exists unauthorized. split; reflexivity.
Qed.

(** X3. Under either copy of the controller and over any service, a POST
    to an operation path, one that asks for no other method with
    [_method] in its query, is answered 401 exactly when the body parsers
    of [app.js] accept its body and it carries no key that the check
    accepts. A handler never answers 401 of its own; a request without an
    accepted key whose body was parsed never gets another answer; and a
    request whose body the parsers refuse is answered 500 by the error
    handler, with or without a key. *)
Theorem status_401_iff_unauthorized (service : Service) (controller : ControllerModule)
        (env : Env) (op : Operation) (inbound : App.Inbound) (remote : Remote) :
  In controller (controllers service) ->
  ((exists r, outcome (App.post env controller op inbound) remote = Ok r
              /\ res_status r = 401%Z)
   <-> (exists req, App.body_parsers inbound = Some req /\ ~ authorized env req))
  /\ (App.body_parsers inbound = None ->
      App.post env controller op inbound remote []
      = (Ok {| res_status := 500; res_body := str "Erro interno" |}, [])).
Proof.
  intros Hc. split.
  - destruct (App.body_parsers inbound) as [req|] eqn:Hparse.
    + rewrite (post_accepted env controller op inbound req Hparse).
      rewrite (handle_401_iff service controller env op req remote Hc). split.
      * intros Hno. exists req. split; [reflexivity | exact Hno].
      * intros [req' [Heq Hno]]. injection Heq as <-. exact Hno.
    + rewrite (post_refused env controller op inbound Hparse). split.
      * intros [r [Hr Hs]]. unfold outcome, ret in Hr. simpl in Hr.
        injection Hr as <-. discriminate Hs.
      * intros [req [Heq _]]. discriminate Heq.
  - intros Hparse. rewrite (post_refused env controller op inbound Hparse).
    reflexivity.
Qed.

Lemma status_401_iff_unauthorized_witness :
  ((exists r, outcome (App.post env_k1
                         (HelperController.exports (DataPayload.service no_builtins))
                         OpGet (arriving sample_select)) silent = Ok r
              /\ res_status r = 401%Z)
   <-> (exists req, App.body_parsers (arriving sample_select) = Some req
                    /\ ~ authorized env_k1 req))
  /\ (App.body_parsers (arriving sample_select) = None ->
      App.post env_k1 (HelperController.exports (DataPayload.service no_builtins))
               OpGet (arriving sample_select) silent []
      = (Ok {| res_status := 500; res_body := str "Erro interno" |}, [])).
Proof.
  apply (status_401_iff_unauthorized (DataPayload.service no_builtins)).
  simpl. tauto.
Defined.

(* ================================================================== *)
(** ** A reply, as the caller sees it *)
(* ================================================================== *)

Section RelayFacts.

Variable detail : Thrown -> JsVal.

Lemma relay_try (m : M JsVal) (k : JsVal -> M Response)
      (kr : JsVal -> result Response) (message : string) (remote : Remote)
      (path : string) (payload d : JsVal) :
  (forall x remote log, k x remote log = (kr x, log)) ->
  one_shot detail m ->
  forwarded (try_catch (bind m k) (Controller.server_error message)) remote
  = [(path, payload)] ->
  remote path payload = Replied d ->
  outcome (try_catch (bind m k) (Controller.server_error message)) remote
  = Ok (match kr d with
        | Ok r => r
        | Throw e => failure_response message (thrown_message e)
        end).
Proof.
  intros Hk [e He | path' payload' Hpost] Hfw Hrep;
    unfold forwarded, outcome, try_catch, bind in *.
  - rewrite He in Hfw. discriminate Hfw.
  - rewrite Hpost in *. unfold posting in *.
    destruct (remote path' payload') as [d' | e'] eqn:Hrem.
    + rewrite Hk in *. assert (Heq : (path', payload') = (path, payload)).
      { destruct (kr d'); simpl in Hfw; injection Hfw as -> ->; reflexivity. }
      injection Heq as -> ->. rewrite Hrep in Hrem. injection Hrem as <-.
      destruct (kr d); reflexivity.
    + simpl in Hfw. injection Hfw as -> ->. rewrite Hrep in Hrem. discriminate Hrem.
Qed.

Lemma relay_try_ok (m : M JsVal) (ok : JsVal -> Response) (message : string)
      (remote : Remote) (path : string) (payload d : JsVal) :
  one_shot detail m ->
  forwarded (try_catch (bind m (fun result => ret (ok result)))
                       (Controller.server_error message)) remote
  = [(path, payload)] ->
  remote path payload = Replied d ->
  outcome (try_catch (bind m (fun result => ret (ok result)))
                     (Controller.server_error message)) remote
  = Ok (ok d).
Proof.
  intros Hm Hfw Hrep.
  apply (relay_try m (fun result => ret (ok result)) (fun result => Ok (ok result))
           message remote path payload d (fun _ _ _ => eq_refl) Hm Hfw Hrep).
Qed.

Lemma relay_inline (first : M JsVal) (c : JsVal -> bool) (bad : string)
      (call : JsVal -> M JsVal) (ok : JsVal -> Response) (message : string)
      (remote : Remote) (path : string) (payload d : JsVal) :
  ((exists e, first = throw e) \/ (exists x, first = ret x)) ->
  (forall x, one_shot detail (call x)) ->
  forwarded
    (try_catch
       (bind first
             (fun pid => if c pid then Controller.bad_request bad
                         else bind (call pid) (fun result => ret (ok result))))
       (Controller.server_error message)) remote
  = [(path, payload)] ->
  remote path payload = Replied d ->
  outcome
    (try_catch
       (bind first
             (fun pid => if c pid then Controller.bad_request bad
                         else bind (call pid) (fun result => ret (ok result))))
       (Controller.server_error message)) remote
  = Ok (ok d).
Proof.
  intros [[e ->] | [x ->]] Hcall Hfw Hrep.
  - discriminate Hfw.
  - destruct (c x) eqn:Hc.
    + unfold forwarded, try_catch, bind, ret in Hfw. rewrite Hc in Hfw.
      discriminate Hfw.
    + pose proof (relay_try_ok (call x) ok message remote path payload d (Hcall x))
        as H.
      unfold forwarded, outcome, try_catch, bind, ret in *.
      rewrite Hc in *. apply H; assumption.
Qed.

Lemma relay_after_validation (v : M (option Response)) (h : M Response)
      (remote : Remote) (path : string) (payload : JsVal) :
  (exists e, v = throw e) \/ v = ret None ->
  forwarded (bind v (fun validationError =>
                       match validationError with
                       | Some r => ret r
                       | None => h
                       end)) remote = [(path, payload)] ->
  forwarded h remote = [(path, payload)]
  /\ outcome (bind v (fun validationError =>
                        match validationError with
                        | Some r => ret r
                        | None => h
                        end)) remote = outcome h remote.
Proof.
  intros [[e ->] | ->] Hfw.
  - discriminate Hfw.
  - split; [exact Hfw | reflexivity].
Qed.

Lemma relay_guard (c : bool) (bad : string) (h : M Response)
      (remote : Remote) (path : string) (payload : JsVal) :
  forwarded (if c then Controller.bad_request bad else h) remote = [(path, payload)] ->
  forwarded h remote = [(path, payload)]
  /\ outcome (if c then Controller.bad_request bad else h) remote = outcome h remote.
Proof.
  destruct c; intros Hfw; [discriminate Hfw|]. split; [exact Hfw | reflexivity].
Qed.

End RelayFacts.

(** X4. When the one call a request makes is replied to with [d], the
    caller gets status 200 with [success: true] and [d], unchanged,
    under [data]. A select adds [count]: the length of [d] when it is a
    list under the controller with inline checks, the length of [d.data]
    under the controller with helpers, and 0 otherwise. Under the
    controller with helpers the answer to a select needs a reply that is
    not [null]. *)
Theorem reply_is_relayed (B : Builtins) (service : Service) (detail : Thrown -> JsVal)
        (copy : ControllerCopy) (env : Env) (op : Operation) (req : Request)
        (remote : Remote) (path : string) (payload d : JsVal) :
  In (service, detail) (copies B) ->
  forwarded (handle env (controller_copy copy service) op req) remote
  = [(path, payload)] ->
  remote path payload = Replied d ->
  (op = OpGet -> copy = WithHelpers -> is_nullish d = false) ->
  exists r,
    outcome (handle env (controller_copy copy service) op req) remote = Ok r
    /\ res_status r = 200%Z
    /\ prop (res_body r) "success" = JBool true
    /\ prop (res_body r) "data" = d
    /\ (op = OpGet ->
        prop (res_body r) "count"
        = length_or_zero (match copy with
                          | InlineChecks => d
                          | WithHelpers => prop d "data"
                          end)).
Proof.
  intros Hin Hfw Hrep Hget.
  pose proof (copies_one_shot B _ _ Hin) as Hs. destruct Hs.
  rewrite handle_unfold in *.
  destruct (validateApiKey_cases env req
              (handler_of (controller_copy copy service) op req)) as [E | E];
    rewrite E in *; [|discriminate Hfw]. clear E.
  destruct copy.
  - destruct op; cbn [controller_copy handler_of Controller.exports
        ctl_insertRecord ctl_batchInsert ctl_advancedSelect ctl_updateRecord
        ctl_batchUpdate ctl_deleteRecord ctl_aggregate] in *;
      match goal with
      | |- context [outcome (?h service req)] => unfold h in *
      end;
      unfold Controller.success, json, status_json in *; cbv zeta in *;
      (eexists; split;
       [ eapply (relay_inline detail);
         [ first [apply destructure_cases | apply get_cases]
         | intros; auto
         | exact Hfw
         | exact Hrep ]
       | repeat split; try reflexivity; intros; discriminate ]).
  - destruct op; cbn [controller_copy handler_of HelperController.exports
        ctl_insertRecord ctl_batchInsert ctl_advancedSelect ctl_updateRecord
        ctl_batchUpdate ctl_deleteRecord ctl_aggregate] in *;
      match goal with
      | |- context [outcome (?h service req)] => unfold h in *
      end;
      cbv zeta in *;
      (apply relay_after_validation in Hfw; [|apply validateFields_on_req_cases]);
      destruct Hfw as [Hfw ->];
      try (apply relay_guard in Hfw; destruct Hfw as [Hfw ->]);
      rewrite handleError_the_res in *;
      unfold HelperController.success, Controller.success, json, status_json in *.
    3: { rewrite (relay_try detail _ _
                    (fun result =>
                       if is_nullish result then Throw (cannot_read result "data")
                       else Ok {| res_status := 200;
                                  res_body :=
                                    obj [("success", JBool true);
                                         ("message", str "Consulta realizada com sucesso");
                                         ("data", result);
                                         ("count", length_or_zero (prop result "data"))] |})
                    _ remote path payload d);
           [ | intros x r l; unfold bind, get; destruct (is_nullish x); reflexivity
             | auto | exact Hfw | exact Hrep ].
         rewrite (Hget eq_refl eq_refl). eexists. split; [reflexivity|].
         repeat split; reflexivity. }
    all: eexists; split;
      [ eapply (relay_try_ok detail); [auto | exact Hfw | exact Hrep]
      | repeat split; try reflexivity; intros; discriminate ].
Qed.

Lemma reply_is_relayed_witness :
  let d := obj [("data", JArr [obj [("id", JNum 1)]; obj [("id", JNum 2)]])] in
  exists r,
    outcome (handle env_k1 (controller_copy WithHelpers (DataPayload.service no_builtins))
                    OpGet sample_select) (replying d) = Ok r
    /\ res_status r = 200%Z
    /\ prop (res_body r) "success" = JBool true
    /\ prop (res_body r) "data" = d
    /\ (OpGet = OpGet -> prop (res_body r) "count" = length_or_zero (prop d "data")).
Proof.
  intros d.
  apply (reply_is_relayed no_builtins (DataPayload.service no_builtins) detail_plain
           WithHelpers env_k1 OpGet sample_select (replying d)
           "/data/select" (select_payload no_builtins (req_body sample_select)) d).
  - simpl. tauto.
  - reflexivity.
  - reflexivity.
  - reflexivity.
Defined.

(* ================================================================== *)
(** ** Select *)
(* ================================================================== *)

Lemma nullish_not_identified (body : JsVal) :
  is_nullish body = true -> identified body = false.
Proof. destruct body; simpl; intros H; try discriminate; reflexivity. Qed.

Lemma advancedSelect_run (B : Builtins) requestToGo detail (body : JsVal)
      (remote : Remote) :
  posts_once requestToGo detail ->
  snd (advancedSelect B requestToGo body remote [])
  = if identified body then [("/data/select", select_payload B body)] else [].
Proof.
  intros Hp. unfold advancedSelect. run_handler.
  destruct (is_nullish body) eqn:Hn.
  - rewrite (nullish_not_identified _ Hn). reflexivity.
  - destruct (identified body) eqn:Hid.
    + destruct (identified_fields _ Hid) as [E1 [E2 E3]]. unfold falsy.
      rewrite E1, E2, E3. simpl. rewrite Hp. unfold select_payload.
      destruct (remote _ _); reflexivity.
    + rewrite (not_identified _ Hid). reflexivity.
Qed.

Lemma advancedSelect_forwarded (B : Builtins) (service : Service)
      (controller : ControllerModule) (req : Request) (remote : Remote)
      requestToGo detail :
  built_on service B requestToGo detail ->
  In controller (controllers service) ->
  forwarded (ctl_advancedSelect controller req) remote
  = if identified (req_body req)
    then [("/data/select", select_payload B (req_body req))]
    else [].
Proof.
  intros Hb [Hc | [Hc | []]]; subst controller; unfold forwarded;
    cbn [Controller.exports HelperController.exports ctl_advancedSelect];
    pose proof (advancedSelect_run B requestToGo detail (req_body req) remote
                  (built_posts _ _ _ _ Hb)) as Hrun.
  - unfold Controller.advancedSelect. rewrite (built_select _ _ _ _ Hb).
    run_handler.
    destruct (is_nullish (req_body req)) eqn:Hn.
    + rewrite (nullish_not_identified _ Hn). reflexivity.
    + destruct (identified (req_body req)) eqn:Hid.
      * destruct (identified_fields _ Hid) as [E1 [E2 E3]]. unfold falsy.
        rewrite E1, E2, E3. cbn [negb orb].
        rewrite <- Hrun.
        destruct (advancedSelect _ _ _ remote []) as [[d | e] calls]; reflexivity.
      * rewrite (not_identified _ Hid). reflexivity.
  - unfold HelperController.advancedSelect. rewrite (built_select _ _ _ _ Hb).
    assert (Hafter :
      snd (try_catch
             (bind (advancedSelect B requestToGo (req_body req))
                   (fun result =>
                      bind (get result "data")
                           (fun rows =>
                              json (obj [("success", JBool true);
                                         ("message", str "Consulta realizada com sucesso");
                                         ("data", result);
                                         ("count", if is_array rows
                                                   then JNum (Z.of_nat (array_length rows))
                                                   else JNum 0)]))))
             (HelperController.handleError HelperController.the_res
                "executar consulta avançada")
             remote [])
      = if identified (req_body req)
        then [("/data/select", select_payload B (req_body req))] else []).
    { run_helper. unfold get. rewrite <- Hrun.
      destruct (advancedSelect _ _ _ remote []) as [[d | e] calls]; [|reflexivity].
      destruct (is_nullish d); reflexivity. }
    destruct (identified (req_body req)) eqn:Hid.
    + destruct (identified_nothing_missing _ Hid) as [Hpar Hm].
      rewrite (validateFields_nothing_missing HelperController.the_req
                 (req_body req) _ "consulta avançada" Hpar Hm).
      exact Hafter.
    + destruct (validateFields_on_req_cases (req_body req)
                  ["project_id"; "id_instancia"; "table"] "consulta avançada")
        as [[e ->] | ->]; [reflexivity | exact Hafter].
Qed.

Lemma or_else_filled (a d : JsVal) :
  is_nullish d = false -> is_nullish (or_else a d) = false.
Proof.
  intros Hd. unfold or_else. destruct (truthy a) eqn:E; [|exact Hd].
  apply truthy_not_nullish. exact E.
Qed.

(** X5. Whichever copy of the controller and of the service is in
    place, a select that passes the key check is forwarded exactly when
    its three identifiers are truthy, as one post to [/data/select].
    The payload always has the same thirteen fields in the same order,
    and none of the ten optional ones is ever [null] or [undefined]:
    [select] and [joins] are lists, [where] is an object or a list, and a
    text or number left out (or sent as [null], [0] or the empty text)
    goes out as the empty text or [0]. *)
Theorem select_payload_is_filled (B : Builtins) (service : Service)
        (controller : ControllerModule) (env : Env) (req : Request) (remote : Remote) :
  In service (services B) ->
  In controller (controllers service) ->
  authorized env req ->
  let payload := select_payload B (req_body req) in
  forwarded (handle env controller OpGet req) remote
  = (if identified (req_body req) then [("/data/select", payload)] else [])
  /\ keys (own_props payload)
     = "project_id" :: "id_instancia" :: "table" :: select_optional
  /\ (forall k, In k select_optional -> is_nullish (prop payload k) = false)
  /\ is_array (prop payload "select") = true
  /\ is_array (prop payload "joins") = true
  /\ typeof_object (prop payload "where") = true
  /\ (forall k, In k ["alias"; "where_raw"; "group_by"; "having"; "order_by"] ->
      truthy (prop (req_body req) k) = false -> prop payload k = str "")
  /\ (forall k, In k ["limit"; "offset"] ->
      truthy (prop (req_body req) k) = false -> prop payload k = JNum 0).
Proof.
  intros Hin Hc Hauth payload. subst payload.
  destruct (services_built B service Hin) as [rtg [detail Hb]].
  split; [|split; [reflexivity|]].
  - rewrite handle_unfold, validateApiKey_passes by exact Hauth.
    cbn [handler_of].
    apply (advancedSelect_forwarded B service controller req remote rtg detail Hb Hc).
  - set (body := req_body req). repeat split.
    + intros k Hk. simpl in Hk.
      repeat (destruct Hk as [<- | Hk]); try contradiction; simpl;
        try (apply or_else_filled; reflexivity).
      * destruct (is_array (prop body "select")) eqn:E; [|reflexivity].
        destruct (prop body "select"); try discriminate; reflexivity.
      * destruct (is_array (prop body "joins")) eqn:E; [|reflexivity].
        destruct (prop body "joins"); try discriminate; reflexivity.
      * destruct (truthy (prop body "where") && typeof_object (prop body "where"))
          eqn:E; [|reflexivity].
        apply andb_prop in E as [E _]. apply truthy_not_nullish. exact E.
    + simpl. destruct (is_array (prop body "select")) eqn:E; [exact E | reflexivity].
    + simpl. destruct (is_array (prop body "joins")) eqn:E; [exact E | reflexivity].
    + simpl. destruct (truthy (prop body "where") && typeof_object (prop body "where"))
        eqn:E; [|reflexivity].
      apply andb_prop in E as [_ E]. exact E.
    + intros k Hk Hf. simpl in Hk.
      repeat (destruct Hk as [<- | Hk]); try contradiction; simpl;
        unfold or_else; fold body; rewrite Hf; reflexivity.
    + intros k Hk Hf. simpl in Hk.
      repeat (destruct Hk as [<- | Hk]); try contradiction; simpl;
        unfold or_else; fold body; rewrite Hf; reflexivity.
Qed.

Lemma select_payload_is_filled_witness :
  let payload := select_payload no_builtins (req_body sample_select) in
  forwarded (handle env_k1 (Controller.exports (ColumnPayload.service no_builtins))
                    OpGet sample_select) silent
  = (if identified (req_body sample_select) then [("/data/select", payload)] else [])
  /\ keys (own_props payload)
     = "project_id" :: "id_instancia" :: "table" :: select_optional
  /\ (forall k, In k select_optional -> is_nullish (prop payload k) = false)
  /\ is_array (prop payload "select") = true
  /\ is_array (prop payload "joins") = true
  /\ typeof_object (prop payload "where") = true
  /\ (forall k, In k ["alias"; "where_raw"; "group_by"; "having"; "order_by"] ->
      truthy (prop (req_body sample_select) k) = false -> prop payload k = str "")
  /\ (forall k, In k ["limit"; "offset"] ->
      truthy (prop (req_body sample_select) k) = false -> prop payload k = JNum 0).
Proof.
  apply (select_payload_is_filled no_builtins (ColumnPayload.service no_builtins)
           (Controller.exports (ColumnPayload.service no_builtins)) env_k1
           sample_select silent).
  - simpl. tauto.
  - simpl. tauto.
  - apply authorized_k1.
Defined.

(* ================================================================== *)
(** ** Update and batch update *)
(* ================================================================== *)

Lemma or_else_truthy (a d : JsVal) : truthy d = true -> truthy (or_else a d) = true.
Proof. intros Hd. unfold or_else. destruct (truthy a) eqn:E; assumption. Qed.

Lemma or_else_twice (a d d' : JsVal) :
  truthy d = false -> or_else (or_else a d) d' = or_else a d'.
Proof.
  intros Hd. unfold or_else. destruct (truthy a) eqn:E.
  - rewrite E. reflexivity.
  - rewrite Hd. reflexivity.
Qed.

Lemma update_run requestToGo detail (body : JsVal) (remote : Remote) :
  posts_once requestToGo detail ->
  snd (update requestToGo (prop body "project_id") (prop body "id_instancia")
         (prop body "table") (prop body "data")
         (or_else (prop body "where") (obj []))
         (or_else (prop body "where_raw") JNull) remote [])
  = if identified body && truthy (prop body "data")
    then [("/data/update", update_payload body)] else [].
Proof.
  intros Hp. unfold update. run_handler.
  rewrite !or_else_never_undef by discriminate.
  rewrite (or_else_twice (prop body "where_raw") JNull (str "")) by reflexivity.
  assert (Hw : or_else (or_else (prop body "where") (obj [])) (obj [])
               = or_else (prop body "where") (obj [])).
  { unfold or_else at 1. rewrite or_else_truthy by reflexivity. reflexivity. }
  rewrite Hw.
  destruct (identified body) eqn:Hid.
  - destruct (identified_fields _ Hid) as [E1 [E2 E3]]. unfold falsy.
    rewrite E1, E2, E3. simpl.
    destruct (truthy (prop body "data")); simpl; [|reflexivity].
    rewrite Hp. unfold update_payload. destruct (remote _ _); reflexivity.
  - pose proof (not_identified _ Hid) as Hno. simpl.
    destruct (falsy (prop body "project_id") || falsy (prop body "id_instancia")
              || falsy (prop body "table")); [reflexivity | discriminate Hno].
Qed.

Lemma updateRecord_forwarded (B : Builtins) (service : Service)
      (controller : ControllerModule) (req : Request) (remote : Remote)
      requestToGo detail :
  built_on service B requestToGo detail ->
  In controller (controllers service) ->
  forwarded (ctl_updateRecord controller req) remote
  = if identified (req_body req) && truthy (prop (req_body req) "data")
    then [("/data/update", update_payload (req_body req))]
    else [].
Proof.
  intros Hb [Hc | [Hc | []]]; subst controller; unfold forwarded;
    cbn [Controller.exports HelperController.exports ctl_updateRecord];
    pose proof (update_run requestToGo detail (req_body req) remote
                  (built_posts _ _ _ _ Hb)) as Hrun.
  - unfold Controller.updateRecord. rewrite (built_update _ _ _ _ Hb).
    run_handler.
    destruct (is_nullish (req_body req)) eqn:Hn.
    + rewrite (nullish_not_identified _ Hn). reflexivity.
    + destruct (identified (req_body req)) eqn:Hid.
      * destruct (identified_fields _ Hid) as [E1 [E2 E3]]. unfold falsy.
        rewrite E1, E2, E3. cbn [negb orb andb].
        destruct (truthy (prop (req_body req) "data")) eqn:Hd; cbn [negb];
          [|reflexivity].
        cbn [andb] in Hrun. rewrite <- Hrun.
        destruct (update _ _ _ _ _ _ _ remote []) as [[d | e] calls]; reflexivity.
      * pose proof (not_identified _ Hid) as Hno. cbn [andb].
        destruct (falsy (prop (req_body req) "project_id")
                  || falsy (prop (req_body req) "id_instancia")
                  || falsy (prop (req_body req) "table"));
          [reflexivity | discriminate Hno].
  - unfold HelperController.updateRecord. rewrite (built_update _ _ _ _ Hb).
    assert (Hafter :
      snd (try_catch
             (bind (update requestToGo (prop (req_body req) "project_id")
                      (prop (req_body req) "id_instancia") (prop (req_body req) "table")
                      (prop (req_body req) "data")
                      (or_else (prop (req_body req) "where") (obj []))
                      (or_else (prop (req_body req) "where_raw") JNull))
                   (fun result =>
                      HelperController.success "Registro atualizado com sucesso" result))
             (HelperController.handleError HelperController.the_res "atualizar registro")
             remote [])
      = if identified (req_body req) && truthy (prop (req_body req) "data")
        then [("/data/update", update_payload (req_body req))] else []).
    { run_helper. rewrite <- Hrun.
      destruct (update _ _ _ _ _ _ _ remote []) as [[d | e] calls]; reflexivity. }
    destruct (validateFields_on_req_cases (req_body req)
                ["project_id"; "id_instancia"; "table"; "data"] "update")
      as [[e He] | ->]; [|exact Hafter].
    destruct (identified (req_body req) && truthy (prop (req_body req) "data")) eqn:Hacc.
    + apply andb_prop in Hacc as [Hid Hd].
      destruct (identified_and_nothing_missing _ "data" Hid
                  (truthy_not_nullish _ Hd)) as [Hpar Hm].
      rewrite (validateFields_nothing_missing HelperController.the_req
                 (req_body req) _ "update" Hpar Hm) in He.
      apply (f_equal (fun m => fst (m remote []))) in He. discriminate He.
    + rewrite He. reflexivity.
Qed.

(** X6. Whichever copy of the controller and of the service is in
    place, an update that passes the key check is forwarded exactly when
    the three identifiers and [data] are truthy, as one post to
    [/data/update] that carries [data] as it came. No filter is
    required: with [where] left out the payload says [where: {}], and
    with [where_raw] left out it says [where_raw: ""]; the request is
    forwarded all the same. *)
Theorem update_forwards_without_filter (B : Builtins) (service : Service)
        (controller : ControllerModule) (env : Env) (req : Request) (remote : Remote) :
  In service (services B) ->
  In controller (controllers service) ->
  authorized env req ->
  let body := req_body req in
  forwarded (handle env controller OpUpdate req) remote
  = (if identified body && truthy (prop body "data")
     then [("/data/update", update_payload body)] else [])
  /\ prop (update_payload body) "data" = prop body "data"
  /\ (absent body "where" -> prop (update_payload body) "where" = obj [])
  /\ (absent body "where_raw" -> prop (update_payload body) "where_raw" = str "").
Proof.
  intros Hin Hc Hauth body. subst body.
  destruct (services_built B service Hin) as [rtg [detail Hb]].
  split; [|split; [reflexivity|split]].
  - rewrite handle_unfold, validateApiKey_passes by exact Hauth.
    cbn [handler_of].
    apply (updateRecord_forwarded B service controller req remote rtg detail Hb Hc).
  - intros Ha. simpl. rewrite (absent_prop _ _ Ha) by discriminate. reflexivity.
  - intros Ha. simpl. rewrite (absent_prop _ _ Ha) by discriminate. reflexivity.
Qed.

Lemma update_forwards_without_filter_witness :
  let body := req_body sample_update in
  forwarded (handle env_k1 (HelperController.exports (DataPayload.service_stringified no_builtins))
                    OpUpdate sample_update) silent
  = (if identified body && truthy (prop body "data")
     then [("/data/update", update_payload body)] else [])
  /\ prop (update_payload body) "data" = prop body "data"
  /\ (absent body "where" -> prop (update_payload body) "where" = obj [])
  /\ (absent body "where_raw" -> prop (update_payload body) "where_raw" = str "").
Proof.
  apply (update_forwards_without_filter no_builtins
           (DataPayload.service_stringified no_builtins)
           (HelperController.exports (DataPayload.service_stringified no_builtins))
           env_k1 sample_update silent).
  - simpl. tauto.
  - simpl. tauto.
  - apply authorized_k1.
Defined.

Lemma array_not_nullish (v : JsVal) : is_array v = true -> is_nullish v = false.
Proof. destruct v; simpl; intros H; try discriminate; reflexivity. Qed.

Lemma array_or_else (v d : JsVal) : is_array v = true -> or_else v d = v.
Proof. destruct v; simpl; intros H; try discriminate; reflexivity. Qed.

Lemma batchUpdate_run requestToGo detail (body : JsVal) (remote : Remote) :
  posts_once requestToGo detail ->
  snd (batchUpdate requestToGo (prop body "project_id") (prop body "id_instancia")
         (prop body "table") (prop body "updates") remote [])
  = if identified body && is_array (prop body "updates")
    then [("/data/batch-update", batch_update_payload body)] else [].
Proof.
  intros Hp. unfold batchUpdate. run_handler.
  destruct (identified body) eqn:Hid.
  - destruct (identified_fields _ Hid) as [E1 [E2 E3]]. unfold falsy.
    rewrite E1, E2, E3. simpl.
    destruct (is_array (prop body "updates")) eqn:Ha; simpl; [|reflexivity].
    rewrite (array_or_else _ _ Ha). rewrite Hp. unfold batch_update_payload.
    destruct (remote _ _); reflexivity.
  - pose proof (not_identified _ Hid) as Hno. simpl.
    destruct (falsy (prop body "project_id") || falsy (prop body "id_instancia")
              || falsy (prop body "table")); [reflexivity | discriminate Hno].
Qed.

Lemma batchUpdate_forwarded (B : Builtins) (service : Service)
      (controller : ControllerModule) (req : Request) (remote : Remote)
      requestToGo detail :
  built_on service B requestToGo detail ->
  In controller (controllers service) ->
  forwarded (ctl_batchUpdate controller req) remote
  = if identified (req_body req) && is_array (prop (req_body req) "updates")
    then [("/data/batch-update", batch_update_payload (req_body req))]
    else [].
Proof.
  intros Hb [Hc | [Hc | []]]; subst controller; unfold forwarded;
    cbn [Controller.exports HelperController.exports ctl_batchUpdate];
    pose proof (batchUpdate_run requestToGo detail (req_body req) remote
                  (built_posts _ _ _ _ Hb)) as Hrun.
  - unfold Controller.batchUpdate. rewrite (built_batchUpdate _ _ _ _ Hb).
    run_handler.
    destruct (is_nullish (req_body req)) eqn:Hn.
    + rewrite (nullish_not_identified _ Hn). reflexivity.
    + destruct (identified (req_body req)) eqn:Hid.
      * destruct (identified_fields _ Hid) as [E1 [E2 E3]]. unfold falsy.
        rewrite E1, E2, E3. cbn [negb orb andb].
        destruct (is_array (prop (req_body req) "updates")) eqn:Ha; cbn [negb];
          [|reflexivity].
        cbn [andb] in Hrun. rewrite <- Hrun.
        destruct (batchUpdate _ _ _ _ _ remote []) as [[d | e] calls]; reflexivity.
      * pose proof (not_identified _ Hid) as Hno. cbn [andb].
        destruct (falsy (prop (req_body req) "project_id")
                  || falsy (prop (req_body req) "id_instancia")
                  || falsy (prop (req_body req) "table"));
          [reflexivity | discriminate Hno].
  - unfold HelperController.batchUpdate. rewrite (built_batchUpdate _ _ _ _ Hb).
    assert (Hafter :
      snd ((if negb (is_array (prop (req_body req) "updates"))
            then Controller.bad_request "updates deve ser um array para batch update"
            else
              try_catch
                (bind (batchUpdate requestToGo (prop (req_body req) "project_id")
                         (prop (req_body req) "id_instancia")
                         (prop (req_body req) "table") (prop (req_body req) "updates"))
                      (fun result =>
                         HelperController.success "Batch update realizado com sucesso"
                           result))
                (HelperController.handleError HelperController.the_res
                   "atualizar registros em lote"))
             remote [])
      = if identified (req_body req) && is_array (prop (req_body req) "updates")
        then [("/data/batch-update", batch_update_payload (req_body req))] else []).
    { destruct (is_array (prop (req_body req) "updates")) eqn:Ha; cbn [negb].
      - run_helper. rewrite <- Hrun.
        destruct (batchUpdate _ _ _ _ _ remote []) as [[d | e] calls]; reflexivity.
      - rewrite andb_false_r. reflexivity. }
    destruct (validateFields_on_req_cases (req_body req)
                ["project_id"; "id_instancia"; "table"; "updates"] "batch update")
      as [[e He] | ->]; [|exact Hafter].
    destruct (identified (req_body req) && is_array (prop (req_body req) "updates"))
      eqn:Hacc.
    + apply andb_prop in Hacc as [Hid Ha].
      destruct (identified_and_nothing_missing _ "updates" Hid
                  (array_not_nullish _ Ha)) as [Hpar Hm].
      rewrite (validateFields_nothing_missing HelperController.the_req
                 (req_body req) _ "batch update" Hpar Hm) in He.
      apply (f_equal (fun m => fst (m remote []))) in He. discriminate He.
    + rewrite He. reflexivity.
Qed.

(** X7. Whichever copy of the controller and of the service is in
    place, a batch update that passes the key check is forwarded exactly
    when the three identifiers are truthy and [updates] is a list, as one
    post to [/data/batch-update] whose [updates] is the list as it came:
    the entries are not looked at, and an empty list is forwarded like
    any other. *)
Theorem batch_update_forwards_list_as_is (B : Builtins) (service : Service)
        (controller : ControllerModule) (env : Env) (req : Request) (remote : Remote) :
  In service (services B) ->
  In controller (controllers service) ->
  authorized env req ->
  let body := req_body req in
  forwarded (handle env controller OpBatchUpdate req) remote
  = (if identified body && is_array (prop body "updates")
     then [("/data/batch-update", batch_update_payload body)] else [])
  /\ prop (batch_update_payload body) "updates" = prop body "updates"
  /\ (identified body = true -> prop body "updates" = JArr [] ->
      exists payload,
        forwarded (handle env controller OpBatchUpdate req) remote
        = [("/data/batch-update", payload)]
        /\ prop payload "updates" = JArr []).
Proof.
  intros Hin Hc Hauth body. subst body.
  destruct (services_built B service Hin) as [rtg [detail Hb]].
  assert (Hfw : forwarded (handle env controller OpBatchUpdate req) remote
                = if identified (req_body req) && is_array (prop (req_body req) "updates")
                  then [("/data/batch-update", batch_update_payload (req_body req))]
                  else []).
  { rewrite handle_unfold, validateApiKey_passes by exact Hauth.
    cbn [handler_of].
    apply (batchUpdate_forwarded B service controller req remote rtg detail Hb Hc). }
  split; [exact Hfw|]. split; [reflexivity|].
  intros Hid Hempty. rewrite Hfw, Hid, Hempty. simpl.
  eexists. split; [reflexivity|]. simpl. exact Hempty.
Qed.

Lemma batch_update_forwards_list_as_is_witness :
  let body := req_body sample_batch_update in
  forwarded (handle env_k1 (Controller.exports (DataPayload.service no_builtins))
                    OpBatchUpdate sample_batch_update) silent
  = (if identified body && is_array (prop body "updates")
     then [("/data/batch-update", batch_update_payload body)] else [])
  /\ prop (batch_update_payload body) "updates" = prop body "updates"
  /\ (identified body = true -> prop body "updates" = JArr [] ->
      exists payload,
        forwarded (handle env_k1 (Controller.exports (DataPayload.service no_builtins))
                          OpBatchUpdate sample_batch_update) silent
        = [("/data/batch-update", payload)]
        /\ prop payload "updates" = JArr []).
Proof.
  apply (batch_update_forwards_list_as_is no_builtins (DataPayload.service no_builtins)
           (Controller.exports (DataPayload.service no_builtins))
           env_k1 sample_batch_update silent).
  - simpl. tauto.
  - simpl. tauto.
  - apply authorized_k1.
Defined.

(* ================================================================== *)
(** ** Insert, with a record to insert *)
(* ================================================================== *)

(** Either copy of the controller hands an accepted insert to the
    service as it came. *)
Lemma insertRecord_forwarded (service : Service) (controller : ControllerModule)
      (req : Request) (remote : Remote) :
  In controller (controllers service) ->
  identified (req_body req) = true ->
  truthy (prop (req_body req) "data") = true ->
  forwarded (ctl_insertRecord controller req) remote
  = snd (svc_insert service (prop (req_body req) "project_id")
           (prop (req_body req) "id_instancia") (prop (req_body req) "table")
           (prop (req_body req) "data") remote []).
Proof.
  intros Hc Hid Hdata.
  pose proof (identified_not_nullish _ Hid) as Hn.
  destruct (identified_fields _ Hid) as [E1 [E2 E3]].
  destruct Hc as [Hc | [Hc | []]]; subst controller; unfold forwarded;
    cbn [Controller.exports HelperController.exports ctl_insertRecord].
  - unfold Controller.insertRecord. run_handler.
    rewrite Hn. unfold falsy. rewrite E1, E2, E3, Hdata. simpl.
    destruct (svc_insert _ _ _ _ _ remote []) as [[d | e] calls]; reflexivity.
  - unfold HelperController.insertRecord.
    destruct (identified_and_nothing_missing _ "data" Hid
                (truthy_not_nullish _ Hdata)) as [Hpar Hm].
    rewrite (validateFields_nothing_missing HelperController.the_req
               (req_body req) _ "insert" Hpar Hm).
    run_helper.
    destruct (svc_insert _ _ _ _ _ remote []) as [[d | e] calls]; reflexivity.
Qed.

Lemma has_keys (v : JsVal) :
  own_props v <> [] -> Nat.eqb (List.length (keys (own_props v))) 0 = false.
Proof.
  intros H. unfold keys. destruct (own_props v); [congruence | reflexivity].
Qed.

Lemma insert_data_run (B : Builtins) (service : Service) (p i t d : JsVal)
      (remote : Remote) :
  In service (data_services B) ->
  truthy p = true -> truthy i = true -> truthy t = true ->
  truthy d = true -> own_props d <> [] ->
  snd (svc_insert service p i t d remote [])
  = [("/data/insert",
      obj [("project_id", p); ("id_instancia", i); ("table", t); ("data", d)])].
Proof.
  intros Hin E1 E2 E3 E4 Hne.
  assert (Hposts : exists rtg detail, posts_once rtg detail
            /\ svc_insert service = DataPayload.insert rtg).
  { destruct Hin as [H | [H | []]]; subst service.
    - exists RequestToGo.plain, detail_plain. split; [apply plain_posts_once | reflexivity].
    - exists (RequestToGo.stringified B), (detail_stringified B).
      split; [apply stringified_posts_once | reflexivity]. }
  destruct Hposts as [rtg [detail [Hp ->]]].
  unfold DataPayload.insert. run_handler. simpl.
  rewrite !coalesce_truthy by assumption. unfold falsy. rewrite E1, E2, E3. simpl.
  rewrite (has_keys d Hne).
  rewrite (Hp _ _ remote []).
  destruct (remote _ _); reflexivity.
Qed.

Lemma insert_columns_run (B : Builtins) (p i t d : JsVal) (remote : Remote) :
  truthy p = true -> truthy i = true -> truthy t = true ->
  truthy d = true -> own_props d <> [] ->
  snd (svc_insert (ColumnPayload.service B) p i t d remote [])
  = [("/data/insert",
      obj [("project_id", p); ("id_instancia", i); ("table", t);
           ("columns", column_list d)])].
Proof.
  intros E1 E2 E3 E4 Hne.
  cbn [svc_insert ColumnPayload.service].
  unfold ColumnPayload.insert. run_handler. unfold falsy.
  rewrite E1, E2, E3, E4. simpl. rewrite (has_keys d Hne).
  unfold ColumnPayload.columns_of. rewrite (truthy_not_nullish d E4).
  unfold lift, ret, ColumnPayload.requestToGo.
  rewrite (error_field_posts_once _ _ remote []).
  destruct (remote _ _); reflexivity.
Qed.

Lemma insert_accepted_sample : insert_accepted (req_body sample_insert).
Proof. repeat split; discriminate. Defined.

(** X8. In the copies of the service that forward [data], under either
    copy of the controller, an insert with the three identifiers and a
    record that has at least one property goes out as one post to
    [/data/insert] made of the four fields as they came: the record is
    not copied, completed or reordered, and, unlike a row of a batch, it
    gets no [id_instancia] of its own. *)
Theorem insert_forwards_record_as_is (B : Builtins) (service : Service)
        (controller : ControllerModule) (env : Env) (req : Request) (remote : Remote) :
  In service (data_services B) ->
  In controller (controllers service) ->
  authorized env req ->
  insert_accepted (req_body req) ->
  forwarded (handle env controller OpInsert req) remote
  = [("/data/insert",
      obj [("project_id", prop (req_body req) "project_id");
           ("id_instancia", prop (req_body req) "id_instancia");
           ("table", prop (req_body req) "table");
           ("data", prop (req_body req) "data")])].
Proof.
  intros Hin Hc Hauth [Hid [Hdata Hne]].
  rewrite handle_unfold, validateApiKey_passes by exact Hauth.
  cbn [handler_of].
  rewrite (insertRecord_forwarded service controller req remote Hc Hid Hdata).
  destruct (identified_fields _ Hid) as [E1 [E2 E3]].
  apply (insert_data_run B); assumption.
Qed.

Lemma insert_forwards_record_as_is_witness :
  forwarded (handle env_k1 (HelperController.exports (DataPayload.service no_builtins))
                    OpInsert sample_insert) silent
  = [("/data/insert",
      obj [("project_id", prop (req_body sample_insert) "project_id");
           ("id_instancia", prop (req_body sample_insert) "id_instancia");
           ("table", prop (req_body sample_insert) "table");
           ("data", prop (req_body sample_insert) "data")])].
Proof.
  apply (insert_forwards_record_as_is no_builtins (DataPayload.service no_builtins)).
  - simpl. tauto.
  - simpl. tauto.
  - apply authorized_k1.
  - apply insert_accepted_sample.
Defined.

Lemma read_column_list (data : JsVal) :
  read_columns (column_list data)
  = map (fun kv => (str (fst kv), snd kv)) (own_props data).
Proof.
  unfold read_columns, column_list. rewrite map_map.
  apply map_ext. intros [k v]. reflexivity.
Qed.

(** X9. In the copy of the service that forwards column lists, under
    either copy of the controller, an accepted insert goes out as one
    post to [/data/insert] with [columns] in place of [data]: one
    [{name, value}] entry per property of the record, in the record's
    order, so that reading the names and values back gives the record's
    properties again, none lost, none added. *)
Theorem insert_columns_round_trip (B : Builtins) (controller : ControllerModule)
        (env : Env) (req : Request) (remote : Remote) :
  In controller (controllers (ColumnPayload.service B)) ->
  authorized env req ->
  insert_accepted (req_body req) ->
  exists payload,
    forwarded (handle env controller OpInsert req) remote = [("/data/insert", payload)]
    /\ keys (own_props payload) = ["project_id"; "id_instancia"; "table"; "columns"]
    /\ read_columns (prop payload "columns")
       = map (fun kv => (str (fst kv), snd kv)) (own_props (prop (req_body req) "data"))
    /\ prop payload "project_id" = prop (req_body req) "project_id"
    /\ prop payload "id_instancia" = prop (req_body req) "id_instancia"
    /\ prop payload "table" = prop (req_body req) "table".
Proof.
  intros Hc Hauth [Hid [Hdata Hne]].
  rewrite handle_unfold, validateApiKey_passes by exact Hauth.
  cbn [handler_of].
  rewrite (insertRecord_forwarded _ controller req remote Hc Hid Hdata).
  destruct (identified_fields _ Hid) as [E1 [E2 E3]].
  rewrite (insert_columns_run B) by assumption.
  eexists. split; [reflexivity|]. split; [reflexivity|].
  split; [apply read_column_list|]. repeat split.
Qed.

Lemma insert_columns_round_trip_witness :
  exists payload,
    forwarded (handle env_k1 (Controller.exports (ColumnPayload.service no_builtins))
                      OpInsert sample_insert) silent = [("/data/insert", payload)]
    /\ keys (own_props payload) = ["project_id"; "id_instancia"; "table"; "columns"]
    /\ read_columns (prop payload "columns")
       = map (fun kv => (str (fst kv), snd kv))
             (own_props (prop (req_body sample_insert) "data"))
    /\ prop payload "project_id" = prop (req_body sample_insert) "project_id"
    /\ prop payload "id_instancia" = prop (req_body sample_insert) "id_instancia"
    /\ prop payload "table" = prop (req_body sample_insert) "table".
Proof.
  apply (insert_columns_round_trip no_builtins).
  - simpl. tauto.
  - apply authorized_k1.
  - apply insert_accepted_sample.
Defined.

(* ================================================================== *)
(** ** Batch insert, with rows that cannot be used *)
(* ================================================================== *)

Lemma map_throwing_nullish {C : Type} (f : JsVal -> result C) (rs : list JsVal) :
  (forall r, is_nullish r = true -> exists e, f r = Throw e) ->
  Exists (fun r => is_nullish r = true) rs ->
  exists e, map_throwing f rs = Throw e.
Proof.
  intros Hf. induction 1 as [r rs Hr | r rs _ IH]; simpl.
  - destruct (Hf r Hr) as [e ->]. exists e. reflexivity.
  - destruct (f r) as [y | e]; [|exists e; reflexivity].
    destruct IH as [e ->]. exists e. reflexivity.
Qed.

Lemma with_instance_nullish (v r : JsVal) :
  is_nullish r = true -> exists e, DataPayload.with_instance v r = Throw e.
Proof.
  intros H. unfold DataPayload.with_instance. rewrite H. eexists. reflexivity.
Qed.

Lemma columns_of_nullish (r : JsVal) :
  is_nullish r = true -> exists e, ColumnPayload.columns_of r = Throw e.
Proof.
  intros H. unfold ColumnPayload.columns_of. rewrite H. eexists. reflexivity.
Qed.

(** Every copy of the service throws on such a batch before it posts. *)
Lemma batchInsert_refuses (B : Builtins) (service : Service) (p i t : JsVal)
      (rs : list JsVal) (remote : Remote) (log : list Call) :
  In service (services B) ->
  truthy p = true -> truthy i = true -> truthy t = true ->
  unusable_rows rs ->
  exists e, svc_batchInsert service p i t (JArr rs) remote log = (Throw e, log).
Proof.
  intros Hin E1 E2 E3 Hrs.
  assert (Hcases : (exists rtg, svc_batchInsert service = DataPayload.batchInsert rtg)
                   \/ svc_batchInsert service = ColumnPayload.batchInsert).
  { destruct Hin as [H | [H | [H | []]]]; subst service;
      [left; eexists; reflexivity | left; eexists; reflexivity | right; reflexivity]. }
  destruct Hcases as [[rtg ->] | ->].
  - unfold DataPayload.batchInsert. run_handler.
    destruct Hrs as [-> | Hex].
    + simpl. rewrite !coalesce_truthy by assumption. unfold falsy.
      rewrite E1, E2, E3. simpl. eexists. reflexivity.
    + destruct (map_throwing_nullish (DataPayload.with_instance i) rs
                  (with_instance_nullish i) Hex) as [e ->].
      exists e. reflexivity.
  - unfold ColumnPayload.batchInsert. run_handler. unfold falsy.
    rewrite E1, E2, E3. simpl.
    destruct Hrs as [-> | Hex].
    + simpl. eexists. reflexivity.
    + destruct rs as [|r rs']; [inversion Hex|].
      cbn [array_length List.length Nat.eqb].
      destruct (map_throwing_nullish ColumnPayload.columns_of (r :: rs')
                  columns_of_nullish Hex) as [e ->].
      exists e. reflexivity.
Qed.

(** X10. Whichever copy of the controller and of the service is in
    place, a batch insert whose list is empty, or holds a [null] entry
    anywhere among its rows, is refused whole: the caller gets a 500 with
    [success: false], and nothing is forwarded, the usable rows
    included. *)
Theorem batch_insert_is_all_or_nothing (B : Builtins) (service : Service)
        (controller : ControllerModule) (env : Env) (req : Request) (remote : Remote)
        (rs : list JsVal) :
  In service (services B) ->
  In controller (controllers service) ->
  authorized env req ->
  identified (req_body req) = true ->
  prop (req_body req) "data" = JArr rs ->
  unusable_rows rs ->
  exists text,
    handle env controller OpBatchInsert req remote []
    = (Ok (failure_response "Erro ao inserir registros em lote" text), []).
Proof.
  intros Hin Hc Hauth Hid Hdata Hrs.
  rewrite handle_unfold, validateApiKey_passes by exact Hauth.
  cbn [handler_of].
  pose proof (identified_not_nullish _ Hid) as Hn.
  destruct (identified_fields _ Hid) as [E1 [E2 E3]].
  destruct (batchInsert_refuses B service _ _ _ rs remote [] Hin E1 E2 E3 Hrs)
    as [e Hthrow].
  exists (thrown_message e).
  destruct Hc as [Hc | [Hc | []]]; subst controller;
    cbn [Controller.exports HelperController.exports ctl_batchInsert].
  - unfold Controller.batchInsert. run_handler.
    rewrite Hn. unfold falsy. rewrite E1, E2, E3, Hdata. simpl.
    rewrite Hthrow. reflexivity.
  - unfold HelperController.batchInsert.
    destruct (identified_and_nothing_missing _ "data" Hid) as [Hpar Hm];
      [rewrite Hdata; reflexivity|].
    rewrite (validateFields_nothing_missing HelperController.the_req
               (req_body req) _ "batch insert" Hpar Hm).
    run_helper. rewrite Hdata. simpl. rewrite Hthrow. reflexivity.
Qed.

Lemma batch_insert_is_all_or_nothing_witness :
  exists text,
    handle env_k1 (Controller.exports (DataPayload.service no_builtins)) OpBatchInsert
           batch_with_null silent []
    = (Ok (failure_response "Erro ao inserir registros em lote" text), []).
Proof.
  apply (batch_insert_is_all_or_nothing no_builtins (DataPayload.service no_builtins)
           (Controller.exports (DataPayload.service no_builtins)) env_k1
           batch_with_null silent
           [obj [("nome", str "A")]; JNull; obj [("nome", str "C")]]).
  - simpl. tauto.
  - simpl. tauto.
  - apply authorized_k1.
  - reflexivity.
  - reflexivity.
  - right. apply Exists_cons_tl. apply Exists_cons_hd. reflexivity.
Defined.

(* ================================================================== *)
(** ** Join select *)
(* ================================================================== *)

Lemma joinSelect_run requestToGo detail (options : JsVal) (remote : Remote) :
  posts_once requestToGo detail ->
  joinSelect requestToGo options remote []
  = if join_accepted options
    then match remote "/data/join-select" (join_payload options) with
         | Replied reply => (Ok reply, [("/data/join-select", join_payload options)])
         | Failed err => (Throw (new_Error (detail err)),
                          [("/data/join-select", join_payload options)])
         end
    else (Throw (if is_nullish options
                 then cannot_destructure "options" options "project_id"
                 else new_Error
                        (str "project_id, id_instancia e base.table são obrigatórios")),
          []).
Proof.
  intros Hp. unfold joinSelect, join_accepted. run_handler.
  destruct (is_nullish options) eqn:Hn.
  - destruct options; try discriminate; reflexivity.
  - unfold falsy.
    destruct (truthy (prop options "project_id")); simpl; [|reflexivity].
    destruct (truthy (prop options "id_instancia")); simpl; [|reflexivity].
    destruct (truthy (if is_nullish (prop options "base") then JUndef
                      else prop (prop options "base") "table")); simpl; [|reflexivity].
    rewrite Hp. unfold join_payload. destruct (remote _ _); reflexivity.
Qed.

(** X11. In every copy of the service, [joinSelect] goes one of two ways.
    When [project_id], [id_instancia] and [base.table] are truthy it posts
    once to [/data/join-select] and returns the reply, or throws again,
    as [new Error] of the detail of its [requestToGo], what the call
    failed with. Otherwise it throws without posting:
    ["project_id, id_instancia e base.table são obrigatórios"], or the
    [TypeError] of the destructuring when the options are [null] or
    [undefined]. The identifiers and [base] go out as given. A field left
    out takes its default ([joins] and [where_raw] an empty list, [where]
    an empty object, [limit] and [offset] [null]); a field given as [null]
    goes out as [null]. *)
Theorem join_select_defaults (B : Builtins) (service : Service)
        (detail : Thrown -> JsVal) (options : JsVal) (remote : Remote) :
  In (service, detail) (copies B) ->
  svc_joinSelect service options remote []
  = (if join_accepted options
     then match remote "/data/join-select" (join_payload options) with
          | Replied reply => (Ok reply, [("/data/join-select", join_payload options)])
          | Failed err => (Throw (new_Error (detail err)),
                           [("/data/join-select", join_payload options)])
          end
     else (Throw (if is_nullish options
                  then cannot_destructure "options" options "project_id"
                  else new_Error
                         (str "project_id, id_instancia e base.table são obrigatórios")),
           []))
  /\ prop (join_payload options) "project_id" = prop options "project_id"
  /\ prop (join_payload options) "id_instancia" = prop options "id_instancia"
  /\ prop (join_payload options) "base" = prop options "base"
  /\ (absent options "joins" -> prop (join_payload options) "joins" = JArr [])
  /\ (absent options "where" -> prop (join_payload options) "where" = obj [])
  /\ (absent options "where_raw" -> prop (join_payload options) "where_raw" = JArr [])
  /\ (absent options "limit" -> prop (join_payload options) "limit" = JNull)
  /\ (absent options "offset" -> prop (join_payload options) "offset" = JNull)
  /\ (forall k, In k ["joins"; "where"; "where_raw"; "group_by"; "having"; "order_by"] ->
      prop options k = JNull -> prop (join_payload options) k = JNull).
Proof.
  intros Hin. split.
  - destruct Hin as [H | [H | [H | []]]]; injection H as <- <-;
      cbn [svc_joinSelect DataPayload.service DataPayload.service_stringified
           DataPayload.make ColumnPayload.service].
    + apply (joinSelect_run _ _ _ _ plain_posts_once).
    + apply (joinSelect_run _ _ _ _ (stringified_posts_once B)).
    + apply (joinSelect_run _ _ _ _ error_field_posts_once).
  - repeat split;
      try (intros Ha; simpl; rewrite (absent_prop _ _ Ha) by discriminate; reflexivity).
    intros k Hk Hnull. simpl in Hk.
    repeat (destruct Hk as [<- | Hk]); try contradiction; simpl; rewrite Hnull;
      reflexivity.
Qed.

Lemma join_select_defaults_witness :
  let options := obj [("project_id", JNum 1); ("id_instancia", JNum 10);
                      ("base", obj [("table", str "pedidos")]); ("joins", JNull)] in
  svc_joinSelect (ColumnPayload.service no_builtins) options silent []
  = (if join_accepted options
     then match silent "/data/join-select" (join_payload options) with
          | Replied reply => (Ok reply, [("/data/join-select", join_payload options)])
          | Failed err => (Throw (new_Error (detail_error_field err)),
                           [("/data/join-select", join_payload options)])
          end
     else (Throw (if is_nullish options
                  then cannot_destructure "options" options "project_id"
                  else new_Error
                         (str "project_id, id_instancia e base.table são obrigatórios")),
           []))
  /\ prop (join_payload options) "project_id" = prop options "project_id"
  /\ prop (join_payload options) "id_instancia" = prop options "id_instancia"
  /\ prop (join_payload options) "base" = prop options "base"
  /\ (absent options "joins" -> prop (join_payload options) "joins" = JArr [])
  /\ (absent options "where" -> prop (join_payload options) "where" = obj [])
  /\ (absent options "where_raw" -> prop (join_payload options) "where_raw" = JArr [])
  /\ (absent options "limit" -> prop (join_payload options) "limit" = JNull)
  /\ (absent options "offset" -> prop (join_payload options) "offset" = JNull)
  /\ (forall k, In k ["joins"; "where"; "where_raw"; "group_by"; "having"; "order_by"] ->
      prop options k = JNull -> prop (join_payload options) k = JNull).
Proof.
  intros options.
  apply (join_select_defaults no_builtins (ColumnPayload.service no_builtins)
           detail_error_field).
  simpl. tauto.
Defined.

(** [joinSelect] without [base.table]: the throw, and no post. *)
Example join_select_without_table :
  svc_joinSelect (DataPayload.service no_builtins)
                 (obj [("project_id", JNum 1); ("id_instancia", JNum 10);
                       ("base", obj [])]) silent []
  = (Throw (new_Error (str "project_id, id_instancia e base.table são obrigatórios")), []).
Proof. reflexivity. Qed.

(* ================================================================== *)
(** ** [callGoEngine], the payload it posts and the failures it meets *)
(* ================================================================== *)

Lemma spread_lookup (k : string) (l base : Props) :
  NoDup (keys l) ->
  lookup k (fold_left (fun acc kv => put (fst kv) (snd kv) acc) l base)
  = match lookup k l with
    | Some v => Some v
    | None => lookup k base
    end.
Proof.
  revert base. induction l as [|[k' v'] l IH]; intros base Hnd; [reflexivity|].
  simpl in Hnd. inversion Hnd as [|? ? Hnot Hnd']; subst.
  cbn [fold_left fst snd lookup]. rewrite IH by exact Hnd'.
  destruct (String.eqb k k') eqn:E.
  - apply String.eqb_eq in E. subst k'.
    assert (Hnone : lookup k l = None).
    { clear - Hnot. induction l as [|[k0 v0] l IH]; [reflexivity|].
      simpl in *. destruct (String.eqb k k0) eqn:E.
      - apply String.eqb_eq in E. subst k0. exfalso. apply Hnot. left. reflexivity.
      - apply IH. intros H. apply Hnot. right. exact H. }
    rewrite Hnone. apply put_lookup_same.
  - destruct (lookup k l); [reflexivity|].
    apply put_lookup_other. apply String.eqb_neq. exact E.
Qed.

Lemma own_props_default (payload : JsVal) :
  own_props (param_default (obj []) payload) = own_props payload.
Proof. destruct payload; reflexivity. Qed.

Lemma posts_then_quiet {A : Type} (path : string) (body : JsVal)
      (k : JsVal -> M A) (h : Thrown -> M A) (remote : Remote) :
  (forall d, quiet (k d)) -> (forall e, quiet (h e)) ->
  forwarded (try_catch (bind (axios_post path body) k) h) remote = [(path, body)].
Proof.
  intros Hk Hh. unfold forwarded, try_catch, bind, axios_post.
  destruct (remote path body) as [d | e]; simpl.
  - pose proof (Hk d remote [(path, body)]) as H.
    destruct (k d remote [(path, body)]) as [[a | e] l]; simpl in H; subst l.
    + reflexivity.
    + apply Hh.
  - apply Hh.
Qed.

(** X12. [callGoEngine] always makes exactly one post, to the endpoint
    it is given, whatever the payload ([null] and [undefined] included)
    and whatever comes back. The body posted holds the configured
    [project_id] and [id_instancia] and every property of the payload;
    where the payload has a property of its own under one of those two
    names, the payload's value is the one posted. *)
Theorem callGoEngine_payload_overrides_identity (PROJECT_ID INSTANCE_ID : JsVal)
        (endpoint : string) (payload : JsVal) (remote : Remote) :
  NoDup (keys (own_props payload)) ->
  exists body,
    forwarded (Consumer.callGoEngine PROJECT_ID INSTANCE_ID endpoint payload) remote
    = [("/" ++ endpoint, obj body)]
    /\ (forall k,
          lookup k body
          = match lookup k (own_props payload) with
            | Some v => Some v
            | None => lookup k (engine_identity PROJECT_ID INSTANCE_ID)
            end).
Proof.
  intros Hnd.
  exists (Consumer.spread_over (engine_identity PROJECT_ID INSTANCE_ID)
            (param_default (obj []) payload)).
  split.
  - unfold Consumer.callGoEngine, engine_identity.
    apply posts_then_quiet; intros; hush.
  - intros k. unfold Consumer.spread_over. rewrite own_props_default.
    apply spread_lookup. exact Hnd.
Qed.

Lemma callGoEngine_payload_overrides_identity_witness :
  exists body,
    forwarded (Consumer.callGoEngine (str "1") (str "10") "get"
                 (obj [("table", str "usuarios"); ("project_id", JNum 7)])) silent
    = [("/" ++ "get", obj body)]
    /\ (forall k,
          lookup k body
          = match lookup k (own_props (obj [("table", str "usuarios");
                                            ("project_id", JNum 7)])) with
            | Some v => Some v
            | None => lookup k (engine_identity (str "1") (str "10"))
            end).
Proof.
  apply (callGoEngine_payload_overrides_identity (str "1") (str "10") "get"
           (obj [("table", str "usuarios"); ("project_id", JNum 7)]) silent).
  simpl. repeat constructor; simpl; intros H;
    repeat (destruct H as [H | H]; [discriminate H|]); exact H.
Defined.

Lemma text_has_no_error_field (s : string) : prop (JStr s) "error" = JUndef.
Proof.
  simpl. rewrite indexed_lookup_digit by reflexivity. reflexivity.
Qed.

(** X13. What [callGoEngine] makes of a rejected post. With a truthy
    response body it returns the empty list when the body has an [error]
    that is not [null], and so hides the failure from its caller; when
    the body has no such [error], and whenever no response was received
    at all, reading [erroReal.error[1]] throws a [TypeError] out of the
    [catch], and the caller gets that instead of a list. *)
Theorem callGoEngine_on_rejection (PROJECT_ID INSTANCE_ID : JsVal)
        (endpoint : string) (payload : JsVal) :
  (forall err,
      outcome (Consumer.callGoEngine PROJECT_ID INSTANCE_ID endpoint payload)
              (failing err)
      = if is_nullish (prop (detail_plain err) "error")
        then Throw (cannot_read (prop (detail_plain err) "error") "1")
        else Ok (JArr []))
  /\ (forall message,
        outcome (Consumer.callGoEngine PROJECT_ID INSTANCE_ID endpoint payload)
                (failing (no_response message))
        = Throw (cannot_read JUndef "1"))
  /\ (forall fields text message,
        outcome (Consumer.callGoEngine PROJECT_ID INSTANCE_ID endpoint payload)
                (failing (error_response (obj (("error", str text) :: fields)) message))
        = Ok (JArr []))
  /\ (forall message,
        outcome (Consumer.callGoEngine PROJECT_ID INSTANCE_ID endpoint payload)
                (failing (error_response (obj [("success", JBool false)]) message))
        = Throw (cannot_read JUndef "1")).
Proof.
  assert (Hgen : forall err,
      outcome (Consumer.callGoEngine PROJECT_ID INSTANCE_ID endpoint payload)
              (failing err)
      = if is_nullish (prop (detail_plain err) "error")
        then Throw (cannot_read (prop (detail_plain err) "error") "1")
        else Ok (JArr [])).
  { intros err.
    unfold outcome, Consumer.callGoEngine, try_catch, bind, axios_post, failing, get.
    fold (detail_plain err).
    assert (Hd : is_nullish (detail_plain err) = false).
    { unfold detail_plain. apply or_else_filled. reflexivity. }
    rewrite Hd. simpl.
    destruct (is_nullish (prop (detail_plain err) "error")); reflexivity. }
  split; [exact Hgen|]. split; [|split].
  - intros message. rewrite Hgen.
    change (detail_plain (no_response message)) with (JStr message).
    rewrite text_has_no_error_field. reflexivity.
  - intros fields text message. rewrite Hgen. reflexivity.
  - intros message. rewrite Hgen. reflexivity.
Qed.

(* ================================================================== *)
(** ** [cleanPayload] *)
(* ================================================================== *)

Lemma lookup_absent (k : string) (o : Props) : ~ In k (keys o) -> lookup k o = None.
Proof.
  induction o as [|[k0 v0] o IH]; intros Hnot; [reflexivity|].
  simpl in *. destruct (String.eqb k k0) eqn:E.
  - apply String.eqb_eq in E. subst k0. exfalso. apply Hnot. left. reflexivity.
  - apply IH. intros H. apply Hnot. right. exact H.
Qed.

Lemma lookup_member (o : Props) :
  NoDup (keys o) ->
  forall k v, In (k, v) o -> lookup k o = Some v.
Proof.
  induction o as [|[k0 v0] o IH]; intros Hnd k v Hin; [contradiction|].
  simpl in Hnd. inversion Hnd as [|? ? Hnot Hnd']; subst.
  simpl. destruct Hin as [Heq | Hin].
  - injection Heq as -> ->. rewrite String.eqb_refl. reflexivity.
  - destruct (String.eqb k k0) eqn:E.
    + apply String.eqb_eq in E. subst k0. exfalso. apply Hnot.
      apply (in_map fst) in Hin. exact Hin.
    + apply IH; assumption.
Qed.

Lemma indexed_keys_digit {A : Type} (f : A -> JsVal) (l : list A) :
  forall i k, In k (keys (indexed f i l)) -> starts_with_digit k = true.
Proof.
  induction l as [|x l IH]; intros i k Hin; [contradiction|].
  simpl in Hin. destruct Hin as [<- | Hin]; [apply index_key_digit|].
  apply (IH (S i)). exact Hin.
Qed.

(** Reading an own property by its name gives its value. *)
Lemma prop_member (payload : JsVal) (k : string) (v : JsVal) :
  NoDup (keys (own_props payload)) ->
  In (k, v) (own_props payload) ->
  prop payload k = v.
Proof.
  intros Hnd Hin.
  pose proof (lookup_member _ Hnd k v Hin) as Hl.
  assert (Hlen : forall {A : Type} (f : A -> JsVal) (l : list A),
             In (k, v) (indexed f 0 l) -> String.eqb k "length" = false).
  { intros A f l H. apply (in_map fst) in H.
    apply indexed_keys_digit in H. destruct (String.eqb k "length") eqn:E; [|reflexivity].
    apply String.eqb_eq in E. subst k. discriminate H. }
  destruct payload; simpl in *; try contradiction.
  - rewrite (Hlen _ _ _ Hin), Hl. reflexivity.
  - rewrite (Hlen _ _ _ Hin), Hl. reflexivity.
  - rewrite Hl. reflexivity.
Qed.

Lemma defined_props_keys (o : Props) (k : string) :
  In k (keys (defined_props o)) -> In k (keys o).
Proof.
  unfold keys, defined_props. intros H.
  apply in_map_iff in H as [[k' v] [<- Hin]].
  apply filter_In in Hin as [Hin _]. apply (in_map fst) in Hin. exact Hin.
Qed.

Lemma defined_props_NoDup (o : Props) :
  NoDup (keys o) -> NoDup (keys (defined_props o)).
Proof.
  induction o as [|[k v] o IH]; intros Hnd; [constructor|].
  simpl in Hnd. inversion Hnd as [|? ? Hnot Hnd']; subst.
  unfold defined_props. cbn [filter snd].
  destruct v; try (simpl; constructor;
                   [intros H; apply Hnot; apply defined_props_keys; exact H
                   | apply IH; exact Hnd']).
  apply IH. exact Hnd'.
Qed.

Lemma defined_props_twice (o : Props) : defined_props (defined_props o) = defined_props o.
Proof.
  unfold defined_props. induction o as [|[k v] o IH]; [reflexivity|].
  cbn [filter snd]. destruct v; cbn [filter snd]; rewrite ?IH; reflexivity.
Qed.

(** The loop of [cleanPayload], from any point on. *)
Lemma cleanPayload_loop (payload : JsVal) (rest done : Props) :
  (forall k v, In (k, v) rest -> prop payload k = v) ->
  NoDup (keys rest) ->
  ~ In "__proto__" (keys rest) ->
  (forall k, In k (keys rest) -> ~ In k (keys done)) ->
  fold_left
    (fun cleaned key =>
       match prop payload key with
       | JUndef => cleaned
       | _ => ConsumerHelpers.assign key (prop payload key) cleaned
       end)
    (keys rest) done
  = app done (defined_props rest).
Proof.
  revert done. induction rest as [|[k v] rest IH]; intros done Hval Hnd Hproto Hfresh.
  - simpl. rewrite app_nil_r. reflexivity.
  - simpl in Hnd. inversion Hnd as [|? ? Hnot Hnd']; subst.
    cbn [keys map fst fold_left].
    rewrite (Hval k v) by (left; reflexivity).
    assert (Hrest : forall k' v', In (k', v') rest -> prop payload k' = v').
    { intros k' v' H. apply Hval. right. exact H. }
    assert (Hproto' : ~ In "__proto__" (keys rest)).
    { intros H. apply Hproto. right. exact H. }
    assert (Hput : ConsumerHelpers.assign k v done = app done [(k, v)]).
    { unfold ConsumerHelpers.assign. destruct (String.eqb k "__proto__") eqn:E.
      - apply String.eqb_eq in E. exfalso. apply Hproto. left. exact E.
      - apply put_absent. apply lookup_absent. apply Hfresh. left. reflexivity. }
    assert (Hnext : forall k', In k' (keys rest) -> ~ In k' (keys (app done [(k, v)]))).
    { intros k' Hin H. unfold keys in H. rewrite map_app in H.
      apply in_app_or in H as [H | H].
      - apply (Hfresh k'); [right; exact Hin | exact H].
      - simpl in H. destruct H as [<- | []]. apply Hnot. exact Hin. }
    assert (Hskip : forall k', In k' (keys rest) -> ~ In k' (keys done)).
    { intros k' Hin. apply Hfresh. right. exact Hin. }
    unfold defined_props. cbn [filter snd]. fold (defined_props rest).
    fold (keys rest).
    destruct v;
      try (rewrite Hput, (IH _ Hrest Hnd' Hproto' Hnext), <- app_assoc; reflexivity).
    apply (IH _ Hrest Hnd' Hproto' Hskip).
Qed.

Lemma cleanPayload_props (payload : JsVal) :
  NoDup (keys (own_props payload)) ->
  ~ In "__proto__" (keys (own_props payload)) ->
  own_props (ConsumerHelpers.cleanPayload payload) = defined_props (own_props payload).
Proof.
  intros Hnd Hproto. unfold ConsumerHelpers.cleanPayload. cbn [own_props obj]. cbv zeta.
  rewrite (cleanPayload_loop payload (own_props payload) []);
    [reflexivity | | exact Hnd | exact Hproto | ].
  - intros k v Hin. apply prop_member; assumption.
  - intros k _ H. exact H.
Qed.

(** The loop of [cleanPayload] writes no property named [__proto__]. *)
Lemma cleanPayload_writes_no_proto (payload : JsVal) (names : list string)
      (done : Props) :
  lookup "__proto__" done = None ->
  lookup "__proto__"
    (fold_left
       (fun cleaned key =>
          match prop payload key with
          | JUndef => cleaned
          | _ => ConsumerHelpers.assign key (prop payload key) cleaned
          end)
       names done) = None.
Proof.
  revert done. induction names as [|k names IH]; intros done Hdone; [exact Hdone|].
  cbn [fold_left]. apply IH.
  assert (Hassign : forall v, lookup "__proto__" (ConsumerHelpers.assign k v done) = None).
  { intros v. unfold ConsumerHelpers.assign.
    destruct (String.eqb k "__proto__") eqn:E; [exact Hdone|].
    rewrite put_lookup_other; [exact Hdone|].
    intros Heq. subst k. discriminate E. }
  destruct (prop payload k); try apply Hassign. exact Hdone.
Qed.

(** X14. For an argument that has no property named [__proto__],
    [cleanPayload] returns an object that holds, in their order, exactly
    the properties of the argument whose value is not [undefined], each
    with its value: [null], empty lists and empty objects stay; and
    cleaning what has been cleaned changes nothing. A property named
    [__proto__] is never copied: whatever the argument, the result has no
    property of that name. *)
Theorem cleanPayload_drops_only_undefined (payload : JsVal) :
  NoDup (keys (own_props payload)) ->
  ~ In "__proto__" (keys (own_props payload)) ->
  ConsumerHelpers.cleanPayload payload = obj (defined_props (own_props payload))
  /\ (forall k v, In (k, v) (own_props payload) -> v <> JUndef ->
        prop (ConsumerHelpers.cleanPayload payload) k = v)
  /\ (forall k, prop payload k = JUndef ->
        lookup k (own_props (ConsumerHelpers.cleanPayload payload)) = None)
  /\ ConsumerHelpers.cleanPayload (ConsumerHelpers.cleanPayload payload)
     = ConsumerHelpers.cleanPayload payload
  /\ (forall any : JsVal,
        lookup "__proto__" (own_props (ConsumerHelpers.cleanPayload any)) = None).
Proof.
  intros Hnd Hproto.
  pose proof (cleanPayload_props payload Hnd Hproto) as Hp.
  assert (Hobj : forall p, ConsumerHelpers.cleanPayload p
                           = obj (own_props (ConsumerHelpers.cleanPayload p))).
  { intros p. reflexivity. }
  assert (Hnd' : NoDup (keys (own_props (ConsumerHelpers.cleanPayload payload)))).
  { rewrite Hp. apply defined_props_NoDup. exact Hnd. }
  assert (Hproto' : ~ In "__proto__"
                      (keys (own_props (ConsumerHelpers.cleanPayload payload)))).
  { rewrite Hp. intros H. apply Hproto. apply defined_props_keys. exact H. }
  split; [rewrite (Hobj payload), Hp; reflexivity|]. split; [|split; [|split]].
  - intros k v Hin Hv. apply prop_member; [exact Hnd'|].
    rewrite Hp. unfold defined_props. apply filter_In. split; [exact Hin|].
    destruct v; try reflexivity. congruence.
  - intros k Hk. rewrite Hp.
    destruct (lookup k (defined_props (own_props payload))) as [v|] eqn:E; [|reflexivity].
    exfalso.
    assert (Hin : In (k, v) (defined_props (own_props payload))).
    { clear - E. induction (defined_props (own_props payload)) as [|[k0 v0] o IH];
        [discriminate|].
      simpl in E. destruct (String.eqb k k0) eqn:Ek.
      - apply String.eqb_eq in Ek. subst k0. injection E as ->. left. reflexivity.
      - right. apply IH. exact E. }
    unfold defined_props in Hin. apply filter_In in Hin as [Hin Hdef].
    rewrite (prop_member payload k v Hnd Hin) in Hk. subst v. discriminate Hdef.
  - rewrite (Hobj (ConsumerHelpers.cleanPayload payload)).
    rewrite (cleanPayload_props _ Hnd' Hproto'), Hp, defined_props_twice.
    rewrite (Hobj payload), Hp. reflexivity.
  - intros any. unfold ConsumerHelpers.cleanPayload. cbn [own_props obj]. cbv zeta.
    apply cleanPayload_writes_no_proto. reflexivity.
Qed.

Lemma cleanPayload_drops_only_undefined_witness :
  let payload := obj [("nome", str "Ana"); ("img", JUndef); ("especialidade", JNull);
                      ("tags", JArr [])] in
  ConsumerHelpers.cleanPayload payload = obj (defined_props (own_props payload))
  /\ (forall k v, In (k, v) (own_props payload) -> v <> JUndef ->
        prop (ConsumerHelpers.cleanPayload payload) k = v)
  /\ (forall k, prop payload k = JUndef ->
        lookup k (own_props (ConsumerHelpers.cleanPayload payload)) = None)
  /\ ConsumerHelpers.cleanPayload (ConsumerHelpers.cleanPayload payload)
     = ConsumerHelpers.cleanPayload payload
  /\ (forall any : JsVal,
        lookup "__proto__" (own_props (ConsumerHelpers.cleanPayload any)) = None).
Proof.
  intros payload.
  apply (cleanPayload_drops_only_undefined payload).
  - simpl. repeat constructor; simpl; intros H;
      repeat (destruct H as [H | H]; [discriminate H|]); exact H.
  - simpl. intros H.
    repeat (destruct H as [H | H]; [discriminate H|]). exact H.
Defined.

(** A body with a property named [__proto__], as [JSON.parse] makes it:
    the property is not copied. *)
Example cleanPayload_skips_proto :
  own_props (ConsumerHelpers.cleanPayload
               (obj [("nome", str "Ana"); ("__proto__", str "x"); ("img", JUndef)]))
  = [("nome", str "Ana")].
Proof. reflexivity. Qed.

(* ================================================================== *)
(** ** The payload builders of the projects service *)
(* ================================================================== *)

Lemma keys_put_present (k : string) (v : JsVal) (o : Props) :
  In k (keys o) -> keys (put k v o) = keys o.
Proof.
  induction o as [|[k0 v0] o IH]; intros Hin; [contradiction|].
  simpl. destruct (String.eqb k k0) eqn:E; [reflexivity|].
  simpl. f_equal. apply IH. destruct Hin as [H | H]; [|exact H].
  simpl in H. subst k0. rewrite String.eqb_refl in E. discriminate E.
Qed.

(** The loop of [buildPayload] over an input that can be read. *)
Lemma fill_keys (input : JsVal) (ks : list string) (payload : Props) :
  is_nullish input = false ->
  (forall k, In k ks -> In k (keys payload)) ->
  exists p, GoProjects.fill input ks payload = Ok p /\ keys p = keys payload.
Proof.
  intros Hn. revert payload. induction ks as [|k ks IH]; intros payload Hin.
  - exists payload. split; reflexivity.
  - simpl. rewrite Hn.
    destruct (GoProjects.given (prop input k)).
    + destruct (IH (put k (prop input k) payload)) as [p [Hp Hk]].
      { intros k' H. rewrite keys_put_present by (apply Hin; left; reflexivity).
        apply Hin. right. exact H. }
      exists p. split; [exact Hp|]. rewrite Hk.
      apply keys_put_present. apply Hin. left. reflexivity.
    + apply IH. intros k' H. apply Hin. right. exact H.
Qed.

Lemma fill_values (input : JsVal) (k : string) (ks : list string) (payload p : Props) :
  GoProjects.fill input ks payload = Ok p ->
  lookup k p
  = if existsb (String.eqb k) ks && GoProjects.given (prop input k)
    then Some (prop input k)
    else lookup k payload.
Proof.
  revert payload. induction ks as [|k0 ks IH]; intros payload Hp.
  - simpl in Hp. injection Hp as <-. reflexivity.
  - simpl in Hp. destruct (is_nullish input); [discriminate Hp|].
    rewrite (IH _ Hp). cbn [existsb].
    destruct (String.eqb k k0) eqn:E.
    + apply String.eqb_eq in E. subst k0. cbn [orb andb].
      destruct (GoProjects.given (prop input k)) eqn:Hg.
      * rewrite andb_true_r. rewrite put_lookup_same.
        destruct (existsb (String.eqb k) ks); reflexivity.
      * rewrite andb_false_r. reflexivity.
    + cbn [orb].
      destruct (existsb (String.eqb k) ks && GoProjects.given (prop input k));
        [reflexivity|].
      destruct (GoProjects.given (prop input k0)); [|reflexivity].
      apply put_lookup_other. apply String.eqb_neq. exact E.
Qed.

Lemma existsb_keys (k : string) (ks : list string) :
  In k ks -> existsb (String.eqb k) ks = true.
Proof.
  intros H. apply existsb_exists. exists k. split; [exact H | apply String.eqb_refl].
Qed.

Lemma prop_default (input : JsVal) (k : string) :
  prop (param_default (obj []) input) k = prop input k.
Proof. destruct input; reflexivity. Qed.

Lemma default_not_nullish (input : JsVal) :
  input <> JNull -> is_nullish (param_default (obj []) input) = false.
Proof. destruct input; simpl; intros H; try reflexivity. congruence. Qed.

Lemma buildPayload_built (base : Props) (input : JsVal) :
  input <> JNull ->
  exists p,
    GoProjects.buildPayload base input = Ok (obj p)
    /\ keys p = keys base
    /\ (forall k, In k (keys base) ->
          lookup k p = if GoProjects.given (prop input k)
                       then Some (prop input k)
                       else lookup k base).
Proof.
  intros Hn. unfold GoProjects.buildPayload. cbv zeta.
  destruct (fill_keys (param_default (obj []) input) (keys base) base
              (default_not_nullish input Hn) (fun k H => H)) as [p [Hp Hk]].
  exists p. rewrite Hp. split; [reflexivity|]. split; [exact Hk|].
  intros k Hin. rewrite (fill_values _ k _ _ _ Hp), prop_default.
  rewrite (existsb_keys _ _ Hin). reflexivity.
Qed.

(** X15. [buildPayload] returns the base shape and nothing else: the
    keys of the base, in the base's order, whatever other properties the
    input has. Under each key goes the input's value when the input has
    one that is not [undefined], [null] or the empty text, and the base's
    value otherwise, so [0] and [false] are taken and an empty text is
    not. An [undefined] input gives the base back; a [null] input makes
    the first read throw. *)
Theorem buildPayload_fills_base_shape (base : Props) (input : JsVal) :
  input <> JNull ->
  (exists p,
      GoProjects.buildPayload base input = Ok (obj p)
      /\ keys p = keys base
      /\ (forall k, In k (keys base) ->
            lookup k p = if GoProjects.given (prop input k)
                         then Some (prop input k)
                         else lookup k base))
  /\ GoProjects.buildPayload base JUndef = Ok (obj base)
  /\ (forall k v rest,
        GoProjects.buildPayload ((k, v) :: rest) JNull = Throw (cannot_read JNull k)).
Proof.
  intros Hn. split; [apply buildPayload_built; exact Hn|]. split.
  - unfold GoProjects.buildPayload. cbv zeta. cbn [param_default].
    assert (H : forall ks payload, GoProjects.fill (obj []) ks payload = Ok payload).
    { induction ks as [|k ks IH]; intros payload; [reflexivity|]. simpl. apply IH. }
    rewrite H. reflexivity.
  - intros k v rest. reflexivity.
Qed.

Lemma buildPayload_fills_base_shape_witness :
  let input := obj [("id", JNum 9); ("name", str "Loja"); ("version", str "");
                    ("status", JBool false)] in
  (exists p,
      GoProjects.buildPayload GoProjects.project_base input = Ok (obj p)
      /\ keys p = keys GoProjects.project_base
      /\ (forall k, In k (keys GoProjects.project_base) ->
            lookup k p = if GoProjects.given (prop input k)
                         then Some (prop input k)
                         else lookup k GoProjects.project_base))
  /\ GoProjects.buildPayload GoProjects.project_base JUndef
     = Ok (obj GoProjects.project_base)
  /\ (forall k v rest,
        GoProjects.buildPayload ((k, v) :: rest) JNull = Throw (cannot_read JNull k)).
Proof.
  intros input.
  apply (buildPayload_fills_base_shape GoProjects.project_base input).
  discriminate.
Defined.

(* ================================================================== *)
(** ** Projects: create and update *)
(* ================================================================== *)

Lemma default_not_null (input : JsVal) :
  input <> JNull -> param_default (obj []) input <> JNull.
Proof. destruct input; simpl; intros H; try discriminate. exact H. Qed.

Lemma buildProjectPayload_built (data : JsVal) :
  data <> JNull ->
  exists p,
    GoProjects.buildProjectPayload data = Ok (obj p)
    /\ keys p = keys GoProjects.project_base
    /\ (forall k, In k (keys GoProjects.project_base) ->
          lookup k p = if GoProjects.given (prop data k)
                       then Some (prop data k)
                       else lookup k GoProjects.project_base).
Proof.
  intros Hn. unfold GoProjects.buildProjectPayload.
  destruct (buildPayload_built GoProjects.project_base _ (default_not_null data Hn))
    as [p [Hp [Hk Hv]]].
  exists p. split; [exact Hp|]. split; [exact Hk|].
  intros k Hin. rewrite (Hv k Hin), prop_default. reflexivity.
Qed.

Lemma built_field_given (p : Props) (data : JsVal) (k : string) (v : JsVal) :
  lookup k p = (if GoProjects.given (prop data k) then Some (prop data k) else Some v) ->
  GoProjects.given v = true ->
  GoProjects.given (prop (obj p) k) = true.
Proof.
  intros Hl Hv. cbn [prop own_props obj].
  assert (H : GoProjects.given (match lookup k p with Some x => x | None => JUndef end)
              = true).
  { rewrite Hl. destruct (GoProjects.given (prop data k)) eqn:E; assumption. }
  exact H.
Qed.

Lemma buildInstancePayload_built (data : JsVal) :
  data <> JNull ->
  exists p,
    GoProjects.buildInstancePayload data = Ok (obj p)
    /\ keys p = keys GoProjects.instance_base
    /\ (forall k, In k (keys GoProjects.instance_base) ->
          lookup k p = if GoProjects.given (prop data k)
                       then Some (prop data k)
                       else lookup k GoProjects.instance_base).
Proof.
  intros Hn. unfold GoProjects.buildInstancePayload.
  destruct (buildPayload_built GoProjects.instance_base _ (default_not_null data Hn))
    as [p [Hp [Hk Hv]]].
  exists p. split; [exact Hp|]. split; [exact Hk|].
  intros k Hin. rewrite (Hv k Hin), prop_default. reflexivity.
Qed.

(** What the two [create] functions come to, once the payload is built. *)
Lemma create_run (build : JsVal -> result JsVal) (url : string) (data payload : JsVal)
      (remote : Remote) :
  build data = Ok payload ->
  try_catch (bind (lift (build data)) (fun payload => GoProjects.request "POST" url payload))
            (fun err => throw err) remote []
  = match remote ("POST " ++ url) payload with
    | Replied d => (Ok d, [("POST " ++ url, payload)])
    | Failed e => (Throw e, [("POST " ++ url, payload)])
    end.
Proof.
  intros Hb. unfold try_catch, bind. rewrite Hb.
  unfold lift, ret, GoProjects.request, throw. cbn [append].
  destruct (remote _ _); reflexivity.
Qed.

(** X16. [createProject] and [createInstance], given anything but
    [null], make exactly one call each, a POST to [/projects] or to
    [/instances], whose body has the seven fields of a project or the
    eleven of an instance and no other, so an [id] or a date in the input
    is not sent. The [version] and [status] of a project and the [status]
    of an instance are never sent blank. The reply is returned as it is
    and a rejection is thrown again as it is. Given [null], both throw
    before any call. *)
Theorem create_posts_base_shape (data : JsVal) (remote : Remote) :
  data <> JNull ->
  (exists p,
      forwarded (GoProjects.createProject data) remote = [("POST /projects", obj p)]
      /\ keys p = ["name"; "code"; "description"; "api_key"; "type"; "version"; "status"]
      /\ GoProjects.given (prop (obj p) "version") = true
      /\ GoProjects.given (prop (obj p) "status") = true
      /\ outcome (GoProjects.createProject data) remote
         = match remote "POST /projects" (obj p) with
           | Replied d => Ok d
           | Failed e => Throw e
           end)
  /\ (exists p,
        forwarded (GoProjects.createInstance data) remote = [("POST /instances", obj p)]
        /\ keys p = ["project_id"; "client_name"; "email"; "phone"; "price";
                     "payment_day"; "name"; "code"; "description"; "status"; "settings"]
        /\ GoProjects.given (prop (obj p) "status") = true
        /\ outcome (GoProjects.createInstance data) remote
           = match remote "POST /instances" (obj p) with
             | Replied d => Ok d
             | Failed e => Throw e
             end)
  /\ GoProjects.createProject JNull remote [] = (Throw (cannot_read JNull "name"), [])
  /\ GoProjects.createInstance JNull remote []
     = (Throw (cannot_read JNull "project_id"), []).
Proof.
  intros Hn. split; [|split; [|split; reflexivity]].
  - destruct (buildProjectPayload_built data Hn) as [p [Hp [Hk Hv]]].
    exists p. unfold forwarded, outcome, GoProjects.createProject.
    rewrite (create_run _ "/projects" data (obj p) remote Hp).
    split; [destruct (remote _ _); reflexivity|]. split; [exact Hk|].
    split; [|split].
    + apply (built_field_given p data "version" (str "1.0.0")); [|reflexivity].
      apply Hv. simpl. tauto.
    + apply (built_field_given p data "status" (str "active")); [|reflexivity].
      apply Hv. simpl. tauto.
    + destruct (remote _ _); reflexivity.
  - destruct (buildInstancePayload_built data Hn) as [p [Hp [Hk Hv]]].
    exists p. unfold forwarded, outcome, GoProjects.createInstance.
    rewrite (create_run _ "/instances" data (obj p) remote Hp).
    split; [destruct (remote _ _); reflexivity|]. split; [exact Hk|].
    split.
    + apply (built_field_given p data "status" (str "active")); [|reflexivity].
      apply Hv. simpl. tauto.
    + destruct (remote _ _); reflexivity.
Qed.

Lemma create_posts_base_shape_witness :
  (exists p,
      forwarded (GoProjects.createProject sample_project) projects_engine
      = [("POST /projects", obj p)]
      /\ keys p = ["name"; "code"; "description"; "api_key"; "type"; "version"; "status"]
      /\ GoProjects.given (prop (obj p) "version") = true
      /\ GoProjects.given (prop (obj p) "status") = true
      /\ outcome (GoProjects.createProject sample_project) projects_engine
         = match projects_engine "POST /projects" (obj p) with
           | Replied d => Ok d
           | Failed e => Throw e
           end)
  /\ (exists p,
        forwarded (GoProjects.createInstance sample_project) projects_engine
        = [("POST /instances", obj p)]
        /\ keys p = ["project_id"; "client_name"; "email"; "phone"; "price";
                     "payment_day"; "name"; "code"; "description"; "status"; "settings"]
        /\ GoProjects.given (prop (obj p) "status") = true
        /\ outcome (GoProjects.createInstance sample_project) projects_engine
           = match projects_engine "POST /instances" (obj p) with
             | Replied d => Ok d
             | Failed e => Throw e
             end)
  /\ GoProjects.createProject JNull projects_engine []
     = (Throw (cannot_read JNull "name"), [])
  /\ GoProjects.createInstance JNull projects_engine []
     = (Throw (cannot_read JNull "project_id"), []).
Proof.
  apply (create_posts_base_shape sample_project projects_engine).
  discriminate.
Defined.

Lemma listProjects_run (remote : Remote) (log : list Call) :
  GoProjects.listProjects remote log
  = match remote "GET /projects" JUndef with
    | Replied data => (Ok (listed data), app log [("GET /projects", JUndef)])
    | Failed err =>
        (Throw (new_Error (or_else (response_data err) (str "Erro ao listar projetos"))),
         app log [("GET /projects", JUndef)])
    end.
Proof.
  unfold GoProjects.listProjects, try_catch, bind, GoProjects.request, listed.
  cbn [append].
  destruct (remote _ _) as [data | err]; [|reflexivity].
  destruct (truthy data && is_array data); [reflexivity|].
  destruct (truthy data && truthy (prop data "data")); reflexivity.
Qed.

Lemma merged_prop (current projectData : JsVal) (k : string) :
  NoDup (keys (own_props projectData)) ->
  k <> "length" ->
  prop (obj (Consumer.spread_over (own_props current) projectData)) k
  = match lookup k (own_props projectData) with
    | Some v => v
    | None => prop current k
    end.
Proof.
  intros Hnd Hk. cbn [prop obj own_props]. unfold Consumer.spread_over.
  rewrite (spread_lookup k _ _ Hnd).
  destruct (lookup k (own_props projectData)); [reflexivity|].
  rewrite (prop_lookup current k Hk). reflexivity.
Qed.

Lemma project_fields_not_length (k : string) :
  In k (keys GoProjects.project_base) -> k <> "length".
Proof.
  simpl. intros H. repeat (destruct H as [<- | H]; [discriminate|]). contradiction.
Qed.

(** [updateProject], step by step. *)
Lemma updateProject_run (loose_eq : JsVal -> JsVal -> bool) (id projectData : JsVal)
      (remote : Remote) :
  GoProjects.updateProject loose_eq id projectData remote []
  = match remote "GET /projects" JUndef with
    | Failed err =>
        (Throw (new_Error (or_else (response_data err) (str "Erro ao listar projetos"))),
         [("GET /projects", JUndef)])
    | Replied data =>
        match GoProjects.find_in loose_eq "projects" (listed data) id with
        | Throw e => (Throw e, [("GET /projects", JUndef)])
        | Ok current =>
            if truthy current
            then
              match GoProjects.buildProjectPayload
                      (obj (Consumer.spread_over (own_props current) projectData)) with
              | Throw e => (Throw e, [("GET /projects", JUndef)])
              | Ok payload =>
                  match remote ("PUT /projects/" ++ to_text id) payload with
                  | Replied d =>
                      (Ok d, [("GET /projects", JUndef);
                              ("PUT /projects/" ++ to_text id, payload)])
                  | Failed e =>
                      (Throw e, [("GET /projects", JUndef);
                                 ("PUT /projects/" ++ to_text id, payload)])
                  end
              end
            else (Throw (new_Error (str "Projeto não encontrado para atualização")),
                  [("GET /projects", JUndef)])
        end
    end.
Proof.
  unfold GoProjects.updateProject, try_catch.
  unfold bind at 1. rewrite listProjects_run.
  destruct (remote "GET /projects" JUndef) as [data | err]; [|reflexivity].
  unfold bind at 1.
  destruct (GoProjects.find_in loose_eq "projects" (listed data) id) as [current | e];
    [|reflexivity].
  cbn [lift ret]. unfold bind at 1. unfold throw_if, falsy.
  destruct (truthy current); [|reflexivity].
  cbn [negb ret]. unfold bind at 1.
  destruct (GoProjects.buildProjectPayload _) as [payload | e]; [|reflexivity].
  cbn [lift ret]. unfold GoProjects.request. cbn [append].
  match goal with
  | |- context [remote ?a ?b] => destruct (remote a b)
  end; reflexivity.
Qed.

(** X17. [updateProject], when the listing replies with a list in
    which a truthy project matches the identifier, makes two calls: the
    GET that lists, then a PUT to [/projects/<id>] whose body has the
    seven fields of a project. A field the caller sends with a value goes
    out with that value; a field the caller leaves out goes out with the
    listed project's value; a field the caller sends as [null] or as the
    empty text goes out with the builder's default, not with the listed
    project's value. *)
Theorem updateProject_merges_listed_project (loose_eq : JsVal -> JsVal -> bool)
        (id projectData : JsVal) (remote : Remote) (rs : list JsVal) (current : JsVal) :
  remote "GET /projects" JUndef = Replied (JArr rs) ->
  GoProjects.find_by_id loose_eq id rs = Ok current ->
  truthy current = true ->
  NoDup (keys (own_props projectData)) ->
  exists p,
    forwarded (GoProjects.updateProject loose_eq id projectData) remote
    = [("GET /projects", JUndef); ("PUT /projects/" ++ to_text id, obj p)]
    /\ keys p = ["name"; "code"; "description"; "api_key"; "type"; "version"; "status"]
    /\ (forall k, In k (keys GoProjects.project_base) ->
          (forall v, lookup k (own_props projectData) = Some v ->
             lookup k p = if GoProjects.given v then Some v
                          else lookup k GoProjects.project_base)
          /\ (absent projectData k ->
              lookup k p = if GoProjects.given (prop current k)
                           then Some (prop current k)
                           else lookup k GoProjects.project_base)).
Proof.
  intros Hlist Hfind Hcur Hnd.
  set (merged := obj (Consumer.spread_over (own_props current) projectData)).
  destruct (buildProjectPayload_built merged) as [p [Hp [Hk Hv]]]; [discriminate|].
  exists p. split; [|split; [exact Hk|]].
  - unfold forwarded. rewrite updateProject_run, Hlist.
    change (listed (JArr rs)) with (JArr rs). cbn [GoProjects.find_in].
    rewrite Hfind, Hcur. fold merged. rewrite Hp.
    match goal with
    | |- context [remote ?a ?b] => destruct (remote a b)
    end; reflexivity.
  - intros k Hin. pose proof (project_fields_not_length k Hin) as Hlen. split.
    + intros v Hl. rewrite (Hv k Hin). unfold merged.
      rewrite (merged_prop current projectData k Hnd Hlen), Hl. reflexivity.
    + intros Ha. rewrite (Hv k Hin). unfold merged.
      rewrite (merged_prop current projectData k Hnd Hlen). unfold absent in Ha.
      rewrite Ha. reflexivity.
Qed.

Lemma updateProject_merges_listed_project_witness :
  let projectData := obj [("name", str "Barbearia Nova"); ("version", str "")] in
  exists p,
    forwarded (GoProjects.updateProject same_id (str "3") projectData) projects_engine
    = [("GET /projects", JUndef); ("PUT /projects/" ++ to_text (str "3"), obj p)]
    /\ keys p = ["name"; "code"; "description"; "api_key"; "type"; "version"; "status"]
    /\ (forall k, In k (keys GoProjects.project_base) ->
          (forall v, lookup k (own_props projectData) = Some v ->
             lookup k p = if GoProjects.given v then Some v
                          else lookup k GoProjects.project_base)
          /\ (absent projectData k ->
              lookup k p = if GoProjects.given (prop sample_project k)
                           then Some (prop sample_project k)
                           else lookup k GoProjects.project_base)).
Proof.
  intros projectData.
  apply (updateProject_merges_listed_project same_id (str "3") projectData
           projects_engine [sample_project] sample_project).
  - reflexivity.
  - reflexivity.
  - reflexivity.
  - simpl. repeat constructor; simpl; intros H;
      repeat (destruct H as [H | H]; [discriminate H|]); exact H.
Defined.

(** X18. [updateProject] never writes blindly. Its first call is the
    GET that lists the projects, and a second call is made only when the
    listing returned a value in which [find] met a truthy project that
    matches the identifier; that second call is the PUT to
    [/projects/<id>]. When the listing is a list with no match, the
    function throws ["Projeto não encontrado para atualização"] with only
    the GET made. *)
Theorem updateProject_writes_only_listed (loose_eq : JsVal -> JsVal -> bool)
        (id projectData : JsVal) (remote : Remote) :
  (forwarded (GoProjects.updateProject loose_eq id projectData) remote
   = [("GET /projects", JUndef)]
   \/ exists data current p,
        remote "GET /projects" JUndef = Replied data
        /\ GoProjects.find_in loose_eq "projects" (listed data) id = Ok current
        /\ truthy current = true
        /\ forwarded (GoProjects.updateProject loose_eq id projectData) remote
           = [("GET /projects", JUndef); ("PUT /projects/" ++ to_text id, obj p)])
  /\ (forall rs,
        remote "GET /projects" JUndef = Replied (JArr rs) ->
        GoProjects.find_by_id loose_eq id rs = Ok JUndef ->
        GoProjects.updateProject loose_eq id projectData remote []
        = (Throw (new_Error (str "Projeto não encontrado para atualização")),
           [("GET /projects", JUndef)])).
Proof.
  split.
  - unfold forwarded. rewrite updateProject_run.
    destruct (remote "GET /projects" JUndef) as [data | err] eqn:Hlist;
      [|left; reflexivity].
    destruct (GoProjects.find_in loose_eq "projects" (listed data) id)
      as [current | e] eqn:Hfind; [|left; reflexivity].
    destruct (truthy current) eqn:Hcur; [|left; reflexivity].
    set (merged := obj (Consumer.spread_over (own_props current) projectData)).
    destruct (buildProjectPayload_built merged) as [p [Hp _]]; [discriminate|].
    right. exists data, current, p.
    split; [reflexivity|]. split; [exact Hfind|]. split; [exact Hcur|].
    fold merged. rewrite Hp.
    match goal with
    | |- context [remote ?a ?b] => destruct (remote a b)
    end; reflexivity.
  - intros rs Hlist Hfind. rewrite updateProject_run, Hlist.
    change (listed (JArr rs)) with (JArr rs). cbn [GoProjects.find_in].
    rewrite Hfind. reflexivity.
Qed.

(* ================================================================== *)
(** ** Instances: update *)
(* ================================================================== *)

Lemma array_truthy (v : JsVal) : is_array v = true -> truthy v = true.
Proof. destruct v; simpl; intros H; try discriminate H; reflexivity. Qed.

Lemma listInstances_run_any (projectId : JsVal) (remote : Remote) (log : list Call) :
  GoProjects.listInstances projectId remote log
  = match remote "GET /instances" (instances_filter projectId) with
    | Replied data =>
        (Ok (listed data), app log [("GET /instances", instances_filter projectId)])
    | Failed err =>
        (Throw (new_Error (or_else (response_data err) (str "Erro ao listar instâncias"))),
         app log [("GET /instances", instances_filter projectId)])
    end.
Proof.
  unfold GoProjects.listInstances, instances_filter. cbv zeta.
  assert (Hsent : (if truthy (param_default JNull projectId)
                   then obj [("project_id", param_default JNull projectId)]
                   else obj [])
                  = (if truthy projectId then obj [("project_id", projectId)] else obj [])).
  { destruct projectId; reflexivity. }
  rewrite Hsent.
  unfold try_catch, bind, GoProjects.request, listed. cbn [append].
  destruct (remote _ _) as [data | err]; [|reflexivity].
  destruct (is_array data) eqn:Ha.
  - rewrite (array_truthy data Ha). reflexivity.
  - rewrite andb_false_r.
    destruct (truthy data && truthy (prop data "data")); reflexivity.
Qed.

Lemma listInstances_run (projectId : JsVal) (remote : Remote) (log : list Call) :
  truthy projectId = true ->
  let sent := obj [("params", obj [("project_id", projectId)])] in
  GoProjects.listInstances projectId remote log
  = match remote "GET /instances" sent with
    | Replied data => (Ok (listed data), app log [("GET /instances", sent)])
    | Failed err =>
        (Throw (new_Error (or_else (response_data err) (str "Erro ao listar instâncias"))),
         app log [("GET /instances", sent)])
    end.
Proof.
  intros Ht sent. subst sent. rewrite listInstances_run_any.
  unfold instances_filter. rewrite Ht. reflexivity.
Qed.

(** [updateInstance], step by step. *)
Lemma updateInstance_run (loose_eq : JsVal -> JsVal -> bool) (id instanceData : JsVal)
      (remote : Remote) :
  let project_id := prop instanceData "project_id" in
  let sent := obj [("params", obj [("project_id", project_id)])] in
  GoProjects.updateInstance loose_eq id instanceData remote []
  = if is_nullish instanceData
    then (Throw (cannot_read instanceData "project_id"), [])
    else if truthy project_id
    then
      match remote "GET /instances" sent with
      | Failed err =>
          (Throw (new_Error (or_else (response_data err)
                                     (str "Erro ao listar instâncias"))),
           [("GET /instances", sent)])
      | Replied data =>
          match GoProjects.find_in loose_eq "instances" (listed data) id with
          | Throw e => (Throw e, [("GET /instances", sent)])
          | Ok current =>
              if truthy current
              then
                match GoProjects.buildInstancePayload
                        (obj (Consumer.spread_over (own_props current) instanceData)) with
                | Throw e => (Throw e, [("GET /instances", sent)])
                | Ok payload =>
                    match remote ("PUT /instances/" ++ to_text id) payload with
                    | Replied d =>
                        (Ok d, [("GET /instances", sent);
                                ("PUT /instances/" ++ to_text id, payload)])
                    | Failed e =>
                        (Throw e, [("GET /instances", sent);
                                   ("PUT /instances/" ++ to_text id, payload)])
                    end
                end
              else (Throw (new_Error (str "Instância não encontrada")),
                    [("GET /instances", sent)])
          end
      end
    else (Throw (new_Error (str "project_id é obrigatório para update de instância")),
          []).
Proof.
  intros project_id sent. subst project_id sent.
  unfold GoProjects.updateInstance, try_catch.
  unfold bind at 1. unfold get.
  destruct (is_nullish instanceData); [reflexivity|].
  cbn [ret]. unfold bind at 1. unfold throw_if, falsy.
  destruct (truthy (prop instanceData "project_id")) eqn:Ht; [|reflexivity].
  cbn [negb ret]. unfold bind at 1.
  rewrite (listInstances_run _ remote [] Ht).
  destruct (remote "GET /instances" _) as [data | err]; [|reflexivity].
  unfold bind at 1.
  destruct (GoProjects.find_in loose_eq "instances" (listed data) id) as [current | e];
    [|reflexivity].
  cbn [lift ret]. unfold bind at 1.
  destruct (truthy current); [|reflexivity].
  cbn [negb ret]. unfold bind at 1.
  destruct (GoProjects.buildInstancePayload _) as [payload | e]; [|reflexivity].
  cbn [lift ret]. unfold GoProjects.request. cbn [append].
  match goal with
  | |- context [remote ?a ?b] => destruct (remote a b)
  end; reflexivity.
Qed.

(** X19. [updateInstance] makes no call at all unless the data it is
    given carries a truthy [project_id]: it throws first. With one, its
    first call is the GET that lists the instances of that project and of
    no other, and the only call that can follow is the PUT to
    [/instances/<id>], whose body has the eleven fields of an instance
    with the caller's [project_id] among them. *)
Theorem updateInstance_requires_project_id (loose_eq : JsVal -> JsVal -> bool)
        (id instanceData : JsVal) (remote : Remote) :
  NoDup (keys (own_props instanceData)) ->
  let project_id := prop instanceData "project_id" in
  let run := GoProjects.updateInstance loose_eq id instanceData in
  if truthy project_id
  then exists rest,
         forwarded run remote
         = ("GET /instances", obj [("params", obj [("project_id", project_id)])]) :: rest
         /\ (rest = []
             \/ exists p,
                  rest = [("PUT /instances/" ++ to_text id, obj p)]
                  /\ keys p = keys GoProjects.instance_base
                  /\ lookup "project_id" p = Some project_id)
  else run remote []
       = (Throw (if is_nullish instanceData
                 then cannot_read instanceData "project_id"
                 else new_Error (str "project_id é obrigatório para update de instância")),
          []).
Proof.
  intros Hnd project_id run. subst project_id run.
  unfold forwarded. rewrite updateInstance_run.
  destruct (is_nullish instanceData) eqn:Hn.
  { destruct instanceData; try discriminate Hn; reflexivity. }
  destruct (truthy (prop instanceData "project_id")) eqn:Ht; [|reflexivity].
  destruct (remote "GET /instances" _) as [data | err];
    [|eexists; split; [reflexivity | left; reflexivity]].
  destruct (GoProjects.find_in loose_eq "instances" (listed data) id) as [current | e];
    [|eexists; split; [reflexivity | left; reflexivity]].
  destruct (truthy current) eqn:Hcur;
    [|eexists; split; [reflexivity | left; reflexivity]].
  set (merged := obj (Consumer.spread_over (own_props current) instanceData)).
  unfold GoProjects.buildInstancePayload.
  destruct (buildPayload_built GoProjects.instance_base
              (param_default (obj []) merged)) as [p [Hp [Hk Hv]]]; [discriminate|].
  rewrite Hp.
  exists [("PUT /instances/" ++ to_text id, obj p)]. split.
  - match goal with
    | |- context [remote ?a ?b] => destruct (remote a b)
    end; reflexivity.
  - right. exists p. split; [reflexivity|]. split; [exact Hk|].
    rewrite (Hv "project_id") by (simpl; tauto).
    rewrite prop_default. unfold merged.
    rewrite (merged_prop current instanceData "project_id" Hnd) by discriminate.
    destruct (lookup "project_id" (own_props instanceData)) as [v|] eqn:Hl.
    + assert (Hv' : prop instanceData "project_id" = v).
      { rewrite (prop_lookup instanceData "project_id") by discriminate.
        rewrite Hl. reflexivity. }
      rewrite Hv' in *.
      assert (Hg : GoProjects.given v = true).
      { destruct v; simpl in *; try reflexivity; try discriminate Ht. exact Ht. }
      rewrite Hg. reflexivity.
    + rewrite (prop_lookup instanceData "project_id") in Ht by discriminate.
      rewrite Hl in Ht. discriminate Ht.
Qed.

Lemma updateInstance_requires_project_id_witness :
  let instanceData := obj [("project_id", JNum 3); ("name", str "Centro")] in
  let project_id := prop instanceData "project_id" in
  let run := GoProjects.updateInstance same_id (JNum 8) instanceData in
  if truthy project_id
  then exists rest,
         forwarded run silent
         = ("GET /instances", obj [("params", obj [("project_id", project_id)])]) :: rest
         /\ (rest = []
             \/ exists p,
                  rest = [("PUT /instances/" ++ to_text (JNum 8), obj p)]
                  /\ keys p = keys GoProjects.instance_base
                  /\ lookup "project_id" p = Some project_id)
  else run silent []
       = (Throw (if is_nullish instanceData
                 then cannot_read instanceData "project_id"
                 else new_Error (str "project_id é obrigatório para update de instância")),
          []).
Proof.
  intros instanceData.
  apply (updateInstance_requires_project_id same_id (JNum 8) instanceData silent).
  simpl. repeat constructor; simpl; intros H;
    repeat (destruct H as [H | H]; [discriminate H|]); exact H.
Defined.

(* ================================================================== *)
(** ** Projects and instances: listing and deleting *)
(* ================================================================== *)

Lemma listed_truthy (data : JsVal) : truthy (listed data) = true.
Proof.
  unfold listed.
  destruct (truthy data && is_array data) eqn:E1.
  - apply andb_prop in E1 as [E _]. exact E.
  - destruct (truthy data && truthy (prop data "data")) eqn:E2; [|reflexivity].
    apply andb_prop in E2 as [_ E]. exact E.
Qed.

(** X27. [listProjects] and [listInstances] make one GET each, the
    second with the project as its filter when it is given a truthy one
    and with no filter otherwise. On a reply neither returns a falsy
    value: they return the reply itself when it is a list, the reply's
    [data] when that is truthy, and an empty list otherwise, so the
    result is a list unless the reply wraps something else under [data].
    On a rejection, they and the two [delete] functions throw an [Error]
    whose text is that of the response body when it is truthy and the
    function's own fixed text otherwise: with no response received, the
    HTTP client's message is dropped. *)
Theorem listings_and_deletions (remote : Remote) (projectId id : JsVal) :
  (forall data,
      truthy (listed data) = true
      /\ (is_array data = true -> listed data = data)
      /\ (is_array (listed data) = true \/ listed data = prop data "data"))
  /\ GoProjects.listProjects remote []
     = match remote "GET /projects" JUndef with
       | Replied data => (Ok (listed data), [("GET /projects", JUndef)])
       | Failed err =>
           (Throw (new_Error (or_else (response_data err) (str "Erro ao listar projetos"))),
            [("GET /projects", JUndef)])
       end
  /\ GoProjects.listInstances projectId remote []
     = match remote "GET /instances" (instances_filter projectId) with
       | Replied data =>
           (Ok (listed data), [("GET /instances", instances_filter projectId)])
       | Failed err =>
           (Throw (new_Error (or_else (response_data err)
                                      (str "Erro ao listar instâncias"))),
            [("GET /instances", instances_filter projectId)])
       end
  /\ (forall message,
        outcome GoProjects.listProjects (failing (no_response message))
        = Throw (new_Error (str "Erro ao listar projetos"))
        /\ outcome (GoProjects.listInstances projectId) (failing (no_response message))
           = Throw (new_Error (str "Erro ao listar instâncias"))
        /\ GoProjects.deleteProject id (failing (no_response message)) []
           = (Throw (new_Error (str "Erro ao deletar projeto")),
              [("DELETE /projects/" ++ to_text id, JUndef)])
        /\ GoProjects.deleteInstance id (failing (no_response message)) []
           = (Throw (new_Error (str "Erro ao deletar instância")),
              [("DELETE /instances/" ++ to_text id, JUndef)])).
Proof.
  split; [|split; [|split; [|]]].
  - intros data. split; [apply listed_truthy|]. split.
    + intros Ha. unfold listed. rewrite (array_truthy data Ha), Ha. reflexivity.
    + unfold listed.
      destruct (truthy data && is_array data) eqn:E1.
      * left. apply andb_prop in E1 as [_ E]. exact E.
      * destruct (truthy data && truthy (prop data "data")); [right | left]; reflexivity.
  - apply listProjects_run.
  - apply listInstances_run_any.
  - intros message. unfold outcome.
    rewrite listProjects_run, listInstances_run_any.
    repeat split; reflexivity.
Qed.

(* ================================================================== *)
(** ** Where a 400 comes from *)
(* ================================================================== *)

Lemma identified_unfold (body : JsVal) :
  identified body
  = negb (falsy (prop body "project_id") || falsy (prop body "id_instancia")
          || falsy (prop body "table")).
Proof.
  unfold identified, falsy.
  destruct (truthy (prop body "project_id")), (truthy (prop body "id_instancia")),
    (truthy (prop body "table")); reflexivity.
Qed.

(** X20. Under the controller with inline checks, over any service, a
    request that passes the key check and has a body is answered 400
    exactly when it fails the handler's check: one of the three
    identifiers is falsy, or the [data] or [operation] the operation
    requires is falsy, or the [data] or [updates] of a batch is not a
    list. A field that is present with the value [0], [false] or the
    empty text counts as missing. With a 400 nothing has been
    forwarded. *)
Theorem inline_400_exactly_on_failed_check (env : Env) (service : Service)
        (op : Operation) (req : Request) (remote : Remote) :
  authorized env req ->
  is_nullish (req_body req) = false ->
  exists r calls,
    handle env (Controller.exports service) op req remote [] = (Ok r, calls)
    /\ (res_status r = 400%Z <-> passes_inline_checks op (req_body req) = false)
    /\ (res_status r = 400%Z -> calls = []).
Proof.
  intros Hauth Hn.
  rewrite handle_unfold, validateApiKey_passes by exact Hauth.
  unfold passes_inline_checks. rewrite identified_unfold.
  destruct op; cbn [handler_of Controller.exports
      ctl_insertRecord ctl_batchInsert ctl_advancedSelect ctl_updateRecord
      ctl_batchUpdate ctl_deleteRecord ctl_aggregate];
    match goal with
    | |- context [?h service req remote []] => unfold h
    end;
    run_handler; rewrite Hn; unfold falsy;
    destruct (truthy (prop (req_body req) "project_id"));
    destruct (truthy (prop (req_body req) "id_instancia"));
    destruct (truthy (prop (req_body req) "table"));
    cbn [negb orb andb];
    try (do 2 eexists; split; [reflexivity|]; cbn [res_status];
         split; [split; intros; reflexivity | intros; reflexivity]);
    try match goal with
        | |- context [if negb ?c then _ else _] => destruct c; cbn [negb]
        | |- context [if negb ?c || false then _ else _] => destruct c; cbn [negb orb]
        end;
    try (do 2 eexists; split; [reflexivity|]; cbn [res_status];
         split; [split; intros; reflexivity | intros; reflexivity]);
    split_call;
    do 2 eexists; (split; [reflexivity|]); cbn [res_status];
    (split; [split; intros H; discriminate H | intros H; discriminate H]).
Qed.

Lemma inline_400_exactly_on_failed_check_witness :
  exists r calls,
    handle env_k1 (Controller.exports (DataPayload.service no_builtins)) OpDelete
           zero_project silent []
    = (Ok r, calls)
    /\ (res_status r = 400%Z <-> passes_inline_checks OpDelete (req_body zero_project) = false)
    /\ (res_status r = 400%Z -> calls = []).
Proof.
  apply (inline_400_exactly_on_failed_check env_k1 (DataPayload.service no_builtins)
           OpDelete zero_project silent).
  - apply authorized_k1.
  - reflexivity.
Defined.

(** X21. Under the controller written with helpers, over any service,
    the only 400 there is comes from the list guard of the two batch
    operations: a request is answered 400 only if it is a batch insert
    whose [data], or a batch update whose [updates], is not a list, and
    then nothing has been forwarded. Insert, select, update, delete and
    aggregate never answer 400 under this controller. *)
Theorem helper_400_only_from_list_guard (env : Env) (service : Service)
        (op : Operation) (req : Request) (remote : Remote) (r : Response)
        (calls : list Call) :
  handle env (HelperController.exports service) op req remote [] = (Ok r, calls) ->
  res_status r = 400%Z ->
  exists f,
    list_field op = Some f
    /\ is_array (prop (req_body req) f) = false
    /\ calls = [].
Proof.
  rewrite handle_unfold.
  destruct (validateApiKey_cases env req
              (handler_of (HelperController.exports service) op req)) as [-> | ->];
    [|intros H Hs; injection H as <- _; discriminate Hs].
  destruct op; cbn [handler_of HelperController.exports
      ctl_insertRecord ctl_batchInsert ctl_advancedSelect ctl_updateRecord
      ctl_batchUpdate ctl_deleteRecord ctl_aggregate];
    match goal with
    | |- ?h service req remote [] = _ -> _ => unfold h
    end;
    match goal with
    | |- context [HelperController.validateFields _ ?b ?fs ?c] =>
        destruct (validateFields_on_req_cases b fs c) as [[e ->] | ->]
    end;
    try (unfold bind, throw; intros H; discriminate H);
    run_helper; unfold get;
    try match goal with
        | |- context [if negb ?c then _ else _] => destruct c eqn:Ha; cbn [negb]
        end;
    try (intros H Hs; injection H as <- <-; eexists;
         split; [reflexivity | split; [exact Ha | reflexivity]]);
    split_call;
    try match goal with
        | |- context [is_nullish ?d] => destruct (is_nullish d)
        end;
    unfold ret, throw; intros H Hs; injection H as <- _; discriminate Hs.
Qed.

Lemma helper_400_only_from_list_guard_witness :
  exists f,
    list_field OpBatchInsert = Some f
    /\ is_array (prop (req_body batch_of_text) f) = false
    /\ (@nil Call) = [].
Proof.
  apply (helper_400_only_from_list_guard env_k1 (DataPayload.service no_builtins)
           OpBatchInsert batch_of_text silent
           (rejection 400 "data deve ser um array para batch insert") []).
  - reflexivity.
  - reflexivity.
Defined.

(* ================================================================== *)
(** ** The generic client: a rejection becomes a value *)
(* ================================================================== *)

Lemma goRequest_run (arg : JsVal) (remote : Remote) :
  is_nullish arg = false ->
  let method := param_default (str "POST") (prop arg "method") in
  let path := to_text method ++ " " ++ to_text (prop arg "url") in
  let sent := obj [("data", prop arg "data");
                   ("headers", obj [("api_key", prop arg "apiKey")])] in
  GoClient.goRequest arg remote []
  = (Ok (match remote path sent with
         | Replied d => d
         | Failed err => error_value err
         end),
     [(path, sent)]).
Proof.
  intros Hn method path sent. subst method path sent.
  unfold GoClient.goRequest, bind, destructure. rewrite Hn.
  unfold ret, try_catch, GoClient.client_request, error_value. cbv zeta.
  destruct (remote _ _) as [d | err]; [reflexivity|].
  destruct (thrown_response err); reflexivity.
Qed.

(** X22. The five generic operations of [goClient.js] never reject and
    never throw, whatever their arguments and whatever the engine does:
    each makes exactly one call, a POST to its own path that carries the
    caller's key in the [api_key] header, and returns the reply or, on a
    rejection, a value [{status: "error", message}]. The message is the
    body of the response when there is one and it is truthy, ["Erro no
    Go"] when the body is falsy, and the fixed text ["Não foi possível
    conectar ao Go"] when no response was received, so the HTTP client's
    own message is never passed on. *)
Theorem generic_calls_never_reject (c : GenericCall) (remote : Remote) :
  exists sent,
    forwarded (run_generic c) remote = [(generic_path c, sent)]
    /\ prop (prop sent "headers") "api_key" = generic_key c
    /\ outcome (run_generic c) remote
       = Ok (match remote (generic_path c) sent with
             | Replied d => d
             | Failed err => error_value err
             end)
    /\ (forall message, error_value (no_response message)
                        = obj [("status", str "error");
                               ("message", str "Não foi possível conectar ao Go")])
    /\ (forall message, error_value (error_response (str "") message)
                        = obj [("status", str "error"); ("message", str "Erro no Go")]).
Proof.
  destruct c; cbn [run_generic generic_path generic_key];
    unfold GoClient.insert, GoClient.getAll, GoClient.update, GoClient.remove,
      GoClient.universal, forwarded, outcome;
    rewrite goRequest_run by reflexivity;
    eexists; (split; [reflexivity|]); (split; [reflexivity|]);
    (split; [reflexivity|]); split; reflexivity.
Qed.

(* ================================================================== *)
(** ** The dashboard behind its login *)
(* ================================================================== *)

Lemma strictly_equal_text (password : JsVal) (expected : string) :
  Dashboard.strictly_equal password expected = true -> password = str expected.
Proof.
  destruct password; simpl; intros H; try discriminate H.
  apply String.eqb_eq in H. subst. reflexivity.
Qed.

(** One request: it is always answered; the dashboard is shown only to
    a session that is open; and a session is open afterwards only if it
    was open before and the request was not a logout, or the request was
    a login with the password. *)
Lemma serve_cases (configured : option string) (req : Dashboard.AdminRequest)
      (session : Dashboard.Session) (remote : Remote) (log : list Call) :
  exists reaction session' log',
    Dashboard.serve configured req session remote log = (Ok (reaction, session'), log')
    /\ (shows_dashboard reaction ->
        req = Dashboard.GetDashboard
        /\ truthy (Dashboard.adminAuthenticated session) = true)
    /\ (truthy (Dashboard.adminAuthenticated session') = true ->
        (truthy (Dashboard.adminAuthenticated session) = true
         /\ req <> Dashboard.GetLogout)
        \/ good_login (Dashboard.ADMIN_PASSWORD configured) req).
Proof.
  unfold Dashboard.serve, try_catch.
  destruct req as [| body | |]; cbn [Dashboard.route].
  - do 3 eexists. split; [reflexivity|]. split.
    + intros [locals H]. discriminate H.
    + intros H. left. split; [exact H | discriminate].
  - unfold Dashboard.login, bind, destructure.
    destruct (is_nullish body) eqn:Hn.
    + do 3 eexists. split; [reflexivity|]. split.
      * intros [locals H]. discriminate H.
      * intros H. left. split; [exact H | discriminate].
    + cbn [ret].
      destruct (Dashboard.strictly_equal (prop body "password")
                  (Dashboard.ADMIN_PASSWORD configured)) eqn:Hp.
      * do 3 eexists. split; [reflexivity|]. split.
        -- intros [locals H]. discriminate H.
        -- intros _. right. exists body. split; [reflexivity|].
           apply strictly_equal_text. exact Hp.
      * do 3 eexists. split; [reflexivity|]. split.
        -- intros [locals H]. discriminate H.
        -- intros H. left. split; [exact H | discriminate].
  - unfold Dashboard.authMiddleware.
    destruct (truthy (Dashboard.adminAuthenticated session)) eqn:Ht.
    + unfold Dashboard.dashboard, try_catch, bind.
      destruct (GoProjects.listProjects remote log) as [[projects | err] log'].
      * do 3 eexists. split; [reflexivity|]. split.
        -- intros _. split; reflexivity.
        -- intros H. left. split; [reflexivity | discriminate].
      * do 3 eexists. split; [reflexivity|]. split.
        -- intros _. split; reflexivity.
        -- intros H. left. split; [reflexivity | discriminate].
    + do 3 eexists. split; [reflexivity|]. split.
      * intros [locals H]. discriminate H.
      * intros H. rewrite Ht in H. discriminate H.
  - unfold Dashboard.authMiddleware.
    destruct (truthy (Dashboard.adminAuthenticated session)) eqn:Ht.
    + do 3 eexists. split; [reflexivity|]. split.
      * intros [locals H]. discriminate H.
      * intros H. discriminate H.
    + do 3 eexists. split; [reflexivity|]. split.
      * intros [locals H]. discriminate H.
      * intros H. rewrite Ht in H. discriminate H.
Qed.

(** The same, along the requests of a session that starts anywhere. *)
Lemma serve_all_open (configured : option string) (reqs : list Dashboard.AdminRequest) :
  forall (session : Dashboard.Session) (remote : Remote) (log : list Call),
  exists reactions final log',
    Dashboard.serve_all configured reqs session remote log
    = (Ok (reactions, final), log')
    /\ List.length reactions = List.length reqs
    /\ (forall i r,
          nth_error reactions i = Some r -> shows_dashboard r ->
          nth_error reqs i = Some Dashboard.GetDashboard
          /\ ((truthy (Dashboard.adminAuthenticated session) = true
               /\ forall k, (k < i)%nat -> nth_error reqs k <> Some Dashboard.GetLogout)
              \/ exists j req,
                   (j < i)%nat
                   /\ nth_error reqs j = Some req
                   /\ good_login (Dashboard.ADMIN_PASSWORD configured) req
                   /\ forall k, (j < k < i)%nat ->
                                nth_error reqs k <> Some Dashboard.GetLogout)).
Proof.
  induction reqs as [|req reqs IH]; intros session remote log.
  - exists [], session, log. split; [reflexivity|]. split; [reflexivity|].
    intros i r H. destruct i; discriminate H.
  - destruct (serve_cases configured req session remote log)
      as [reaction [session' [log1 [Hserve [Hshow Hopen]]]]].
    destruct (IH session' remote log1) as [reactions [final [log2 [Hrest [Hlen Hinv]]]]].
    exists (reaction :: reactions), final, log2.
    split; [|split].
    + cbn [Dashboard.serve_all]. unfold bind. rewrite Hserve. cbn [snd fst].
      rewrite Hrest. reflexivity.
    + simpl. rewrite Hlen. reflexivity.
    + intros i r Hnth Hr. destruct i as [|i].
      * simpl in Hnth. injection Hnth as <-.
        destruct (Hshow Hr) as [-> Ht]. split; [reflexivity|].
        left. split; [exact Ht|]. intros k Hk. lia.
      * simpl in Hnth. destruct (Hinv i r Hnth Hr) as [Hreq Hcases].
        split; [exact Hreq|].
        destruct Hcases as [[Ht Hno] | [j [req' [Hj [Hnj [Hgood Hno]]]]]].
        -- destruct (Hopen Ht) as [[Ht0 Hne] | Hgood].
           ++ left. split; [exact Ht0|]. intros k Hk. destruct k as [|k].
              ** simpl. intros H. injection H as H. exact (Hne H).
              ** simpl. apply Hno. lia.
           ++ right. exists 0%nat, req. split; [lia|]. split; [reflexivity|].
              split; [exact Hgood|]. intros k Hk. destruct k as [|k]; [lia|].
              simpl. apply Hno. lia.
        -- right. exists (S j), req'. split; [lia|]. split; [exact Hnj|].
           split; [exact Hgood|]. intros k Hk. destruct k as [|k]; [lia|].
           simpl. apply Hno. lia.
Qed.

(** One request, the other way round: a session that is open stays open
    unless the request is a logout, a login with the password opens it,
    and an open session that asks for the dashboard is shown it. *)
Lemma serve_open_cases (configured : option string) (req : Dashboard.AdminRequest)
      (session session' : Dashboard.Session) (reaction : Dashboard.Reaction)
      (remote : Remote) (log log' : list Call) :
  Dashboard.serve configured req session remote log = (Ok (reaction, session'), log') ->
  (truthy (Dashboard.adminAuthenticated session) = true ->
   req <> Dashboard.GetLogout ->
   truthy (Dashboard.adminAuthenticated session') = true)
  /\ (good_login (Dashboard.ADMIN_PASSWORD configured) req ->
      truthy (Dashboard.adminAuthenticated session') = true)
  /\ (req = Dashboard.GetDashboard ->
      truthy (Dashboard.adminAuthenticated session) = true ->
      shows_dashboard reaction).
Proof.
  unfold Dashboard.serve, try_catch.
  destruct req as [| body | |]; cbn [Dashboard.route].
  - unfold Dashboard.loginPage, ret. intros H. injection H as <- <- <-.
    split; [intros Ht _; exact Ht|]. split.
    + intros [body [H _]]. discriminate H.
    + intros H. discriminate H.
  - unfold Dashboard.login, bind, destructure.
    destruct (is_nullish body) eqn:Hn.
    + unfold throw, ret. intros H. injection H as <- <- <-.
      split; [intros Ht _; exact Ht|]. split.
      * intros [body' [Hb Hp]]. injection Hb as <-.
        destruct body; try discriminate Hn; discriminate Hp.
      * intros H. discriminate H.
    + cbn [ret].
      destruct (Dashboard.strictly_equal (prop body "password")
                  (Dashboard.ADMIN_PASSWORD configured)) eqn:Hp.
      * intros H. injection H as <- <- <-.
        split; [intros _ _; reflexivity|]. split.
        -- intros _. reflexivity.
        -- intros H. discriminate H.
      * intros H. injection H as <- <- <-.
        split; [intros Ht _; exact Ht|]. split.
        -- intros [body' [Hb Hpw]]. injection Hb as <-.
           rewrite Hpw in Hp. simpl in Hp. rewrite String.eqb_refl in Hp.
           discriminate Hp.
        -- intros H. discriminate H.
  - unfold Dashboard.authMiddleware.
    destruct (truthy (Dashboard.adminAuthenticated session)) eqn:Ht.
    + unfold Dashboard.dashboard, try_catch, bind.
      destruct (GoProjects.listProjects remote log) as [[projects | err] log1];
        unfold ret; intros H; injection H as <- <- <-;
        (split; [intros _ _; exact Ht|]);
        (split; [intros [body [H _]]; discriminate H|]);
        intros _ _; eexists; reflexivity.
    + unfold ret. intros H. injection H as <- <- <-.
      split; [intros H; discriminate H|]. split.
      * intros [body [H _]]. discriminate H.
      * intros _ H. discriminate H.
  - unfold Dashboard.authMiddleware.
    destruct (truthy (Dashboard.adminAuthenticated session)) eqn:Ht.
    + unfold Dashboard.logout, ret. intros H. injection H as <- <- <-.
      split; [intros _ H; exfalso; apply H; reflexivity|]. split.
      * intros [body [H _]]. discriminate H.
      * intros H. discriminate H.
    + unfold ret. intros H. injection H as <- <- <-.
      split; [intros H; discriminate H|]. split.
      * intros [body [H _]]. discriminate H.
      * intros H. discriminate H.
Qed.

(** The same, along the requests of a session that starts anywhere. *)
Lemma serve_all_shown (configured : option string) (reqs : list Dashboard.AdminRequest) :
  forall (session final : Dashboard.Session) (remote : Remote) (log log' : list Call)
         (reactions : list Dashboard.Reaction),
    Dashboard.serve_all configured reqs session remote log
    = (Ok (reactions, final), log') ->
    forall i,
      nth_error reqs i = Some Dashboard.GetDashboard ->
      ((truthy (Dashboard.adminAuthenticated session) = true
        /\ forall k, (k < i)%nat -> nth_error reqs k <> Some Dashboard.GetLogout)
       \/ exists j req,
            (j < i)%nat
            /\ nth_error reqs j = Some req
            /\ good_login (Dashboard.ADMIN_PASSWORD configured) req
            /\ forall k, (j < k < i)%nat ->
                         nth_error reqs k <> Some Dashboard.GetLogout) ->
      exists r, nth_error reactions i = Some r /\ shows_dashboard r.
Proof.
  induction reqs as [|req reqs IH];
    intros session final remote log log' reactions Hrun i Hreq Hopen.
  - destruct i; discriminate Hreq.
  - destruct (serve_cases configured req session remote log)
      as [reaction [session' [log1 [Hserve _]]]].
    destruct (serve_all_open configured reqs session' remote log1)
      as [rest [final' [log2 [Hrest _]]]].
    cbn [Dashboard.serve_all] in Hrun. unfold bind in Hrun.
    rewrite Hserve in Hrun. cbn [snd fst] in Hrun. rewrite Hrest in Hrun.
    unfold ret in Hrun. cbn [snd fst] in Hrun. injection Hrun as <- <- <-.
    destruct (serve_open_cases configured req session session' reaction remote log log1
                Hserve) as [Hkeep [Hgood Hshow]].
    destruct i as [|i].
    + simpl in Hreq. injection Hreq as ->.
      exists reaction. split; [reflexivity|].
      destruct Hopen as [[Ht _] | [j [req' [Hj _]]]]; [|lia].
      apply Hshow; [reflexivity | exact Ht].
    + simpl in Hreq. cbn [nth_error].
      apply (IH session' final' remote log1 log2 rest Hrest i Hreq).
      destruct Hopen as [[Ht Hno] | [j [req' [Hj [Hnj [Hg Hno]]]]]].
      * left. split.
        -- apply Hkeep; [exact Ht|]. intros Heq.
           apply (Hno 0%nat); [lia|]. simpl. rewrite Heq. reflexivity.
        -- intros k Hk. apply (Hno (S k)). lia.
      * destruct j as [|j].
        -- simpl in Hnj. injection Hnj as <-. left. split; [apply Hgood; exact Hg|].
           intros k Hk. apply (Hno (S k)). lia.
        -- right. exists j, req'. split; [lia|]. split; [exact Hnj|].
           split; [exact Hg|]. intros k Hk. apply (Hno (S k)). lia.
Qed.

(** X23. Over the requests of one browser session that starts fresh,
    every request is answered, and the dashboard is rendered exactly in
    reply to a GET of [/dashboard] that comes after a login carrying the
    configured password with no logout in between: to no other request,
    and to every such request. An open session that asks for the
    dashboard is rendered it whether or not the engine can list the
    projects: with the projects the engine lists, or, when the call
    fails, with no projects and the text ["Erro ao carregar projetos"].
    When [ADMIN_PASSWORD] is unset or empty the password is
    ["senha_super_secreta"]. *)
Theorem dashboard_needs_login_since_logout (configured : option string)
        (reqs : list Dashboard.AdminRequest) (remote : Remote) :
  (exists reactions final calls,
      Dashboard.serve_all configured reqs Dashboard.fresh remote []
      = (Ok (reactions, final), calls)
      /\ List.length reactions = List.length reqs
      /\ (forall i r,
            nth_error reactions i = Some r -> shows_dashboard r ->
            nth_error reqs i = Some Dashboard.GetDashboard
            /\ exists j req,
                 (j < i)%nat
                 /\ nth_error reqs j = Some req
                 /\ good_login (Dashboard.ADMIN_PASSWORD configured) req
                 /\ forall k, (j < k < i)%nat ->
                              nth_error reqs k <> Some Dashboard.GetLogout)
      /\ (forall i j req,
            nth_error reqs i = Some Dashboard.GetDashboard ->
            (j < i)%nat ->
            nth_error reqs j = Some req ->
            good_login (Dashboard.ADMIN_PASSWORD configured) req ->
            (forall k, (j < k < i)%nat ->
                       nth_error reqs k <> Some Dashboard.GetLogout) ->
            exists r, nth_error reactions i = Some r /\ shows_dashboard r))
  /\ (forall (session : Dashboard.Session) (log : list Call),
        truthy (Dashboard.adminAuthenticated session) = true ->
        Dashboard.serve configured Dashboard.GetDashboard session remote log
        = (Ok (Dashboard.Render "admin/dashboard"
                 match remote "GET /projects" JUndef with
                 | Replied data => obj [("projects", listed data)]
                 | Failed _ => obj [("projects", JArr []);
                                    ("error", str "Erro ao carregar projetos")]
                 end,
               session),
           app log [("GET /projects", JUndef)]))
  /\ Dashboard.ADMIN_PASSWORD None = "senha_super_secreta"
  /\ Dashboard.ADMIN_PASSWORD (Some "") = "senha_super_secreta".
Proof.
  split; [|split; [|split; reflexivity]].
  - destruct (serve_all_open configured reqs Dashboard.fresh remote [])
      as [reactions [final [calls [Hrun [Hlen Hinv]]]]].
    exists reactions, final, calls. split; [exact Hrun|]. split; [exact Hlen|]. split.
    + intros i r Hnth Hr. destruct (Hinv i r Hnth Hr) as [Hreq Hcases].
      split; [exact Hreq|].
      destruct Hcases as [[Ht _] | H]; [discriminate Ht | exact H].
    + intros i j req Hreq Hj Hnj Hgood Hno.
      apply (serve_all_shown configured reqs Dashboard.fresh final remote [] calls
               reactions Hrun i Hreq).
      right. exists j, req. repeat split; assumption.
  - intros session log Ht.
    unfold Dashboard.serve, try_catch. cbn [Dashboard.route].
    unfold Dashboard.authMiddleware. rewrite Ht.
    unfold Dashboard.dashboard, try_catch, bind. rewrite listProjects_run.
    destruct (remote "GET /projects" JUndef); reflexivity.
Qed.

(** The engine cannot be reached: the dashboard is rendered all the same,
    without projects. *)
Example dashboard_without_engine :
  fst (Dashboard.serve_all (Some "s3nha")
         [Dashboard.PostLogin (obj [("password", str "s3nha")]);
          Dashboard.GetDashboard]
         Dashboard.fresh refused [])
  = Ok ([Dashboard.RedirectTo "/admin/dashboard";
         Dashboard.Render "admin/dashboard"
           (obj [("projects", JArr []);
                 ("error", str "Erro ao carregar projetos")])],
        {| Dashboard.adminAuthenticated := JBool true |}).
Proof. reflexivity. Qed.

(** A session in which the dashboard is opened, closed, and asked for
    again. *)
Example dashboard_session :
  fst (Dashboard.serve_all None
         [Dashboard.GetDashboard;
          Dashboard.PostLogin (obj [("password", str "senha_super_secreta")]);
          Dashboard.GetDashboard;
          Dashboard.GetLogout;
          Dashboard.GetDashboard]
         Dashboard.fresh projects_engine [])
  = Ok ([Dashboard.RedirectTo "/admin/login";
         Dashboard.RedirectTo "/admin/dashboard";
         Dashboard.Render "admin/dashboard" (obj [("projects", JArr [sample_project])]);
         Dashboard.RedirectTo "/admin/login";
         Dashboard.RedirectTo "/admin/login"],
        {| Dashboard.adminAuthenticated := JBool false |}).
Proof. reflexivity. Qed.

(* ================================================================== *)
(** ** Keys that can never pass *)
(* ================================================================== *)

Lemma entry_has_no_comma (env : Env) (k : string) :
  In k (allow_list env) -> mentions "," k = false.
Proof.
  unfold allow_list. destruct (API_KEYS env) as [s|]; [|intros []].
  intros Hin. pose proof (split_on_entries "," s) as Hall.
  rewrite Forall_forall in Hall. apply Hall. exact Hin.
Qed.

(** X24. Whatever [API_KEYS] holds and whichever controller is mounted,
    a POST to an operation path (one that asks for no other method with
    [_method] in its query) whose [x-api-key] is the empty text, or
    contains a comma, never reaches a handler and nothing is forwarded.
    When the body parsers of [app.js] accept its body, it is answered 401:
    an empty entry in the list (as in ["a,,b"]) admits no one, and a key
    with a comma in it cannot be configured. When they refuse its body, it
    is answered 500 by the error handler, before the key is looked at. *)
Theorem empty_or_comma_key_is_401 (env : Env) (controller : ControllerModule)
        (op : Operation) (req : Request) (remote : Remote) (k : string) :
  header (req_headers req) "x-api-key" = Some k ->
  k = "" \/ mentions "," k = true ->
  App.post env controller op (arriving req) remote []
  = (Ok (rejection 401 "Chave de API inválida ou ausente"), [])
  /\ App.post env controller op (unparsable req) remote []
     = (Ok {| res_status := 500; res_body := str "Erro interno" |}, []).
Proof.
  intros Hh Hk. split; [|reflexivity].
  rewrite post_arriving, handle_unfold. destruct Hk as [-> | Hk].
  - unfold validateApiKey. rewrite Hh. reflexivity.
  - rewrite validateApiKey_rejects; [reflexivity|].
    left. unfold unlisted. rewrite Hh. intros Hin.
    rewrite (entry_has_no_comma env k Hin) in Hk. discriminate Hk.
Qed.

Lemma empty_or_comma_key_is_401_witness :
  App.post {| API_KEYS := Some "k1,k2" |}
           (Controller.exports (DataPayload.service no_builtins)) OpGet
           (arriving comma_key) silent []
  = (Ok (rejection 401 "Chave de API inválida ou ausente"), [])
  /\ App.post {| API_KEYS := Some "k1,k2" |}
              (Controller.exports (DataPayload.service no_builtins)) OpGet
              (unparsable comma_key) silent []
     = (Ok {| res_status := 500; res_body := str "Erro interno" |}, []).
Proof.
  apply (empty_or_comma_key_is_401 {| API_KEYS := Some "k1,k2" |}
           (Controller.exports (DataPayload.service no_builtins)) OpGet
           comma_key silent "k1,k2").
  - reflexivity.
  - right. reflexivity.
Defined.

(* ================================================================== *)
(** ** When the controller with helpers leaves a request unanswered *)
(* ================================================================== *)

Lemma required_not_nil (op : Operation) : required op <> [].
Proof. destruct op; discriminate. Qed.

Lemma missing_fields_unparsed (body : JsVal) (fields : list string) :
  ~ parsed body -> fields <> [] ->
  exists e, HelperController.missing_fields body fields = Throw e.
Proof.
  intros Hb Hf. destruct fields as [|f fs]; [congruence|].
  cbn [HelperController.missing_fields].
  unfold HelperController.is_missing, HelperController.in_operator.
  destruct body; try (eexists; reflexivity); exfalso; apply Hb; exact I.
Qed.

(** With nothing missing, every handler written with helpers answers. *)
Lemma helper_handler_answers (service : Service) (op : Operation) (req : Request)
      (remote : Remote) :
  parsed (req_body req) ->
  missing_of (req_body req) (required op) = [] ->
  exists r, outcome (handler_of (HelperController.exports service) op req) remote = Ok r.
Proof.
  intros Hb Hm. unfold outcome.
  destruct op; cbn [handler_of HelperController.exports
      ctl_insertRecord ctl_batchInsert ctl_advancedSelect ctl_updateRecord
      ctl_batchUpdate ctl_deleteRecord ctl_aggregate];
    match goal with
    | |- context [?h service req remote []] => unfold h
    end;
    simpl required in Hm;
    rewrite validateFields_nothing_missing by assumption;
    run_helper; unfold get;
    try match goal with
        | |- context [if negb ?c then _ else _] => destruct c; cbn [negb]
        end;
    try (eexists; reflexivity);
    split_call;
    try match goal with
        | |- context [is_nullish ?d] => destruct (is_nullish d)
        end;
    eexists; reflexivity.
Qed.

(** X25. Under the controller written with helpers, over any service,
    a request that passes the key check is left without an answer (the
    handler throws, nothing is written) exactly when [validateFields]
    has something to report or cannot run: the body is not an object or
    a list, or a required field is absent or [null]. Every other request
    is answered. *)
Theorem helper_unanswered_exactly_when_invalid (env : Env) (service : Service)
        (op : Operation) (req : Request) (remote : Remote) :
  authorized env req ->
  (exists e, outcome (handle env (HelperController.exports service) op req) remote
             = Throw e)
  <-> (~ parsed (req_body req) \/ missing_of (req_body req) (required op) <> []).
Proof.
  intros Hauth. rewrite handle_unfold, validateApiKey_passes by exact Hauth.
  assert (Hdec : parsed (req_body req) \/ ~ parsed (req_body req)).
  { destruct (req_body req); simpl; tauto. }
  split.
  - intros [e He]. destruct Hdec as [Hb | Hb]; [|left; exact Hb].
    right. intros Hm.
    destruct (helper_handler_answers service op req remote Hb Hm) as [r Hr].
    rewrite Hr in He. discriminate He.
  - intros [Hb | Hm].
    + destruct (missing_fields_unparsed _ _ Hb (required_not_nil op)) as [e He].
      exists e. unfold outcome.
      destruct op; cbn [handler_of HelperController.exports
          ctl_insertRecord ctl_batchInsert ctl_advancedSelect ctl_updateRecord
          ctl_batchUpdate ctl_deleteRecord ctl_aggregate];
        match goal with
        | |- context [?h service req remote []] => unfold h
        end;
        unfold HelperController.validateFields, bind;
        simpl required in He; rewrite He; reflexivity.
    + destruct Hdec as [Hb | Hb].
      * exists (TypeError "res.status is not a function"). unfold outcome.
        rewrite (helper_handlers_throw service op req remote Hb Hm). reflexivity.
      * destruct (missing_fields_unparsed _ _ Hb (required_not_nil op)) as [e He].
        exists e. unfold outcome.
        destruct op; cbn [handler_of HelperController.exports
            ctl_insertRecord ctl_batchInsert ctl_advancedSelect ctl_updateRecord
            ctl_batchUpdate ctl_deleteRecord ctl_aggregate];
          match goal with
          | |- context [?h service req remote []] => unfold h
          end;
          unfold HelperController.validateFields, bind;
          simpl required in He; rewrite He; reflexivity.
Qed.

Lemma helper_unanswered_exactly_when_invalid_witness :
  (exists e, outcome (handle env_k1 (HelperController.exports (DataPayload.service no_builtins))
                             OpDelete zero_project) silent
             = Throw e)
  <-> (~ parsed (req_body zero_project)
       \/ missing_of (req_body zero_project) (required OpDelete) <> []).
Proof.
  apply (helper_unanswered_exactly_when_invalid env_k1 (DataPayload.service no_builtins)
           OpDelete zero_project silent).
  apply authorized_k1.
Defined.

(* ================================================================== *)
(** ** Delete, without a filter *)
(* ================================================================== *)

(** X26. Whichever copy of the controller and of the service is in
    place, a delete that passes the key check is forwarded exactly when
    its three identifiers are truthy. No filter is required: with
    [where] left out the payload says [where: {}], with [where_raw] left
    out it says [where_raw: null], and the request goes to
    [/data/delete] all the same. *)
Theorem delete_forwards_without_filter (B : Builtins) (service : Service)
        (controller : ControllerModule) (env : Env) (req : Request) (remote : Remote) :
  In service (services B) ->
  In controller (controllers service) ->
  authorized env req ->
  let body := req_body req in
  forwarded (handle env controller OpDelete req) remote
  = (if identified body then [("/data/delete", delete_payload body)] else [])
  /\ (absent body "where" -> prop (delete_payload body) "where" = obj [])
  /\ (absent body "where_raw" -> prop (delete_payload body) "where_raw" = JNull)
  /\ (truthy (prop body "where") = true ->
      prop (delete_payload body) "where" = prop body "where").
Proof.
  intros Hin Hc Hauth body. subst body.
  destruct (services_built B service Hin) as [rtg [detail Hb]].
  split; [|split; [|split]].
  - rewrite handle_unfold, validateApiKey_passes by exact Hauth.
    cbn [handler_of].
    apply (deleteRecord_forwarded B service controller req remote rtg detail Hb Hc).
  - intros Ha. simpl. rewrite (absent_prop _ _ Ha) by discriminate. reflexivity.
  - intros Ha. simpl. rewrite (absent_prop _ _ Ha) by discriminate. reflexivity.
  - intros Ht. simpl. unfold or_else. rewrite Ht. reflexivity.
Qed.

Lemma delete_forwards_without_filter_witness :
  let body := req_body delete_everything in
  forwarded (handle env_k1 (Controller.exports (ColumnPayload.service no_builtins))
                    OpDelete delete_everything) silent
  = (if identified body then [("/data/delete", delete_payload body)] else [])
  /\ (absent body "where" -> prop (delete_payload body) "where" = obj [])
  /\ (absent body "where_raw" -> prop (delete_payload body) "where_raw" = JNull)
  /\ (truthy (prop body "where") = true ->
      prop (delete_payload body) "where" = prop body "where").
Proof.
  apply (delete_forwards_without_filter no_builtins (ColumnPayload.service no_builtins)
           (Controller.exports (ColumnPayload.service no_builtins)) env_k1
           delete_everything silent).
  - simpl. tauto.
  - simpl. tauto.
  - apply authorized_k1.
Defined.
